(** * haresheet: request builder and batch execution pipeline

    A shallow embedding of the Go package [haresheet]
    (builder.go, sheet_builder.go, row_builder.go, col_builder.go,
    batch_update_executor.go, client.go) together with the properties
    of the accumulator ("Builder") and of the execution pipeline
    ("BatchUpdateExecutor").

    Conventions of the embedding:
    - Go [int] and [int64] are 64-bit two's complement integers, modelled
      as [Z]; arithmetic on caller-supplied integers wraps ([add64]).
      [len] of a slice is a non-negative [Z]; sums of slice lengths cannot
      overflow and are written with plain [+].
    - a Go slice is a [list]; the nil slice and the empty slice are both [[]]
      (the code only uses [len], [append] and [range] on them).
    - a Go [error] value is [option error]: [None] is [nil].
    - a pointer that may be nil is an [option]; a pointer receiver that the
      method mutates is threaded explicitly (the method returns the new
      state).
    - the remote service and the instrumentation callbacks are the outside
      world: every interaction with them is recorded in a chronological
      [Log], and the answer of the service is given by an arbitrary
      function of the history ([Service]). *)

From Stdlib Require Import ZArith List String Ascii Bool Lia DecimalString.
Import ListNotations.
Open Scope Z_scope.

#[local] Set Warnings "-register-all".

(** ** Go primitives used by the package *)

Definition wrap64 (z : Z) : Z := (z + 2 ^ 63) mod 2 ^ 64 - 2 ^ 63.

Definition add64 (a b : Z) : Z := wrap64 (a + b).

(** [len] of a slice. *)
Definition len {A : Type} (l : list A) : Z := Z.of_nat (List.length l).

(** The verb [%d] of [fmt]. *)
Definition fmt_d (z : Z) : string := NilZero.string_of_int (Z.to_int z).

(** [a +s b] is string concatenation. *)
Infix "+s" := String.append (at level 50, left associativity).

(** [strings.Join]. *)
Fixpoint strings_Join (elems : list string) (sep : string) : string :=
  match elems with
  | [] => EmptyString
  | [a] => a
  | a :: rest => a +s sep +s strings_Join rest sep
  end.

(** A [float64], given by its IEEE-754 bit pattern, or obtained by the
    conversion [float64(i)] of an [int], which is kept symbolic. *)
Inductive float64 : Type :=
| Float64Bits (bits : Z)
| Float64OfInt (i : Z).

(** A value of the interface type [any]: [nil], one of the dynamic types
    the package inspects, or a value of some other dynamic type (named by
    its type, e.g. [int64], [uint8], [time.Time]). *)
Inductive any : Type :=
| AnyNil
| AnyString (s : string)
| AnyInt (i : Z)
| AnyFloat64 (f : float64)
| AnyBool (b : bool)
| AnyOther (dynamicType : string).

(** ** The request types of google.golang.org/api/sheets/v4 that the
    package builds. Field names follow the Go structs; a field that the
    package never sets is left out. *)
Module sheets.

Record Color := mkColor
  { Red : float64; Green : float64; Blue : float64; Alpha : float64 }.

Record SpreadsheetProperties := mkSpreadsheetProperties
  { sp_Title : string; sp_Locale : string; sp_TimeZone : string }.

Record SheetProperties := mkSheetProperties
  { shp_SheetId : Z;
    shp_Title : string;
    shp_Index : Z;
    shp_Hidden : bool;
    shp_TabColor : option Color;
    shp_ForceSendFields : list string }.

Record GridRange := mkGridRange
  { gr_SheetId : Z;
    gr_StartRowIndex : Z;
    gr_EndRowIndex : Z;
    gr_StartColumnIndex : Z;
    gr_EndColumnIndex : Z }.

Record GridCoordinate := mkGridCoordinate
  { gc_SheetId : Z; gc_RowIndex : Z; gc_ColumnIndex : Z }.

Record DimensionRange := mkDimensionRange
  { dr_SheetId : Z; dr_Dimension : string; dr_StartIndex : Z; dr_EndIndex : Z }.

Record DimensionProperties := mkDimensionProperties
  { dp_HiddenByUser : bool; dp_PixelSize : Z }.

Record ExtendedValue := mkExtendedValue
  { FormulaValue : option string;
    StringValue : option string;
    NumberValue : option float64;
    BoolValue : option bool }.

Record TextFormat := mkTextFormat
  { ForegroundColor : option Color; Link : option string }.

Record CellFormat := mkCellFormat
  { TextFormat_ : option TextFormat; BackgroundColor : option Color }.

Record CellData := mkCellData
  { UserEnteredValue : option ExtendedValue;
    UserEnteredFormat : option CellFormat }.

Record RowData := mkRowData { Values : list CellData }.

Record DuplicateSheetRequest := mkDuplicateSheetRequest
  { SourceSheetId : Z;
    InsertSheetIndex : Z;
    NewSheetId : Z;
    NewSheetName : string }.

Record CopyPasteRequest := mkCopyPasteRequest
  { Source : GridRange;
    Destination : GridRange;
    PasteType : string;
    PasteOrientation : string }.

Record ProtectedRange := mkProtectedRange
  { pr_Range : GridRange;
    pr_Description : string;
    pr_WarningOnly : bool;
    pr_Editors : option (list string) }.

(** [sheets.Request]: a struct with one pointer field per kind of
    mutation, of which the package sets exactly one. *)
Inductive Request : Type :=
| UpdateSpreadsheetProperties (Properties : SpreadsheetProperties) (Fields : string)
| AddSheet (Properties : SheetProperties)
| DuplicateSheet (r : DuplicateSheetRequest)
| DeleteSheet (SheetId : Z)
| CopyPaste (r : CopyPasteRequest)
| MergeCells (Range : GridRange) (MergeType : string)
| AppendDimension (SheetId : Z) (Dimension : string) (Length : Z)
| InsertDimension (Range : DimensionRange)
| UpdateCells (Start : GridCoordinate) (Rows : list RowData) (Fields : string)
| AddProtectedRange (r : ProtectedRange)
| RepeatCell (Range : GridRange) (Cell : CellData) (Fields : string)
| UpdateSheetProperties (Properties : SheetProperties) (Fields : string)
| InsertRange (Range : GridRange) (ShiftDimension : string)
| DeleteRange (Range : GridRange) (ShiftDimension : string)
| UpdateDimensionProperties
    (Range : DimensionRange) (Properties : DimensionProperties) (Fields : string).

(** Zero values of the structs. *)
Definition zeroSpreadsheetProperties : SpreadsheetProperties :=
  mkSpreadsheetProperties EmptyString EmptyString EmptyString.

Definition zeroSheetProperties : SheetProperties :=
  mkSheetProperties 0 EmptyString 0 false None [].

Definition zeroExtendedValue : ExtendedValue :=
  mkExtendedValue None None None None.

Definition zeroCellData : CellData := mkCellData None None.

Definition isUpdateSpreadsheetProperties (r : Request) : bool :=
  match r with
  | UpdateSpreadsheetProperties _ _ => true
  | _ => false
  end.

End sheets.

(** ** batch_update_executor.go: data *)

Record RequestUnitInfo := mkRequestUnitInfo
  { Label : string; StartIndex : Z; EndIndex : Z; Count : Z }.

(** Go error values built by the package, and the error a remote call
    returns. *)
Inductive error : Type :=
| ErrorString (msg : string)
    (* errors.New, and fmt.Errorf without %w *)
| TransportError (msg : string)
    (* returned by the remote BatchUpdate call *)
| BatchUpdateError (Err : error) (Units : list RequestUnitInfo)
| WrapError (msg : string) (wrapped : error)
    (* fmt.Errorf with %w: the prefix and the wrapped error *)
| JoinError (errs : list error).
    (* errors.Join *)

(** [errors.Join]: nil values are discarded, and the result is nil when
    nothing is left. *)
Fixpoint discardNil (es : list (option error)) : list error :=
  match es with
  | [] => []
  | None :: rest => discardNil rest
  | Some e :: rest => e :: discardNil rest
  end.

Definition errors_Join (errs : list (option error)) : option error :=
  match discardNil errs with
  | [] => None
  | es => Some (JoinError es)
  end.

(** The method [Unwrap] of [BatchUpdateError], and of a [%w] wrapper. *)
Definition Unwrap (e : error) : option error :=
  match e with
  | BatchUpdateError inner _ => Some inner
  | WrapError _ inner => Some inner
  | _ => None
  end.

Record FlushStatus := mkFlushStatus
  { RequestCount : Z;
    fs_Units : list RequestUnitInfo;
    SpreadsheetID : string }.

(** [ClientTrace]: which of the two callbacks are set. The callbacks are
    code of the embedding application; calling one is an event of the
    log, and a callback is assumed to leave the status it is handed, and
    the executor, alone. *)
Record ClientTrace := mkClientTrace
  { OnFlushStart : bool; OnFlushDone : bool }.

Inductive Event : Type :=
| EvFlushStart (status : FlushStatus)
| EvBatchUpdate (spreadID : string) (payload : list sheets.Request)
| EvFlushDone (status : FlushStatus) (err : option error).

Definition Log := list Event.

(** The remote service: the outcome of a BatchUpdate call ([None] is
    success) may depend on everything that happened before, on the document
    and on the payload. *)
Definition Service := Log -> string -> list sheets.Request -> option error.

Definition isBatchUpdate (ev : Event) : bool :=
  match ev with
  | EvBatchUpdate _ _ => true
  | _ => false
  end.

(** The number of remote calls recorded in a log. *)
Definition remoteCalls (l : Log) : nat := List.length (filter isBatchUpdate l).

(** ** batch_update_executor.go: the pipeline

    The field [service] of the Go struct is the handle of the remote
    service; here it is the section variable [service] (the handle is
    assumed not to be nil). The wall-clock duration handed to [OnFlushDone]
    is not modelled. *)
Module BatchUpdateExecutor.

Record t := mk
  { spreadID : string;
    requests : list sheets.Request;
    units : list RequestUnitInfo;
    limit : Z;
    err : option error;
    Trace : option ClientTrace }.

Definition set_requests_units
    (e : t) (rs : list sheets.Request) (us : list RequestUnitInfo) : t :=
  mk (spreadID e) rs us (limit e) (err e) (Trace e).

Definition set_limit (e : t) (l : Z) : t :=
  mk (spreadID e) (requests e) (units e) l (err e) (Trace e).

Definition set_err (e : t) (er : option error) : t :=
  mk (spreadID e) (requests e) (units e) (limit e) er (Trace e).

Definition set_Trace (e : t) (tr : option ClientTrace) : t :=
  mk (spreadID e) (requests e) (units e) (limit e) (err e) tr.

(** [NewBatchUpdateExecutor]. *)
Definition NewBatchUpdateExecutor (spreadsheetID : string) (limit : Z) : t :=
  let limit := if limit <=? 0 then 100 else limit in
  mk spreadsheetID [] [] limit None None.

(** [e.Trace != nil && e.Trace.OnFlushStart != nil], and the same for
    [OnFlushDone]. *)
Definition hasOnFlushStart (e : t) : bool :=
  match Trace e with
  | Some tr => OnFlushStart tr
  | None => false
  end.

Definition hasOnFlushDone (e : t) : bool :=
  match Trace e with
  | Some tr => OnFlushDone tr
  | None => false
  end.

Section WithService.

Variable service : Service.

(** [Flush]: the returned error, the executor and the log after the
    call. (The slice [labels] that the Go code fills is never read.) *)
Definition Flush (e : t) (w : Log) : option error * t * Log :=
  if len (requests e) =? 0 then (None, e, w)
  else
    let status :=
      mkFlushStatus (len (requests e)) (units e) (spreadID e) in
    let w := if hasOnFlushStart e then w ++ [EvFlushStart status] else w in
    let er := service w (spreadID e) (requests e) in
    let w := w ++ [EvBatchUpdate (spreadID e) (requests e)] in
    let w := if hasOnFlushDone e then w ++ [EvFlushDone status er] else w in
    match er with
    | Some er => (Some (BatchUpdateError er (units e)), e, w)
    | None => (None, set_requests_units e [] [], w)
    end.

(** The tail of [Queue] (from [startIndex := currentCount] on): the new
    unit is recorded and the requests are appended. *)
Definition appendUnit
    (e : t) (currentCount : Z) (reqs : list sheets.Request)
    (label : string) : t :=
  let newCount := len reqs in
  let startIndex := currentCount in
  let endIndex := currentCount + newCount - 1 in
  let label :=
    if String.eqb label EmptyString
    then "Unit-" +s fmt_d (len (units e) + 1) +s " [" +s fmt_d startIndex
         +s " - " +s fmt_d endIndex +s "]"
    else label in
  set_requests_units e
    (requests e ++ reqs)
    (units e ++ [mkRequestUnitInfo label startIndex endIndex newCount]).

(** [Queue]. *)
Definition Queue
    (e : t) (reqs : list sheets.Request) (label : string) (w : Log)
  : t * Log :=
  match err e with
  | Some _ => (e, w)
  | None =>
      let currentCount := len (requests e) in
      let newCount := len reqs in
      if (0 <? currentCount) && (limit e <? currentCount + newCount)
      then
        match Flush e w with
        | (Some er, e, w) => (set_err e (Some er), w)
        | (None, e, w) => (appendUnit e 0 reqs label, w)
        end
      else (appendUnit e currentCount reqs label, w)
  end.

End WithService.

End BatchUpdateExecutor.

(** ** The scoped views (sheet_builder.go, row_builder.go, col_builder.go)

    A view holds a pointer to the accumulator it was derived from and the
    identifiers it is scoped to. The pointer is not stored here: a method of
    a view takes the accumulator and returns it, so every view derived from
    an accumulator works on that one accumulator. *)
Record SheetBuilder := mkSheetBuilder { sheetID : Z }.

Record RowBuilder := mkRowBuilder
  { rb_sb : SheetBuilder; rb_start : Z; rb_count : Z }.

Record ColumnBuilder := mkColumnBuilder
  { cb_sb : SheetBuilder; cb_start : Z; cb_count : Z }.

(** row.go: [Rect], and the typed strings. *)
Record Rect := mkRect
  { Rect_Row : Z; Rect_Col : Z; Rect_Height : Z; Rect_Width : Z }.

Definition PasteTypeNormal : string := "PASTE_NORMAL".
Definition MergeTypeAll : string := "MERGE_ALL".
Definition MergeTypeRows : string := "MERGE_ROWS".
Definition MergeTypeCols : string := "MERGE_COLS".
Definition ShiftDimensionTypeRows : string := "ROWS".

(** ** builder.go *)
Module Builder.

Record t := mk
  { executor : option BatchUpdateExecutor.t;
    requests : list sheets.Request;
    errs : list error;
    props : option sheets.SpreadsheetProperties;
    propFields : list string }.

Definition set_executor (b : t) (e : option BatchUpdateExecutor.t) : t :=
  mk e (requests b) (errs b) (props b) (propFields b).

Definition set_requests (b : t) (rs : list sheets.Request) : t :=
  mk (executor b) rs (errs b) (props b) (propFields b).

Definition set_errs (b : t) (es : list error) : t :=
  mk (executor b) (requests b) es (props b) (propFields b).

Definition set_props (b : t) (p : option sheets.SpreadsheetProperties) : t :=
  mk (executor b) (requests b) (errs b) p (propFields b).

Definition set_propFields (b : t) (fs : list string) : t :=
  mk (executor b) (requests b) (errs b) (props b) fs.

(** [NewBuilder]. *)
Definition NewBuilder : t := mk None [] [] None [].

(** [Requests]: the returned pair and the accumulator after the call. *)
Definition Requests (b : t) : (list sheets.Request * option error) * t :=
  if 0 <? len (errs b) then (([], errors_Join (map Some (errs b))), b)
  else
    let finalRequests := requests b in
    let finalRequests :=
      match props b with
      | Some p =>
          if 0 <? len (propFields b)
          then
            let req :=
              sheets.UpdateSpreadsheetProperties p
                (strings_Join (propFields b) ",") in
            [req] ++ finalRequests
          else finalRequests
      | None => finalRequests
      end in
    ((finalRequests, None), b).

(** [AppendRequest]; the argument is a pointer. *)
Definition AppendRequest (request : option sheets.Request) (b : t) : t :=
  match request with
  | None => b
  | Some request => set_requests b (requests b ++ [request])
  end.

(** [PrependRequest]. *)
Definition PrependRequest (request : option sheets.Request) (b : t) : t :=
  match request with
  | None => b
  | Some request => set_requests b ([request] ++ requests b)
  end.

(** [appendError]. *)
Definition appendError (err : option error) (b : t) : t :=
  match err with
  | Some err => set_errs b (errs b ++ [err])
  | None => b
  end.

(** [ensureProps]. *)
Definition ensureProps (b : t) : t :=
  match props b with
  | None => set_props b (Some sheets.zeroSpreadsheetProperties)
  | Some _ => b
  end.

(** An assignment to a field of [*b.props]. *)
Definition assignProps
    (f : sheets.SpreadsheetProperties -> sheets.SpreadsheetProperties)
    (b : t) : t :=
  set_props b (option_map f (props b)).

(** [Title]. *)
Definition Title (title : string) (b : t) : t :=
  let b := ensureProps b in
  let b :=
    assignProps
      (fun p => sheets.mkSpreadsheetProperties
                  title (sheets.sp_Locale p) (sheets.sp_TimeZone p)) b in
  set_propFields b (propFields b ++ ["title"%string]).

(** [Locale]. *)
Definition Locale (locale : string) (b : t) : t :=
  let b := ensureProps b in
  let b :=
    assignProps
      (fun p => sheets.mkSpreadsheetProperties
                  (sheets.sp_Title p) locale (sheets.sp_TimeZone p)) b in
  set_propFields b (propFields b ++ ["locale"%string]).

(** [TimeZone]. *)
Definition TimeZone (tz : string) (b : t) : t :=
  let b := ensureProps b in
  let b :=
    assignProps
      (fun p => sheets.mkSpreadsheetProperties
                  (sheets.sp_Title p) (sheets.sp_Locale p) tz) b in
  set_propFields b (propFields b ++ ["timeZone"%string]).

(** [Sheet]: the view, and the accumulator after the call. *)
Definition Sheet (sheetID : Z) (b : t) : SheetBuilder * t :=
  let sb := mkSheetBuilder sheetID in
  if sheetID <? 0
  then
    (sb, appendError
           (Some (ErrorString ("Sheet: invalid sheet ID: " +s fmt_d sheetID))) b)
  else (sb, b).

(** [AddSheet]. *)
Definition AddSheet (sheetID : Z) (title : string) (index : Z) (b : t) : t :=
  let props := sheets.mkSheetProperties sheetID title 0 false None [] in
  let props :=
    if 0 <=? index
    then sheets.mkSheetProperties sheetID title index false None ["Index"%string]
    else props in
  let req := sheets.AddSheet props in
  set_requests b (requests b ++ [req]).

(** The loop of [CopySheet] over [newNames]. *)
Fixpoint copySheetLoop
    (srcSheetID toIndex currentIndex : Z) (newNames : list string) (b : t) : t :=
  match newNames with
  | [] => b
  | name :: rest =>
      let dsRequest := sheets.mkDuplicateSheetRequest srcSheetID 0 0 name in
      let '(dsRequest, currentIndex) :=
        if 0 <=? toIndex
        then (sheets.mkDuplicateSheetRequest srcSheetID currentIndex 0 name,
              add64 currentIndex 1)
        else (dsRequest, currentIndex) in
      let req := sheets.DuplicateSheet dsRequest in
      copySheetLoop srcSheetID toIndex currentIndex rest
        (AppendRequest (Some req) b)
  end.

(** [CopySheet]. *)
Definition CopySheet
    (srcSheetID toIndex : Z) (newNames : list string) (b : t) : t :=
  if srcSheetID <? 0
  then appendError
         (Some (ErrorString
                  ("CopySheet: invalid src sheet ID: " +s fmt_d srcSheetID))) b
  else if toIndex <? -1
  then appendError
         (Some (ErrorString ("CopySheet: invalid to index: " +s fmt_d toIndex))) b
  else if len newNames =? 0
  then appendError
         (Some (ErrorString "CopySheet: no sheet names specified")) b
  else copySheetLoop srcSheetID toIndex toIndex newNames b.

(** [CopySheetWithID]. (The message for an invalid new sheet id prints
    [toIndex], as the Go code does.) *)
Definition CopySheetWithID
    (srcSheetID toIndex newSheetID : Z) (newName : string) (b : t) : t :=
  if srcSheetID <? 0
  then appendError
         (Some (ErrorString
                  ("CopySheetWithID: invalid src sheet id: " +s fmt_d srcSheetID))) b
  else if toIndex <? -1
  then appendError
         (Some (ErrorString
                  ("CopySheetWithID: invalid to index: " +s fmt_d toIndex))) b
  else if newSheetID <? 0
  then appendError
         (Some (ErrorString
                  ("CopySheetWithID: invalid new sheet id: " +s fmt_d toIndex))) b
  else if String.eqb newName EmptyString
  then appendError
         (Some (ErrorString "CopySheetWithID: invalid new sheet name")) b
  else
    let dsRequest :=
      sheets.mkDuplicateSheetRequest srcSheetID 0 newSheetID newName in
    let dsRequest :=
      if 0 <=? toIndex
      then sheets.mkDuplicateSheetRequest srcSheetID toIndex newSheetID newName
      else dsRequest in
    AppendRequest (Some (sheets.DuplicateSheet dsRequest)) b.

(** The loop of [DeleteSheet]. *)
Fixpoint deleteSheetLoop (sheetIDs : list Z) (b : t) : t :=
  match sheetIDs with
  | [] => b
  | id :: rest =>
      deleteSheetLoop rest (AppendRequest (Some (sheets.DeleteSheet id)) b)
  end.

(** [DeleteSheet]. *)
Definition DeleteSheet (sheetIDs : list Z) (b : t) : t :=
  if len sheetIDs =? 0 then b else deleteSheetLoop sheetIDs b.

(** [WithTrace]. *)
Definition WithTrace (trace : option ClientTrace) (b : t) : t :=
  match executor b with
  | Some e => set_executor b (Some (BatchUpdateExecutor.set_Trace e trace))
  | None => b
  end.

(** [WithLimit]. *)
Definition WithLimit (limit : Z) (b : t) : t :=
  match executor b with
  | Some e => set_executor b (Some (BatchUpdateExecutor.set_limit e limit))
  | None => b
  end.

(** [Reset]. *)
Definition Reset (b : t) : t := mk (executor b) [] [] None [].

Section WithService.

Variable service : Service.

(** [Flush]. *)
Definition Flush (b : t) (w : Log) : option error * t * Log :=
  let '((requests, err), b) := Requests b in
  match err with
  | Some err => (Some err, b, w)
  | None =>
      if len requests =? 0 then (None, b, w)
      else
        match executor b with
        | None =>
            (Some (ErrorString "Flush: cannot flush builder without a client"),
             b, w)
        | Some e =>
            let '(e, w) := BatchUpdateExecutor.Queue service e requests EmptyString w in
            let '(err, e, w) := BatchUpdateExecutor.Flush service e w in
            let b := set_executor b (Some e) in
            match err with
            | Some err =>
                (Some (WrapError "Flush: failed to flush builder: " err), b, w)
            | None => (None, Reset b, w)
            end
        end
  end.

End WithService.

End Builder.

(** client.go: [Client.Builder], for the client of the document
    [spreadID]. *)
Definition Client_Builder (spreadID : string) : Builder.t :=
  let b := Builder.NewBuilder in
  Builder.set_executor b
    (Some (BatchUpdateExecutor.NewBatchUpdateExecutor spreadID 100)).

(** ** sheet_builder.go

    Every method takes the accumulator the view points to ([sb.b]) and
    returns it after the call. *)
Module SheetBuilder.

Definition errorf (msg : string) : option error := Some (ErrorString msg).

(** [toEnd]. *)
Definition toEnd : Z := -1.

(** [Requests]. *)
Definition Requests (sb : SheetBuilder) (b : Builder.t)
  : (list sheets.Request * option error) * Builder.t :=
  Builder.Requests b.

(** [isRectInvalid]: the answer, and the accumulator with the recorded
    failure. *)
Definition isRectInvalid
    (rect : option Rect) (label name : string) (b : Builder.t)
  : bool * Builder.t :=
  match rect with
  | None =>
      (true,
       Builder.appendError
         (errorf (label +s ": " +s name +s " should not be nil")) b)
  | Some rect =>
      if Rect_Row rect <? 0
      then (true,
            Builder.appendError
              (errorf (label +s ": invalid " +s name +s ".Row: "
                       +s fmt_d (Rect_Row rect))) b)
      else if Rect_Col rect <? 0
      then (true,
            Builder.appendError
              (errorf (label +s ": invalid " +s name +s ".Col: "
                       +s fmt_d (Rect_Col rect))) b)
      else if (Rect_Height rect <? 0) && negb (Rect_Height rect =? toEnd)
      then (true,
            Builder.appendError
              (errorf (label +s ": invalid " +s name +s ".Height: "
                       +s fmt_d (Rect_Height rect))) b)
      else if (Rect_Width rect <? 0) && negb (Rect_Width rect =? toEnd)
      then (true,
            Builder.appendError
              (errorf (label +s ": invalid " +s name +s ".Width: "
                       +s fmt_d (Rect_Width rect))) b)
      else (false, b)
  end.

(** [if sb.isRectInvalid(rect, label, name) { return sb }], followed by
    the rest of the method, which dereferences [rect]. *)
Definition unlessRectInvalid
    (rect : option Rect) (label name : string)
    (rest : Rect -> Builder.t -> Builder.t) (b : Builder.t) : Builder.t :=
  let '(invalid, b) := isRectInvalid rect label name b in
  if invalid then b
  else match rect with
       | Some rect => rest rect b
       | None => b
       end.

(** The [sheets.GridRange] literal that covers [rect] on a sheet. *)
Definition rectRange (sheetId : Z) (rect : Rect) : sheets.GridRange :=
  sheets.mkGridRange sheetId
    (Rect_Row rect) (add64 (Rect_Row rect) (Rect_Height rect))
    (Rect_Col rect) (add64 (Rect_Col rect) (Rect_Width rect)).

(** [Row]. *)
Definition Row (sb : SheetBuilder) (startRow count : Z) (b : Builder.t)
  : RowBuilder * Builder.t :=
  let rb := mkRowBuilder sb startRow count in
  if startRow <? 0
  then (rb, Builder.appendError
              (errorf ("Row: invalid start row: " +s fmt_d startRow)) b)
  else if count <? 1
  then (rb, Builder.appendError
              (errorf ("Row: invalid count: " +s fmt_d count)) b)
  else (rb, b).

(** [Column]. *)
Definition Column (sb : SheetBuilder) (startCol count : Z) (b : Builder.t)
  : ColumnBuilder * Builder.t :=
  let cb := mkColumnBuilder sb startCol count in
  if startCol <? 0
  then (cb, Builder.appendError
              (errorf ("Row: invalid start col: " +s fmt_d startCol)) b)
  else if count <? 1
  then (cb, Builder.appendError
              (errorf ("Row: invalid count: " +s fmt_d count)) b)
  else (cb, b).

(** [CopyRange]. *)
Definition CopyRange
    (sb : SheetBuilder) (srcSheetID : Z) (src : option Rect)
    (dstR dstC : Z) (pasteType : string) (b : Builder.t) : Builder.t :=
  if srcSheetID <? 0
  then Builder.appendError
         (errorf ("CopyRange: invalid src sheet id: " +s fmt_d srcSheetID)) b
  else
    unlessRectInvalid src "CopyRange" "src"
      (fun src b =>
         if dstR <? 0
         then Builder.appendError
                (errorf ("CopyRange: invalid dst row: " +s fmt_d dstR)) b
         else if dstC <? 0
         then Builder.appendError
                (errorf ("CopyRange: invalid dst column: " +s fmt_d dstR)) b
         else
           let pasteType :=
             if String.eqb pasteType EmptyString
             then PasteTypeNormal else pasteType in
           let srcRange := rectRange srcSheetID src in
           let dstRange :=
             sheets.mkGridRange (sheetID sb)
               dstR (add64 dstR (Rect_Height src))
               dstC (add64 dstC (Rect_Width src)) in
           Builder.AppendRequest
             (Some (sheets.CopyPaste
                      (sheets.mkCopyPasteRequest
                         srcRange dstRange pasteType "NORMAL"))) b)
      b.

(** [FillDownFrom]. *)
Definition FillDownFrom
    (sb : SheetBuilder) (srcSheetID : Z) (src : option Rect)
    (dstR dstC height : Z) (pasteType : string) (b : Builder.t)
  : Builder.t :=
  if srcSheetID <? 0
  then Builder.appendError
         (errorf ("FillDownFrom: invalid src sheet id: " +s fmt_d srcSheetID)) b
  else
    unlessRectInvalid src "FillDownFrom" "src"
      (fun src b =>
         if dstR <? 0
         then Builder.appendError
                (errorf ("FillDownFrom: invalid dst row: " +s fmt_d dstR)) b
         else if dstC <? 0
         then Builder.appendError
                (errorf ("FillDownFrom: invalid dst column: " +s fmt_d dstR)) b
         else if height <=? 0
         then Builder.appendError
                (errorf ("FillDownFrom: invalid height: " +s fmt_d height)) b
         else
           let srcRange := rectRange srcSheetID src in
           let dstRange :=
             sheets.mkGridRange (sheetID sb)
               dstR (add64 dstR height)
               dstC (add64 dstC (Rect_Width src)) in
           let pasteType :=
             if String.eqb pasteType EmptyString
             then PasteTypeNormal else pasteType in
           Builder.AppendRequest
             (Some (sheets.CopyPaste
                      (sheets.mkCopyPasteRequest
                         srcRange dstRange pasteType "NORMAL"))) b)
      b.

(** [Merge]. *)
Definition Merge
    (sb : SheetBuilder) (rect : option Rect) (mergeType : string)
    (b : Builder.t) : Builder.t :=
  match rect with
  | None =>
      Builder.appendError (errorf "Merge: rect should not be nil") b
  | Some rect =>
      let mergeType :=
        if String.eqb mergeType EmptyString then MergeTypeAll else mergeType in
      Builder.AppendRequest
        (Some (sheets.MergeCells (rectRange (sheetID sb) rect) mergeType)) b
  end.

(** [MergeRows]. *)
Definition MergeRows (sb : SheetBuilder) (rect : option Rect) (b : Builder.t)
  : Builder.t :=
  Merge sb rect MergeTypeRows b.

(** [MergeCols]. *)
Definition MergeCols (sb : SheetBuilder) (rect : option Rect) (b : Builder.t)
  : Builder.t :=
  Merge sb rect MergeTypeCols b.

(** [ExpandRows]. *)
Definition ExpandRows (sb : SheetBuilder) (count : Z) (b : Builder.t)
  : Builder.t :=
  if count <? 0
  then Builder.appendError
         (errorf ("ExpandRows: invalid count: " +s fmt_d count)) b
  else
    Builder.PrependRequest
      (Some (sheets.AppendDimension (sheetID sb) "ROWS" count)) b.

(** [ExpandColumns]. *)
Definition ExpandColumns (sb : SheetBuilder) (count : Z) (b : Builder.t)
  : Builder.t :=
  if count <? 0
  then Builder.appendError
         (errorf ("ExpandRows: invalid count: " +s fmt_d count)) b
  else
    Builder.PrependRequest
      (Some (sheets.AppendDimension (sheetID sb) "COLUMNS" count)) b.

(** [InsertColumns]. *)
Definition InsertColumns
    (sb : SheetBuilder) (startIndex count : Z) (b : Builder.t) : Builder.t :=
  if startIndex <? 0
  then Builder.appendError
         (errorf ("InsertColumns: invalid startIndex: " +s fmt_d startIndex)) b
  else if count <=? 0
  then Builder.appendError
         (errorf ("InsertColumns: invalid count: " +s fmt_d count)) b
  else
    Builder.PrependRequest
      (Some (sheets.InsertDimension
               (sheets.mkDimensionRange (sheetID sb) "COLUMNS"
                  startIndex (add64 startIndex count)))) b.

(** [toCellData]: the type switch on the dynamic type of [v]. A Go string
    is a sequence of bytes; [val[0] == '='] looks at its first byte. *)
Definition toCellData (v : any) : sheets.CellData :=
  let cd := sheets.zeroCellData in
  match v with
  | AnyString val =>
      match val with
      | String c _ =>
          if Ascii.eqb c "="%char
          then sheets.mkCellData
                 (Some (sheets.mkExtendedValue (Some val) None None None))
                 (sheets.UserEnteredFormat cd)
          else sheets.mkCellData
                 (Some (sheets.mkExtendedValue None (Some val) None None))
                 (sheets.UserEnteredFormat cd)
      | EmptyString =>
          sheets.mkCellData
            (Some (sheets.mkExtendedValue None (Some val) None None))
            (sheets.UserEnteredFormat cd)
      end
  | AnyInt val =>
      let f := Float64OfInt val in
      sheets.mkCellData
        (Some (sheets.mkExtendedValue None None (Some f) None))
        (sheets.UserEnteredFormat cd)
  | AnyFloat64 val =>
      sheets.mkCellData
        (Some (sheets.mkExtendedValue None None (Some val) None))
        (sheets.UserEnteredFormat cd)
  | AnyBool val =>
      sheets.mkCellData
        (Some (sheets.mkExtendedValue None None None (Some val)))
        (sheets.UserEnteredFormat cd)
  | AnyNil | AnyOther _ => cd
  end.

Definition isNil (v : any) : bool :=
  match v with
  | AnyNil => true
  | _ => false
  end.

(** [SetCellValue]. *)
Definition SetCellValue
    (sb : SheetBuilder) (row col : Z) (value : any) (b : Builder.t)
  : Builder.t :=
  if row <? 0
  then Builder.appendError
         (errorf ("SetCellValue: invalid row: " +s fmt_d row)) b
  else if col <? 0
  then Builder.appendError
         (errorf ("SetCellValue: invalid col: " +s fmt_d col)) b
  else if isNil value
  then Builder.appendError
         (errorf "SetCellValue: value should not be nil") b
  else
    let cell := toCellData value in
    Builder.AppendRequest
      (Some (sheets.UpdateCells
               (sheets.mkGridCoordinate (sheetID sb) row col)
               [sheets.mkRowData [cell]]
               "userEnteredValue")) b.

(** [SetRowValues]. *)
Definition SetRowValues
    (sb : SheetBuilder) (row col : Z) (values : list any) (b : Builder.t)
  : Builder.t :=
  if row <? 0
  then Builder.appendError
         (errorf ("SetRowValues: invalid row: " +s fmt_d row)) b
  else if col <? 0
  then Builder.appendError
         (errorf ("SetRowValues: invalid col: " +s fmt_d col)) b
  else if len values =? 0
  then Builder.appendError
         (errorf "SetRowValues: values should not be nil or empty") b
  else
    let cells := map toCellData values in
    Builder.AppendRequest
      (Some (sheets.UpdateCells
               (sheets.mkGridCoordinate (sheetID sb) row col)
               [sheets.mkRowData cells]
               "userEnteredValue")) b.

(** [SetRangeValues]. *)
Definition SetRangeValues
    (sb : SheetBuilder) (row col : Z) (values : list (list any))
    (b : Builder.t) : Builder.t :=
  if row <? 0
  then Builder.appendError
         (errorf ("SetRangeValues: invalid row: " +s fmt_d row)) b
  else if col <? 0
  then Builder.appendError
         (errorf ("SetRangeValues: invalid col: " +s fmt_d col)) b
  else if len values =? 0
  then Builder.appendError
         (errorf "SetRangeValues: values should not be nil or empty") b
  else
    let rows :=
      map (fun rowVals => sheets.mkRowData (map toCellData rowVals)) values in
    Builder.AppendRequest
      (Some (sheets.UpdateCells
               (sheets.mkGridCoordinate (sheetID sb) row col)
               rows
               "userEnteredValue")) b.

(** [addProtectedRangeRequest]. ([users] is a slice; replacing a nil one
    by an empty one does not change the list.) *)
Definition addProtectedRangeRequest
    (sb : SheetBuilder) (desc : string) (users : list string)
    (warningOnly : bool) (rng : sheets.GridRange) (b : Builder.t)
  : Builder.t :=
  let editors := if negb warningOnly then Some users else None in
  Builder.AppendRequest
    (Some (sheets.AddProtectedRange
             (sheets.mkProtectedRange rng desc warningOnly editors))) b.

(** [ProtectRange]. *)
Definition ProtectRange
    (sb : SheetBuilder) (rect : option Rect) (description : string)
    (users : list string) (warningOnly : bool) (b : Builder.t) : Builder.t :=
  unlessRectInvalid rect "ProtectRange" "rect"
    (fun rect b =>
       addProtectedRangeRequest sb description users warningOnly
         (rectRange (sheetID sb) rect) b)
    b.

(** [ProtectSheet]. *)
Definition ProtectSheet
    (sb : SheetBuilder) (description : string) (users : list string)
    (warningOnly : bool) (b : Builder.t) : Builder.t :=
  addProtectedRangeRequest sb description users warningOnly
    (sheets.mkGridRange (sheetID sb) 0 0 0 0) b.

(** [SetForegroundColor]. *)
Definition SetForegroundColor
    (sb : SheetBuilder) (rect : option Rect) (color : option sheets.Color)
    (b : Builder.t) : Builder.t :=
  unlessRectInvalid rect "SetForegroundColor" "rect"
    (fun rect b =>
       match color with
       | None =>
           Builder.appendError
             (errorf "SetForegroundColor: color should not be nil") b
       | Some _ =>
           Builder.AppendRequest
             (Some (sheets.RepeatCell
                      (rectRange (sheetID sb) rect)
                      (sheets.mkCellData None
                         (Some (sheets.mkCellFormat
                                  (Some (sheets.mkTextFormat color None))
                                  None)))
                      "userEnteredFormat.textFormat.foregroundColor")) b
       end)
    b.

(** [SetBackgroundColor]. *)
Definition SetBackgroundColor
    (sb : SheetBuilder) (rect : option Rect) (color : option sheets.Color)
    (b : Builder.t) : Builder.t :=
  unlessRectInvalid rect "SetBackgroundColor" "rect"
    (fun rect b =>
       match color with
       | None =>
           Builder.appendError
             (errorf "SetBackgroundColor: color should not be nil") b
       | Some _ =>
           Builder.AppendRequest
             (Some (sheets.RepeatCell
                      (rectRange (sheetID sb) rect)
                      (sheets.mkCellData None
                         (Some (sheets.mkCellFormat None color)))
                      "userEnteredFormat.backgroundColor")) b
       end)
    b.

(** [SetTabColor]. *)
Definition SetTabColor
    (sb : SheetBuilder) (color : option sheets.Color) (b : Builder.t)
  : Builder.t :=
  match color with
  | None =>
      Builder.appendError (errorf "SetTabColor: color should not be nil") b
  | Some _ =>
      Builder.AppendRequest
        (Some (sheets.UpdateSheetProperties
                 (sheets.mkSheetProperties
                    (sheetID sb) EmptyString 0 false color [])
                 "tabColor")) b
  end.

(** [InsertRange]. *)
Definition InsertRange
    (sb : SheetBuilder) (rect : option Rect) (shiftDimension : string)
    (b : Builder.t) : Builder.t :=
  unlessRectInvalid rect "InsertRange" "rect"
    (fun rect b =>
       let shiftDimension :=
         if String.eqb shiftDimension EmptyString
         then ShiftDimensionTypeRows else shiftDimension in
       Builder.AppendRequest
         (Some (sheets.InsertRange
                  (rectRange (sheetID sb) rect) shiftDimension)) b)
    b.

(** [InsertAndCopyRange]. *)
Definition InsertAndCopyRange
    (sb : SheetBuilder) (srcSheetID : Z) (src : option Rect)
    (dstR dstC : Z) (pasteType : string) (b : Builder.t) : Builder.t :=
  if srcSheetID <? 0
  then Builder.appendError
         (errorf ("InsertAndCopyRange: invalid src sheet id: "
                  +s fmt_d srcSheetID)) b
  else
    unlessRectInvalid src "InsertAndCopyRange" "src"
      (fun src b =>
         if dstR <? 0
         then Builder.appendError
                (errorf ("InsertAndCopyRange: invalid dst row: "
                         +s fmt_d dstR)) b
         else if dstC <? 0
         then Builder.appendError
                (errorf ("InsertAndCopyRange: invalid dst column: "
                         +s fmt_d dstR)) b
         else
           let pasteType :=
             if String.eqb pasteType EmptyString
             then PasteTypeNormal else pasteType in
           let dstRect :=
             mkRect dstR dstC (Rect_Height src) (Rect_Width src) in
           let b := InsertRange sb (Some dstRect) ShiftDimensionTypeRows b in
           let actualSrc := src in
           let actualSrc :=
             if (sheetID sb =? srcSheetID) && (dstR <=? Rect_Row src)
             then mkRect (add64 (Rect_Row actualSrc) (Rect_Height src))
                    (Rect_Col actualSrc) (Rect_Height actualSrc)
                    (Rect_Width actualSrc)
             else actualSrc in
           CopyRange sb srcSheetID (Some actualSrc) dstR dstC pasteType b)
      b.

(** [DeleteRange]. *)
Definition DeleteRange
    (sb : SheetBuilder) (rect : option Rect) (shiftDimension : string)
    (b : Builder.t) : Builder.t :=
  unlessRectInvalid rect "DeleteRange" "rect"
    (fun rect b =>
       let shiftDimension :=
         if String.eqb shiftDimension EmptyString
         then ShiftDimensionTypeRows else shiftDimension in
       Builder.AppendRequest
         (Some (sheets.DeleteRange
                  (rectRange (sheetID sb) rect) shiftDimension)) b)
    b.

(** [SetLink]. *)
Definition SetLink
    (sb : SheetBuilder) (rect : option Rect) (url : string) (b : Builder.t)
  : Builder.t :=
  unlessRectInvalid rect "SetLink" "rect"
    (fun rect b =>
       if String.eqb url EmptyString
       then Builder.appendError
              (errorf "SetLink: url should not be empty") b
       else
         Builder.AppendRequest
           (Some (sheets.RepeatCell
                    (rectRange (sheetID sb) rect)
                    (sheets.mkCellData None
                       (Some (sheets.mkCellFormat
                                (Some (sheets.mkTextFormat None (Some url)))
                                None)))
                    "userEnteredFormat.textFormat.link")) b)
    b.

(** [SetLinkToSheet]. *)
Definition SetLinkToSheet
    (sb : SheetBuilder) (rect : option Rect) (targetSheetID : Z)
    (b : Builder.t) : Builder.t :=
  unlessRectInvalid rect "SetLinkToSheet" "rect"
    (fun _ b =>
       if targetSheetID <=? 0
       then Builder.appendError
              (errorf ("Row: invalid target sheet id: "
                       +s fmt_d targetSheetID)) b
       else
         let internalLink := "#gid=" +s fmt_d targetSheetID in
         SetLink sb rect internalLink b)
    b.

(** [SetHidden]. *)
Definition SetHidden (sb : SheetBuilder) (hidden : bool) (b : Builder.t)
  : Builder.t :=
  Builder.AppendRequest
    (Some (sheets.UpdateSheetProperties
             (sheets.mkSheetProperties
                (sheetID sb) EmptyString 0 hidden None [])
             "hidden")) b.

(** [Hide]. *)
Definition Hide (sb : SheetBuilder) (b : Builder.t) : Builder.t :=
  SetHidden sb true b.

(** [Show]. *)
Definition Show (sb : SheetBuilder) (b : Builder.t) : Builder.t :=
  SetHidden sb false b.

(** [updateDimension]. *)
Definition updateDimension
    (sb : SheetBuilder) (dimension : string) (start count : Z)
    (props : sheets.DimensionProperties) (fields : string) (b : Builder.t)
  : Builder.t :=
  Builder.AppendRequest
    (Some (sheets.UpdateDimensionProperties
             (sheets.mkDimensionRange (sheetID sb) dimension
                start (add64 start count))
             props fields)) b.

(** [SetColumnsHidden]. *)
Definition SetColumnsHidden
    (sb : SheetBuilder) (startCol count : Z) (hidden : bool) (b : Builder.t)
  : Builder.t :=
  if startCol <=? 0
  then Builder.appendError
         (errorf ("SetColumnsHidden: invalid start column: "
                  +s fmt_d startCol)) b
  else if count <=? 0
  then Builder.appendError
         (errorf ("SetColumnsHidden: invalid count: " +s fmt_d count)) b
  else
    updateDimension sb "COLUMNS" startCol count
      (sheets.mkDimensionProperties hidden 0) "hiddenByUser" b.

(** [SetRowsHidden]. *)
Definition SetRowsHidden
    (sb : SheetBuilder) (startRow count : Z) (hidden : bool) (b : Builder.t)
  : Builder.t :=
  if startRow <=? 0
  then Builder.appendError
         (errorf ("SetColumnsHidden: invalid start row: "
                  +s fmt_d startRow)) b
  else if count <=? 0
  then Builder.appendError
         (errorf ("SetColumnsHidden: invalid count: " +s fmt_d count)) b
  else
    updateDimension sb "ROWS" startRow count
      (sheets.mkDimensionProperties hidden 0) "hiddenByUser" b.

(** [clearValues]. *)
Definition clearValues
    (sb : SheetBuilder) (row col height width : Z) (b : Builder.t)
  : Builder.t :=
  let rng :=
    sheets.mkGridRange (sheetID sb)
      row (if 0 <? height then add64 row height else 0)
      col (if 0 <? width then add64 col width else 0) in
  Builder.AppendRequest
    (Some (sheets.RepeatCell rng sheets.zeroCellData "userEnteredValue")) b.

(** [ClearRangeValues]. *)
Definition ClearRangeValues
    (sb : SheetBuilder) (rect : option Rect) (b : Builder.t) : Builder.t :=
  unlessRectInvalid rect "ClearRangeValues" "rect"
    (fun rect b =>
       clearValues sb (Rect_Row rect) (Rect_Col rect)
         (Rect_Height rect) (Rect_Width rect) b)
    b.

(** [ClearColValues]. *)
Definition ClearColValues
    (sb : SheetBuilder) (col width skipRows : Z) (b : Builder.t)
  : Builder.t :=
  if col <? 0
  then Builder.appendError
         (errorf ("ClearColValues: invalid col: " +s fmt_d col)) b
  else if width <? 1
  then Builder.appendError
         (errorf ("ClearColValues: invalid width: " +s fmt_d width)) b
  else if skipRows <? 0
  then Builder.appendError
         (errorf ("ClearColValues: invalid skipRows: " +s fmt_d skipRows)) b
  else clearValues sb skipRows col toEnd width b.

(** [ClearRowValues]. *)
Definition ClearRowValues
    (sb : SheetBuilder) (row height skipCols : Z) (b : Builder.t)
  : Builder.t :=
  if row <? 0
  then Builder.appendError
         (errorf ("ClearRowValues: invalid row: " +s fmt_d row)) b
  else if height <? 1
  then Builder.appendError
         (errorf ("ClearRowValues: invalid height: " +s fmt_d height)) b
  else if skipCols <? 0
  then Builder.appendError
         (errorf ("ClearRowValues: invalid skipCols: " +s fmt_d skipCols)) b
  else clearValues sb row skipCols height toEnd b.

End SheetBuilder.

(** ** row_builder.go *)
Module RowBuilder.

(** [Hide]. *)
Definition Hide (rb : RowBuilder) (b : Builder.t) : Builder.t :=
  SheetBuilder.SetRowsHidden (rb_sb rb) (rb_start rb) (rb_count rb) true b.

(** [Show]. *)
Definition Show (rb : RowBuilder) (b : Builder.t) : Builder.t :=
  SheetBuilder.SetRowsHidden (rb_sb rb) (rb_start rb) (rb_count rb) false b.

(** [SetHeight]. *)
Definition SetHeight (rb : RowBuilder) (pixels : Z) (b : Builder.t)
  : Builder.t :=
  if pixels <? 0
  then Builder.appendError
         (SheetBuilder.errorf "SetHeight: pixels must be positive") b
  else
    SheetBuilder.updateDimension (rb_sb rb) "ROWS" (rb_start rb) (rb_count rb)
      (sheets.mkDimensionProperties false pixels) "pixelSize" b.

End RowBuilder.

(** ** col_builder.go *)
Module ColumnBuilder.

(** [Hide]. *)
Definition Hide (cb : ColumnBuilder) (b : Builder.t) : Builder.t :=
  SheetBuilder.SetColumnsHidden (cb_sb cb) (cb_start cb) (cb_count cb) true b.

(** [Show]. *)
Definition Show (cb : ColumnBuilder) (b : Builder.t) : Builder.t :=
  SheetBuilder.SetColumnsHidden (cb_sb cb) (cb_start cb) (cb_count cb) false b.

(** [SetWidth]. *)
Definition SetWidth (cb : ColumnBuilder) (pixels : Z) (b : Builder.t)
  : Builder.t :=
  if pixels <? 0
  then Builder.appendError
         (SheetBuilder.errorf "SetHeight: pixels must be positive") b
  else
    SheetBuilder.updateDimension (cb_sb cb) "COLUMNS"
      (cb_start cb) (cb_count cb)
      (sheets.mkDimensionProperties false pixels) "pixelSize" b.

End ColumnBuilder.

(** ** Chains of fluent calls

    The fluent methods of the accumulator and of its views, as data: a
    chain of calls is a list, run from left to right. A view may be any
    value of its struct type (deriving a view from an invalid identifier
    records a failure, but the view is returned all the same). *)
Inductive BuilderCall : Type :=
| Title (title : string)
| Locale (locale : string)
| TimeZone (tz : string)
| Sheet (sheetID : Z)
| AddSheet (sheetID : Z) (title : string) (index : Z)
| CopySheet (srcSheetID toIndex : Z) (newNames : list string)
| CopySheetWithID (srcSheetID toIndex newSheetID : Z) (newName : string)
| DeleteSheet (sheetIDs : list Z)
| WithTrace (trace : option ClientTrace)
| WithLimit (limit : Z).

Inductive SheetCall : Type :=
| Row (startRow count : Z)
| Column (startCol count : Z)
| CopyRange (srcSheetID : Z) (src : option Rect) (dstR dstC : Z) (pasteType : string)
| FillDownFrom (srcSheetID : Z) (src : option Rect) (dstR dstC height : Z)
    (pasteType : string)
| Merge (rect : option Rect) (mergeType : string)
| MergeRows (rect : option Rect)
| MergeCols (rect : option Rect)
| ExpandRows (count : Z)
| ExpandColumns (count : Z)
| InsertColumns (startIndex count : Z)
| SetCellValue (row col : Z) (value : any)
| SetRowValues (row col : Z) (values : list any)
| SetRangeValues (row col : Z) (values : list (list any))
| ProtectRange (rect : option Rect) (description : string) (users : list string)
    (warningOnly : bool)
| ProtectSheet (description : string) (users : list string) (warningOnly : bool)
| SetForegroundColor (rect : option Rect) (color : option sheets.Color)
| SetBackgroundColor (rect : option Rect) (color : option sheets.Color)
| SetTabColor (color : option sheets.Color)
| InsertRange (rect : option Rect) (shiftDimension : string)
| InsertAndCopyRange (srcSheetID : Z) (src : option Rect) (dstR dstC : Z)
    (pasteType : string)
| DeleteRange (rect : option Rect) (shiftDimension : string)
| SetLink (rect : option Rect) (url : string)
| SetLinkToSheet (rect : option Rect) (targetSheetID : Z)
| SetHidden (hidden : bool)
| Hide
| Show
| SetColumnsHidden (startCol count : Z) (hidden : bool)
| SetRowsHidden (startRow count : Z) (hidden : bool)
| ClearRangeValues (rect : option Rect)
| ClearColValues (col width skipRows : Z)
| ClearRowValues (row height skipCols : Z).

Inductive DimensionCall : Type :=
| DimHide
| DimShow
| DimSetSize (pixels : Z).

Inductive Call : Type :=
| OnBuilder (c : BuilderCall)
| OnSheet (sb : SheetBuilder) (c : SheetCall)
| OnRow (rb : RowBuilder) (c : DimensionCall)
| OnColumn (cb : ColumnBuilder) (c : DimensionCall).

Definition builderCall (c : BuilderCall) (b : Builder.t) : Builder.t :=
  match c with
  | Title title => Builder.Title title b
  | Locale locale => Builder.Locale locale b
  | TimeZone tz => Builder.TimeZone tz b
  | Sheet sheetID => snd (Builder.Sheet sheetID b)
  | AddSheet sheetID title index => Builder.AddSheet sheetID title index b
  | CopySheet srcSheetID toIndex newNames =>
      Builder.CopySheet srcSheetID toIndex newNames b
  | CopySheetWithID srcSheetID toIndex newSheetID newName =>
      Builder.CopySheetWithID srcSheetID toIndex newSheetID newName b
  | DeleteSheet sheetIDs => Builder.DeleteSheet sheetIDs b
  | WithTrace trace => Builder.WithTrace trace b
  | WithLimit limit => Builder.WithLimit limit b
  end.

Definition sheetCall (sb : SheetBuilder) (c : SheetCall) (b : Builder.t)
  : Builder.t :=
  match c with
  | Row startRow count => snd (SheetBuilder.Row sb startRow count b)
  | Column startCol count => snd (SheetBuilder.Column sb startCol count b)
  | CopyRange srcSheetID src dstR dstC pasteType =>
      SheetBuilder.CopyRange sb srcSheetID src dstR dstC pasteType b
  | FillDownFrom srcSheetID src dstR dstC height pasteType =>
      SheetBuilder.FillDownFrom sb srcSheetID src dstR dstC height pasteType b
  | Merge rect mergeType => SheetBuilder.Merge sb rect mergeType b
  | MergeRows rect => SheetBuilder.MergeRows sb rect b
  | MergeCols rect => SheetBuilder.MergeCols sb rect b
  | ExpandRows count => SheetBuilder.ExpandRows sb count b
  | ExpandColumns count => SheetBuilder.ExpandColumns sb count b
  | InsertColumns startIndex count =>
      SheetBuilder.InsertColumns sb startIndex count b
  | SetCellValue row col value => SheetBuilder.SetCellValue sb row col value b
  | SetRowValues row col values => SheetBuilder.SetRowValues sb row col values b
  | SetRangeValues row col values =>
      SheetBuilder.SetRangeValues sb row col values b
  | ProtectRange rect description users warningOnly =>
      SheetBuilder.ProtectRange sb rect description users warningOnly b
  | ProtectSheet description users warningOnly =>
      SheetBuilder.ProtectSheet sb description users warningOnly b
  | SetForegroundColor rect color =>
      SheetBuilder.SetForegroundColor sb rect color b
  | SetBackgroundColor rect color =>
      SheetBuilder.SetBackgroundColor sb rect color b
  | SetTabColor color => SheetBuilder.SetTabColor sb color b
  | InsertRange rect shiftDimension =>
      SheetBuilder.InsertRange sb rect shiftDimension b
  | InsertAndCopyRange srcSheetID src dstR dstC pasteType =>
      SheetBuilder.InsertAndCopyRange sb srcSheetID src dstR dstC pasteType b
  | DeleteRange rect shiftDimension =>
      SheetBuilder.DeleteRange sb rect shiftDimension b
  | SetLink rect url => SheetBuilder.SetLink sb rect url b
  | SetLinkToSheet rect targetSheetID =>
      SheetBuilder.SetLinkToSheet sb rect targetSheetID b
  | SetHidden hidden => SheetBuilder.SetHidden sb hidden b
  | Hide => SheetBuilder.Hide sb b
  | Show => SheetBuilder.Show sb b
  | SetColumnsHidden startCol count hidden =>
      SheetBuilder.SetColumnsHidden sb startCol count hidden b
  | SetRowsHidden startRow count hidden =>
      SheetBuilder.SetRowsHidden sb startRow count hidden b
  | ClearRangeValues rect => SheetBuilder.ClearRangeValues sb rect b
  | ClearColValues col width skipRows =>
      SheetBuilder.ClearColValues sb col width skipRows b
  | ClearRowValues row height skipCols =>
      SheetBuilder.ClearRowValues sb row height skipCols b
  end.

Definition call (c : Call) (b : Builder.t) : Builder.t :=
  match c with
  | OnBuilder c => builderCall c b
  | OnSheet sb c => sheetCall sb c b
  | OnRow rb DimHide => RowBuilder.Hide rb b
  | OnRow rb DimShow => RowBuilder.Show rb b
  | OnRow rb (DimSetSize pixels) => RowBuilder.SetHeight rb pixels b
  | OnColumn cb DimHide => ColumnBuilder.Hide cb b
  | OnColumn cb DimShow => ColumnBuilder.Show cb b
  | OnColumn cb (DimSetSize pixels) => ColumnBuilder.SetWidth cb pixels b
  end.

(** [chain cs b]: the accumulator after the calls [cs], made in order. *)
Definition chain (cs : list Call) (b : Builder.t) : Builder.t :=
  fold_left (fun b c => call c b) cs b.

(** The field path a property setter marks, and the value it stores. *)
Definition setterOf (c : Call) : option (string * string) :=
  match c with
  | OnBuilder (Title title) => Some ("title"%string, title)
  | OnBuilder (Locale locale) => Some ("locale"%string, locale)
  | OnBuilder (TimeZone tz) => Some ("timeZone"%string, tz)
  | _ => None
  end.

(** The field paths marked by a chain, in call order, with repeats. *)
Fixpoint touchedFields (cs : list Call) : list string :=
  match cs with
  | [] => []
  | c :: rest =>
      match setterOf c with
      | Some (field, _) => field :: touchedFields rest
      | None => touchedFields rest
      end
  end.

(** The value given by the most recent call of the setter of [field], if
    that setter was called. *)
Fixpoint latestValue (field : string) (cs : list Call) : option string :=
  match cs with
  | [] => None
  | c :: rest =>
      match latestValue field rest with
      | Some v => Some v
      | None =>
          match setterOf c with
          | Some (f, v) => if String.eqb f field then Some v else None
          | None => None
          end
      end
  end.

(** The value a property record holds for a field path. *)
Definition propertyValue
    (p : sheets.SpreadsheetProperties) (field : string) : string :=
  if String.eqb field "title" then sheets.sp_Title p
  else if String.eqb field "locale" then sheets.sp_Locale p
  else if String.eqb field "timeZone" then sheets.sp_TimeZone p
  else EmptyString.

(** An accumulator that holds nothing: what [NewBuilder], [Client.Builder]
    and [Reset] produce, whatever executor it is bound to. *)
Definition blank (e : option BatchUpdateExecutor.t) : Builder.t :=
  Builder.mk e [] [] None [].






(** The property-update operation that finalization synthesizes, if any. *)
Definition synthesized (b : Builder.t) : list sheets.Request :=
  match Builder.props b with
  | Some p =>
      if 0 <? len (Builder.propFields b)
      then [sheets.UpdateSpreadsheetProperties p
              (strings_Join (Builder.propFields b) ",")]
      else []
  | None => []
  end.

(** The log at the moment [Flush] makes its remote call for a non-empty
    buffer, and the answer of the service to that call. *)
Definition callLog (e : BatchUpdateExecutor.t) (w : Log) : Log :=
  if BatchUpdateExecutor.hasOnFlushStart e
  then w ++ [EvFlushStart
               (mkFlushStatus (len (BatchUpdateExecutor.requests e))
                  (BatchUpdateExecutor.units e)
                  (BatchUpdateExecutor.spreadID e))]
  else w.

Definition remoteAnswer
    (service : Service) (e : BatchUpdateExecutor.t) (w : Log) : option error :=
  service (callLog e w)
    (BatchUpdateExecutor.spreadID e) (BatchUpdateExecutor.requests e).

(** The remote calls of a log, in order. *)
Definition batchUpdates (w : Log) : Log := filter isBatchUpdate w.

(** The flush that [Queue] runs before appending is triggered. *)
Definition overLimit
    (e : BatchUpdateExecutor.t) (reqs : list sheets.Request) : Prop :=
  BatchUpdateExecutor.requests e <> []
  /\ BatchUpdateExecutor.limit e
     < len (BatchUpdateExecutor.requests e) + len reqs.

(** Two services used in examples: one that accepts every call, and one
    that rejects every call. *)
Definition accepting : Service := fun _ _ _ => None.

Definition rejecting : Service :=
  fun _ _ _ => Some (TransportError "503 Service Unavailable").

(** A caller of the pipeline: calls of [Queue] and [Flush], in order. *)
Inductive PipelineCall : Type :=
| DoQueue (reqs : list sheets.Request) (label : string)
| DoFlush.

Definition pipelineCall
    (service : Service) (c : PipelineCall)
    (st : BatchUpdateExecutor.t * Log) : BatchUpdateExecutor.t * Log :=
  match c with
  | DoQueue reqs label =>
      BatchUpdateExecutor.Queue service (fst st) reqs label (snd st)
  | DoFlush =>
      let '(_, e, w) := BatchUpdateExecutor.Flush service (fst st) (snd st) in
      (e, w)
  end.

Definition pipeline
    (service : Service) (cs : list PipelineCall)
    (st : BatchUpdateExecutor.t * Log) : BatchUpdateExecutor.t * Log :=
  fold_left (fun st c => pipelineCall service c st) cs st.

(** A scenario: a pipeline with limit 3 that took a unit A of two
    operations, and a unit B of two operations to be queued next. *)
Definition unitA : list sheets.Request :=
  [sheets.AddSheet (sheets.mkSheetProperties 7 "Data" 0 false None []);
   sheets.AppendDimension 7 "ROWS" 10].

Definition unitB : list sheets.Request :=
  [sheets.DeleteSheet 3; sheets.DeleteSheet 4].

Definition holdingA : BatchUpdateExecutor.t :=
  fst (BatchUpdateExecutor.Queue accepting
         (BatchUpdateExecutor.NewBatchUpdateExecutor "doc" 3) unitA "A" []).

(** The same pipeline after a rejected flush inside [Queue]. *)
Definition stuck : BatchUpdateExecutor.t :=
  fst (BatchUpdateExecutor.Queue rejecting holdingA unitB "B" []).

(** An operation other than a property update. *)
Definition notPropertyUpdate (r : sheets.Request) : Prop :=
  sheets.isUpdateSpreadsheetProperties r = false.

(** [stagesOnly b b']: from [b] to [b'] the property record and the
    touched-field list are unchanged, failures were only added at the end
    of the failure list, and operations that are not property updates were
    only added before or after the staged ones. *)
Definition stagesOnly (b b' : Builder.t) : Prop :=
  Builder.props b' = Builder.props b
  /\ Builder.propFields b' = Builder.propFields b
  /\ (exists new, Builder.errs b' = Builder.errs b ++ new)
  /\ (exists pre post,
        Builder.requests b' = pre ++ Builder.requests b ++ post
        /\ Forall notPropertyUpdate pre
        /\ Forall notPropertyUpdate post).

(** The property record behind [b.props], the zero record when it is
    nil. *)
Definition propsOrZero (p : option sheets.SpreadsheetProperties)
  : sheets.SpreadsheetProperties :=
  match p with
  | Some p => p
  | None => sheets.zeroSpreadsheetProperties
  end.

(** Scenarios for the accumulator: a chain that sets the title twice, and
    a chain that records an invalid row, followed by one that records an
    invalid column. *)
Definition reportChain : list Call :=
  [OnBuilder (Title "Draft");
   OnBuilder (AddSheet 7 "Data" (-1));
   OnSheet (mkSheetBuilder 7) (ExpandRows 5);
   OnBuilder (Title "Report");
   OnBuilder (Locale "ja_JP")].

Definition invalidRow : Builder.t :=
  chain [OnBuilder (AddSheet 7 "Data" (-1));
         OnSheet (mkSheetBuilder 7) (SetCellValue (-1) 0 (AnyString "Hello"));
         OnSheet (mkSheetBuilder 7) (SetCellValue 0 0 (AnyString "Hello"))]
    Builder.NewBuilder.

Definition thenInvalidColumn : list Call :=
  [OnSheet (mkSheetBuilder 7) (SetCellValue 0 (-1) (AnyString "Hello"));
   OnBuilder (Title "Report")].

(** [rejectsOrAccepts b b']: the call that led from [b] to [b'] either
    recorded exactly one failure and changed nothing else, or recorded
    none. *)
Definition rejectsOrAccepts (b b' : Builder.t) : Prop :=
  (exists e,
     Builder.errs b' = Builder.errs b ++ [e]
     /\ Builder.requests b' = Builder.requests b
     /\ Builder.props b' = Builder.props b
     /\ Builder.propFields b' = Builder.propFields b)
  \/ Builder.errs b' = Builder.errs b.

(** ** Vocabulary for the pipeline as a whole *)

(** The operations that the service accepted, in the order it received
    them: the payloads of the remote calls of a log that the service
    answered with success. The answer to a call is the one the service gave
    at the time, that is, to the log before the call. *)
Fixpoint deliveredFrom
    (service : Service) (before : Log) (w : Log) : list sheets.Request :=
  match w with
  | [] => []
  | ev :: rest =>
      match ev with
      | EvBatchUpdate spreadID payload =>
          match service before spreadID payload with
          | None => payload
          | Some _ => []
          end
      | _ => []
      end ++ deliveredFrom service (before ++ [ev]) rest
  end.

Definition delivered (service : Service) (w : Log) : list sheets.Request :=
  deliveredFrom service [] w.

(** The operations handed to [Queue] by a sequence of calls, in order. *)
Fixpoint queued (cs : list PipelineCall) : list sheets.Request :=
  match cs with
  | [] => []
  | DoQueue reqs _ :: rest => reqs ++ queued rest
  | DoFlush :: rest => queued rest
  end.

(** [tileEnd start us]: the units [us] lie one after the other from index
    [start] on, each with a count that is not negative and with
    [EndIndex = StartIndex + Count - 1]; the result is the index after the
    last one. *)
Fixpoint tileEnd (start : Z) (us : list RequestUnitInfo) : option Z :=
  match us with
  | [] => Some start
  | u :: rest =>
      if (StartIndex u =? start) && (0 <=? Count u)
         && (EndIndex u =? start + Count u - 1)
      then tileEnd (start + Count u) rest
      else None
  end.

(** The unit list describes the buffer: the units tile it from index 0 to
    its length. *)
Definition unitsDescribeBuffer (e : BatchUpdateExecutor.t) : Prop :=
  tileEnd 0 (BatchUpdateExecutor.units e)
  = Some (len (BatchUpdateExecutor.requests e)).

(** More scenarios: a service that rejects the first remote call and
    accepts every later one; an accumulator bound to a new executor (limit
    100) that holds the calls of [reportChain]; the same accumulator bound
    to the executor [stuck], and to [stuck] after an accepted flush. *)
Definition rejectingFirst : Service :=
  fun w _ _ =>
    match batchUpdates w with
    | [] => Some (TransportError "timeout")
    | _ :: _ => None
    end.

Definition reportBuilder : Builder.t :=
  chain reportChain (Client_Builder "doc").

Definition stuckEmptied : BatchUpdateExecutor.t :=
  snd (fst (BatchUpdateExecutor.Flush accepting stuck [])).

(** ** sheet_client.go: validation *)
Module SheetClient.

(** [checkRectInvalid]. *)
Definition checkRectInvalid (row col height width : Z) (label : string)
  : option error :=
  if row <? 0
  then Some (ErrorString (label +s ": invalid row: " +s fmt_d row))
  else if col <? 0
  then Some (ErrorString (label +s ": invalid col: " +s fmt_d col))
  else if (height <? 0) && negb (height =? SheetBuilder.toEnd)
  then Some (ErrorString (label +s ": invalid height: " +s fmt_d height))
  else if (width <? 0) && negb (width =? SheetBuilder.toEnd)
  then Some (ErrorString (label +s ": invalid width: " +s fmt_d width))
  else None.

(** The struct [SheetClient]; its pointer to the client stands for the
    remote service, which is outside the package. *)
Record t := mk { sheetID : Z; err : option error }.

(** client.go: [Client.Sheet]. *)
Definition Sheet (sheetID : Z) : t :=
  if sheetID <? 0
  then mk sheetID
         (Some (ErrorString ("Sheet: invalid sheet ID: " +s fmt_d sheetID)))
  else mk sheetID None.







(** The part of a sheet of the answer of [Spreadsheets.Get] that
    [GetGridSize] reads: the properties (a pointer), with the identifier
    and the grid properties (a pointer) with the two counts. *)
Record SheetInfo := mkSheetInfo
  { info_SheetId : Z; info_Grid : option (Z * Z) }.

Definition SheetsAnswer : Type := error + list (option SheetInfo).

(** The loop of [GetGridSize] over the sheets of the answer. *)
Fixpoint gridSizeLoop (sc : t) (sheets : list (option SheetInfo))
  : Z * Z * option error :=
  match sheets with
  | [] =>
      (0, 0, Some (ErrorString
                     ("GetGridSize: sheet " +s fmt_d (sheetID sc)
                      +s " not found")))
  | None :: rest => gridSizeLoop sc rest
  | Some props :: rest =>
      if info_SheetId props =? sheetID sc
      then
        match info_Grid props with
        | None =>
            (0, 0, Some (ErrorString
                           ("GetGridSize: grid properties are missing for sheet "
                            +s fmt_d (sheetID sc))))
        | Some (rowCount, columnCount) => (rowCount, columnCount, None)
        end
      else gridSizeLoop sc rest
  end.

(** [GetGridSize], for the answer of the remote call. *)
Definition GetGridSize (answer : SheetsAnswer) (sc : t)
  : Z * Z * option error :=
  match answer with
  | inl err =>
      (0, 0, Some (WrapError
                     "GetGridSize: failed to fetch spreadsheet info: " err))
  | inr sheets => gridSizeLoop sc sheets
  end.

End SheetClient.

(** The operations [CopySheet] stages for the names [newNames], the first
    of which is the [k]-th: with an index, each copy goes one position
    after the one before. *)
Definition duplicateRequests
    (srcSheetID toIndex : Z) (k : nat) (newNames : list string)
  : list sheets.Request :=
  map (fun p : nat * string =>
         sheets.DuplicateSheet
           (sheets.mkDuplicateSheetRequest srcSheetID
              (if 0 <=? toIndex then toIndex + Z.of_nat (fst p) else 0)
              0 (snd p)))
      (combine (seq k (List.length newNames)) newNames).

(** A rectangle that the validation of the package accepts. *)
Definition acceptableRect (r : Rect) : Prop :=
  0 <= Rect_Row r /\ 0 <= Rect_Col r
  /\ -1 <= Rect_Height r /\ -1 <= Rect_Width r.

(** ** a1.go: A1 notation

    A function that can panic returns an [option]: [None] is the panic. *)
Module A1.

(** [AbsMode] and its constants ([1 << iota] at the second and third line
    of the constant block). *)
Definition AbsNone : Z := 0.
Definition AbsCol : Z := 2.
Definition AbsRow : Z := 4.
Definition AbsBoth : Z := Z.lor AbsCol AbsRow.

(** [ErrNegativeIndex]. *)
Definition ErrNegativeIndex : error := ErrorString "IndexToA1: negative index".

(** [byte('A' + (col % 26))]. *)
Definition letter (d : Z) : ascii := ascii_of_nat (Z.to_nat (65 + d)).

(** The loop of [ColIndexToLetters]: [i] is the index into [tmp], an array
    of 8 bytes, and [out] is [tmp[i:]]. The loop decrements [i] before it
    writes, so with [i = 0] the write is out of range and panics. Go's [/]
    and [%] truncate ([Z.quot], [Z.rem]). *)
Fixpoint colLoop (i : nat) (col : Z) (out : list ascii)
  : option (list ascii) :=
  if col <? 0 then Some out
  else
    match i with
    | O => None
    | S i' => colLoop i' (Z.quot col 26 - 1) (letter (Z.rem col 26) :: out)
    end.

(** [ColIndexToLetters]. *)
Definition ColIndexToLetters (col : Z) : option (list ascii) :=
  colLoop 8 col [].

(** [IndexToA1]: the returned string and error. *)
Definition IndexToA1 (row col rowOffset colOffset : Z)
  : option (string * option error) :=
  let r := add64 row rowOffset in
  let c := add64 col colOffset in
  if (r <? 0) || (c <? 0) then Some (EmptyString, Some ErrNegativeIndex)
  else
    match ColIndexToLetters c with
    | None => None
    | Some colLetters =>
        Some (string_of_list_ascii colLetters +s fmt_d (add64 r 1), None)
    end.

(** [MustIndexToA1]. *)
Definition MustIndexToA1 (row col rowOffset colOffset : Z) : option string :=
  match IndexToA1 row col rowOffset colOffset with
  | Some (s, None) => Some s
  | Some (_, Some _) => None
  | None => None
  end.

(** [IndexToA1At]. *)
Definition IndexToA1At (row col : Z) : option (string * option error) :=
  IndexToA1 row col 0 0.

(** [MustIndexToA1At]. *)
Definition MustIndexToA1At (row col : Z) : option string :=
  MustIndexToA1 row col 0 0.

(** [IndexToA1Abs]; [abs] is a [uint8]. *)
Definition IndexToA1Abs (row col rowOffset colOffset : Z) (abs : Z)
  : option (string * option error) :=
  let r := add64 row rowOffset in
  let c := add64 col colOffset in
  if (r <? 0) || (c <? 0) then Some (EmptyString, Some ErrNegativeIndex)
  else
    match ColIndexToLetters c with
    | None => None
    | Some colLetters =>
        let b := EmptyString in
        let b := if negb (Z.land abs AbsCol =? 0) then b +s "$" else b in
        let b := b +s string_of_list_ascii colLetters in
        let b := if negb (Z.land abs AbsRow =? 0) then b +s "$" else b in
        let b := b +s fmt_d (add64 r 1) in
        Some (b, None)
    end.

(** [MustIndexToA1Abs]. *)
Definition MustIndexToA1Abs (row col rowOffset colOffset : Z) (abs : Z)
  : option string :=
  match IndexToA1Abs row col rowOffset colOffset abs with
  | Some (s, None) => Some s
  | Some (_, Some _) => None
  | None => None
  end.

(** [IndexToA1AtAbs]. *)
Definition IndexToA1AtAbs (row col : Z) (abs : Z)
  : option (string * option error) :=
  IndexToA1Abs row col 0 0 abs.

(** [MustIndexToA1AtAbs]. *)
Definition MustIndexToA1AtAbs (row col : Z) (abs : Z) : option string :=
  MustIndexToA1Abs row col 0 0 abs.

End A1.

(** The column that a sequence of letters names: the letters are the
    digits 1 to 26 of a positional notation in base 26, and the first
    column is 0. *)
Definition letterDigit (c : ascii) : Z := Z.of_nat (nat_of_ascii c) - 64.

Definition lettersValue (l : list ascii) : Z :=
  fold_left (fun acc c => acc * 26 + letterDigit c) l 0.

Definition columnOfLetters (l : list ascii) : Z := lettersValue l - 1.

Definition isCapital (c : ascii) : Prop := 1 <= letterDigit c <= 26.

(** The number of columns whose name has at most [i] letters. *)
Fixpoint columnsWithin (i : nat) : Z :=
  match i with
  | O => 0
  | S i' => 26 * (columnsWithin i' + 1)
  end.

(** ** row.go: the growable row

    A Go slice is a window on a backing array: [r.s] is modelled by the
    backing array from the start of the slice to its capacity ([arr]),
    and the length of the slice ([n]); the elements of the slice are the
    first [n] of [arr]. What lies between the length and the capacity stays
    in the array and comes back when the slice is extended again.
    The capacity that [append] gives a new backing array is chosen by the
    Go runtime; it is the parameter [growslice] (of the old capacity).
    Running out of memory is not modelled. A method that can panic returns
    an [option]. The module of the generic type [Row] is [GenericRow]. *)
Definition sub64 (a b : Z) : Z := wrap64 (a - b).

Module GenericRow.
Section WithElement.

Context {T : Type}.

(** The zero value of [T]. *)
Variable zero : T.

(** The capacity of the array that [append] allocates for a full slice. *)
Variable growslice : nat -> nat.

Record t := mk { arr : list T; n : nat }.

(** The elements of the slice [r.s]. *)
Definition s (r : t) : list T := firstn (n r) (arr r).

(** [a[i] = v] on an array. *)
Definition setAt (i : nat) (v : T) (l : list T) : list T :=
  firstn i l ++ [v] ++ skipn (S i) l.

(** [copy(a[start:], values)] on an array that is long enough. *)
Definition copyAt (start : nat) (values : list T) (l : list T) : list T :=
  firstn start l ++ values ++ skipn (start + List.length values) l.

(** [NewRow]. *)
Definition NewRow (capacity : Z) : option t :=
  if capacity <? 0 then None
  else if 0 <? capacity
       then Some (mk (repeat zero (Z.to_nat capacity)) 0)
       else Some (mk [] 0).

(** [Len]. *)
Definition Len (r : t) : Z := Z.of_nat (n r).

(** [Cap]. *)
Definition Cap (r : t) : Z := Z.of_nat (List.length (arr r)).

(** [Grow]: the returned start, and the row. The final reslicing
    [r.s[:need]] panics when [need] is out of range. *)
Definition Grow (k : Z) (r : t) : option (Z * t) :=
  if k <? 0 then None
  else
    let start := Len r in
    if k =? 0 then Some (start, r)
    else
      let need := add64 start k in
      let r :=
        if Cap r <? need
        then mk (s r ++ repeat zero (Z.to_nat (need - start))) (n r)
        else r in
      if (need <? 0) || (Cap r <? need) then None
      else Some (start, mk (arr r) (Z.to_nat need)).

(** [Clear]. *)
Definition Clear (r : t) : t := mk (arr r) 0.

(** [Append]. *)
Definition Append (v : T) (r : t) : t :=
  if (n r <? List.length (arr r))%nat
  then mk (setAt (n r) v (arr r)) (S (n r))
  else mk (s r ++ [v] ++ repeat zero (growslice (List.length (arr r)) - S (n r)))
         (S (n r)).

(** [Set]. *)
Definition Set_ (i : Z) (v : T) (r : t) : option t :=
  if (i <? 0) || (Len r <=? i) then None
  else Some (mk (setAt (Z.to_nat i) v (arr r)) (n r)).

(** [Sets]. The slice expression [r.s[start:need]] panics unless
    [start <= need <= cap(r.s)]. *)
Definition Sets (start : Z) (values : list T) (r : t) : option t :=
  if start <? 0 then None
  else if len values =? 0 then Some r
  else
    let need := add64 start (len values) in
    match (if Len r <? need
           then option_map snd (Grow (sub64 need (Len r)) r)
           else Some r) with
    | None => None
    | Some r =>
        if (need <? start) || (Cap r <? need) then None
        else Some (mk (copyAt (Z.to_nat start) values (arr r)) (n r))
    end.

(** [Put]. *)
Definition Put (i : Z) (v : T) (r : t) : option t :=
  if i <? 0 then None
  else
    match (if Len r <=? i
           then option_map snd (Grow (sub64 (add64 i 1) (Len r)) r)
           else Some r) with
    | None => None
    | Some r => Set_ i v r
    end.

(** [Puts]. *)
Definition Puts (start : Z) (values : list T) (r : t) : option t :=
  if start <? 0 then None
  else if len values =? 0 then Some r
  else
    let need := add64 start (len values) in
    match (if Len r <? need
           then option_map snd (Grow (sub64 need (Len r)) r)
           else Some r) with
    | None => None
    | Some r =>
        if (need <? start) || (Cap r <? need) then None
        else Some (mk (copyAt (Z.to_nat start) values (arr r)) (n r))
    end.

(** [At]. *)
Definition At (i : Z) (r : t) : option T :=
  if (i <? 0) || (Len r <=? i) then None
  else Some (nth (Z.to_nat i) (s r) zero).

(** [Get]. *)
Definition Get (i : Z) (r : t) : T * bool :=
  if (i <? 0) || (Len r <=? i) then (zero, false)
  else (nth (Z.to_nat i) (s r) zero, true).

(** [Slice] (the result aliases the row in Go; here it is its value). *)
Definition Slice (r : t) : list T := s r.

(** [Values]. *)
Definition Values (r : t) : list T := s r.

End WithElement.

Arguments t : clear implicits.

End GenericRow.

(** ** offset_row.go *)
Module OffsetRow.
Section WithElement.

Context {T : Type}.
Variable zero : T.
Variable growslice : nat -> nat.

Record t := mk { r : GenericRow.t T; offset : Z }.

(** [NewOffsetRow]. *)
Definition NewOffsetRow (offset cap : Z) : option t :=
  if offset <? 0 then None
  else match GenericRow.NewRow zero cap with
       | None => None
       | Some r => Some (mk r offset)
       end.

(** [Set]. *)
Definition Set_ (i : Z) (v : T) (or : t) : option t :=
  let j := sub64 i (offset or) in
  if j <? 0 then None
  else option_map (fun r' => mk r' (offset or)) (GenericRow.Set_ j v (r or)).

(** [Sets]. *)
Definition Sets (start : Z) (values : list T) (or : t) : option t :=
  let j := sub64 start (offset or) in
  if j <? 0 then None
  else option_map (fun r' => mk r' (offset or)) (GenericRow.Sets zero j values (r or)).

(** [Put]. *)
Definition Put (i : Z) (v : T) (or : t) : option t :=
  let j := sub64 i (offset or) in
  if j <? 0 then None
  else option_map (fun r' => mk r' (offset or)) (GenericRow.Put zero j v (r or)).

(** [Puts]. *)
Definition Puts (start : Z) (values : list T) (or : t) : option t :=
  let j := sub64 start (offset or) in
  if j <? 0 then None
  else option_map (fun r' => mk r' (offset or)) (GenericRow.Puts zero j values (r or)).

(** [At]. *)
Definition At (i : Z) (or : t) : option T :=
  let j := sub64 i (offset or) in
  if j <? 0 then None else GenericRow.At zero j (r or).

(** [Get]. *)
Definition Get (i : Z) (or : t) : T * bool :=
  let j := sub64 i (offset or) in
  if j <? 0 then (zero, false) else GenericRow.Get zero j (r or).

(** [Offset]. *)
Definition Offset (or : t) : Z := offset or.

(** [Len], [Cap], [Grow], [Clear], [Append], [Slice], [Values]. *)
Definition Len (or : t) : Z := GenericRow.Len (r or).

Definition Cap (or : t) : Z := GenericRow.Cap (r or).

Definition Grow (k : Z) (or : t) : option (Z * t) :=
  option_map (fun p => (fst p, mk (snd p) (offset or)))
    (GenericRow.Grow zero k (r or)).

Definition Clear (or : t) : t := mk (GenericRow.Clear (r or)) (offset or).

Definition Append (v : T) (or : t) : t :=
  mk (GenericRow.Append zero growslice v (r or)) (offset or).

Definition Slice (or : t) : list T := GenericRow.Slice (r or).

Definition Values (or : t) : list T := GenericRow.Values (r or).

End WithElement.

Arguments t : clear implicits.

End OffsetRow.

(** A row is well formed when its length is within its capacity (every
    slice is). *)
Definition rowWellFormed {T : Type} (r : GenericRow.t T) : Prop :=
  (GenericRow.n r <= List.length (GenericRow.arr r))%nat.

(** ** generator.go

    The map [usedIDs] is a function to [bool] (a missing key reads as
    false). The random source is outside the package: [rng] is the sequence
    of the values that [Int31] is going to return, and [drawn] counts those
    already taken. *)
Module IDGenerator.

Record t := mk { usedIDs : Z -> bool; rng : nat -> Z; drawn : nat }.

(** [g.usedIDs[id] = true]. *)
Definition markUsed (id : Z) (used : Z -> bool) : Z -> bool :=
  fun k => if k =? id then true else used k.

(** [NewIDGenerator], for the random source [rng]. *)
Definition NewIDGenerator (rng : nat -> Z) (existingIDs : list Z) : t :=
  mk (fold_left (fun used id => markUsed id used) existingIDs (fun _ => false))
     rng 0.

(** The loop of [Next], with the number of attempts that are left. *)
Fixpoint nextLoop (attempts : nat) (g : t) : option (Z * t) :=
  match attempts with
  | O => None
  | S attempts' =>
      let id := rng g (drawn g) in
      let g := mk (usedIDs g) (rng g) (S (drawn g)) in
      if negb (id =? 0) && negb (usedIDs g id)
      then Some (id, mk (markUsed id (usedIDs g)) (rng g) (drawn g))
      else nextLoop attempts' g
  end.

(** [maxRetries]. *)
Definition maxRetries : nat := Z.to_nat 10000.

(** [Next]; [None] is the panic after [maxRetries] attempts. *)
Definition Next (g : t) : option (Z * t) := nextLoop maxRetries g.

End IDGenerator.

(** [k] calls of [Next] in a row: the identifiers, and the generator. *)
Fixpoint nextIDs (k : nat) (g : IDGenerator.t) : option (list Z * IDGenerator.t) :=
  match k with
  | O => Some ([], g)
  | S k' =>
      match IDGenerator.Next g with
      | None => None
      | Some (id, g) =>
          match nextIDs k' g with
          | None => None
          | Some (ids, g) => Some (id :: ids, g)
          end
      end
  end.

(** A draw that [Next] can return. *)
Definition usable (g : IDGenerator.t) (i : nat) : bool :=
  negb (IDGenerator.rng g i =? 0)
  && negb (IDGenerator.usedIDs g (IDGenerator.rng g i)).

(** * Properties *)

(** ** Slices *)

Lemma len_nonneg {A : Type} (l : list A) : 0 <= len l.
Proof. unfold len. lia. Qed.

Lemma len_zero_iff {A : Type} (l : list A) : len l = 0 <-> l = [].
Proof.
  unfold len. destruct l as [|a l]; cbn [List.length]; split; intro H;
    try reflexivity; try discriminate; lia.
Qed.

Lemma len_eqb_zero {A : Type} (l : list A) :
  (len l =? 0) = match l with [] => true | _ :: _ => false end.
Proof.
  destruct l as [|a l].
  - reflexivity.
  - apply Z.eqb_neq. unfold len. cbn [List.length]. lia.
Qed.

Lemma len_pos_ltb {A : Type} (l : list A) :
  (0 <? len l) = match l with [] => false | _ :: _ => true end.
Proof.
  destruct l as [|a l].
  - reflexivity.
  - apply Z.ltb_lt. unfold len. cbn [List.length]. lia.
Qed.

Lemma len_app {A : Type} (l1 l2 : list A) : len (l1 ++ l2) = len l1 + len l2.
Proof. unfold len. rewrite length_app. lia. Qed.

Lemma batchUpdates_app (w1 w2 : Log) :
  batchUpdates (w1 ++ w2) = batchUpdates w1 ++ batchUpdates w2.
Proof. unfold batchUpdates. apply filter_app. Qed.

Lemma remoteCalls_batchUpdates (w : Log) :
  remoteCalls w = List.length (batchUpdates w).
Proof. reflexivity. Qed.

(** ** The execution pipeline *)
Section Pipeline.

Variable service : Service.

Import BatchUpdateExecutor.

Lemma callLog_batchUpdates (e : t) (w : Log) :
  batchUpdates (callLog e w) = batchUpdates w.
Proof.
  unfold callLog. destruct (hasOnFlushStart e); [|reflexivity].
  rewrite batchUpdates_app. cbn. apply app_nil_r.
Qed.

(** [Flush] on an empty buffer does nothing at all. *)
Lemma Flush_empty (e : t) (w : Log) :
  requests e = [] -> Flush service e w = (None, e, w).
Proof.
  intro H. unfold Flush. rewrite H. reflexivity.
Qed.

(** [Flush] on a non-empty buffer makes one remote call, which carries
    the whole buffer; what it returns and what it leaves in the executor
    follow the answer of the service. *)
Lemma Flush_nonempty (e : t) (w : Log) :
  requests e <> [] ->
  exists w',
    batchUpdates w'
    = batchUpdates w ++ [EvBatchUpdate (spreadID e) (requests e)]
    /\ Flush service e w
       = (match remoteAnswer service e w with
          | None => (None, set_requests_units e [] [])
          | Some terr => (Some (BatchUpdateError terr (units e)), e)
          end, w').
Proof.
  intros Hne. unfold Flush, remoteAnswer, callLog.
  destruct (len (requests e) =? 0) eqn:E.
  { apply Z.eqb_eq, len_zero_iff in E. contradiction. }
  cbv zeta.
  destruct (service _ _ _) as [terr|];
    (eexists; split; cycle 1; [reflexivity|]);
    destruct (hasOnFlushDone e), (hasOnFlushStart e);
    repeat rewrite batchUpdates_app; cbn; rewrite ?app_nil_r; reflexivity.
Qed.

Lemma Flush_err (e : t) (w : Log) :
  err (snd (fst (Flush service e w))) = err e.
Proof.
  unfold Flush. destruct (len (requests e) =? 0); [reflexivity|].
  cbv zeta. destruct (service _ _ _); reflexivity.
Qed.

(** The test [currentCount > 0 && currentCount+newCount > e.limit]. *)
Lemma overLimit_test (e : t) (reqs : list sheets.Request) :
  (0 <? len (requests e)) && (limit e <? len (requests e) + len reqs) = true
  <-> overLimit e reqs.
Proof.
  unfold overLimit. rewrite andb_true_iff, Z.ltb_lt, Z.ltb_lt.
  split; intros [H1 H2]; split; try assumption.
  - intro Hnil. rewrite Hnil in H1. discriminate.
  - pose proof (len_nonneg (requests e)) as Hge.
    assert (len (requests e) <> 0) by (rewrite len_zero_iff; assumption).
    lia.
Qed.

Lemma Queue_sticky (e : t) reqs label (w : Log) :
  err e <> None -> Queue service e reqs label w = (e, w).
Proof.
  intro H. unfold Queue. destruct (err e); [reflexivity | congruence].
Qed.

Lemma Queue_within (e : t) reqs label (w : Log) :
  err e = None -> ~ overLimit e reqs ->
  Queue service e reqs label w
  = (appendUnit e (len (requests e)) reqs label, w).
Proof.
  intros He Hno. unfold Queue. rewrite He.
  destruct ((0 <? len (requests e))
            && (limit e <? len (requests e) + len reqs)) eqn:T.
  - apply overLimit_test in T. contradiction.
  - reflexivity.
Qed.

Lemma Queue_overLimit (e : t) reqs label (w : Log) :
  err e = None -> overLimit e reqs ->
  exists w',
    batchUpdates w'
    = batchUpdates w ++ [EvBatchUpdate (spreadID e) (requests e)]
    /\ Queue service e reqs label w
       = (match remoteAnswer service e w with
          | None => appendUnit (set_requests_units e [] []) 0 reqs label
          | Some terr => set_err e (Some (BatchUpdateError terr (units e)))
          end, w').
Proof.
  intros He Hover. unfold Queue. rewrite He.
  apply overLimit_test in Hover as T. cbv zeta. rewrite T.
  destruct Hover as [Hne _].
  destruct (Flush_nonempty e w Hne) as [w' [Hw' HF]].
  exists w'. split; [exact Hw'|]. rewrite HF.
  destruct (remoteAnswer service e w); reflexivity.
Qed.

Lemma appendUnit_requests (e : t) n reqs label :
  requests (appendUnit e n reqs label) = requests e ++ reqs.
Proof. reflexivity. Qed.

Lemma appendUnit_units (e : t) n reqs label :
  exists l,
    units (appendUnit e n reqs label)
    = units e ++ [mkRequestUnitInfo l n (n + len reqs - 1) (len reqs)]
    /\ (label <> EmptyString -> l = label).
Proof.
  unfold appendUnit. cbv zeta. eexists. split; [reflexivity|].
  intro Hl. destruct (String.eqb label EmptyString) eqn:E; [|reflexivity].
  apply String.eqb_eq in E. contradiction.
Qed.

Lemma appendUnit_err (e : t) n reqs label :
  err (appendUnit e n reqs label) = err e.
Proof. reflexivity. Qed.

Lemma Flush_sticky_buffer (e : t) (w : Log) :
  let e' := snd (fst (Flush service e w)) in
  err e' = err e /\ (requests e' = requests e \/ requests e' = []).
Proof.
  cbv zeta. split; [apply Flush_err|].
  unfold Flush. destruct (len (requests e) =? 0); [left; reflexivity|].
  cbv zeta. destruct (service _ _ _); [left | right]; reflexivity.
Qed.

Lemma pipeline_cons (c : PipelineCall) (cs : list PipelineCall) st :
  pipeline service (c :: cs) st
  = pipeline service cs (pipelineCall service c st).
Proof. reflexivity. Qed.

(** Once the sticky error is set, no sequence of calls clears it, and the
    buffer never receives anything: it stays as it was until a flush
    empties it. *)
Lemma pipeline_sticky (cs : list PipelineCall) :
  forall (e : t) (w : Log),
    err e <> None ->
    let e' := fst (pipeline service cs (e, w)) in
    err e' = err e /\ (requests e' = requests e \/ requests e' = []).
Proof.
  induction cs as [|c cs IH]; intros e w He; cbv zeta.
  - split; [reflexivity | left; reflexivity].
  - rewrite pipeline_cons.
    destruct c as [reqs label|]; cbn [pipelineCall fst snd].
    + rewrite (Queue_sticky e reqs label w He). apply IH, He.
    + pose proof (Flush_sticky_buffer e w) as HF. cbv zeta in HF.
      destruct (Flush service e w) as [[r e1] w1]. cbn [fst snd] in HF.
      cbv beta iota. destruct HF as [He1 Hreq].
      assert (err e1 <> None) as He1' by (rewrite He1; exact He).
      specialize (IH e1 w1 He1'). cbv zeta in IH.
      destruct IH as [IHe IHr]. rewrite He1 in IHe. split; [exact IHe|].
      destruct IHr as [IHr|IHr]; [|right; exact IHr].
      rewrite IHr. exact Hreq.
Qed.

(** C1. For an executor whose sticky error is unset, [Queue] runs exactly one
    flush of the existing buffer before it appends when the buffer is
    non-empty and the buffered count plus the new count exceeds the limit:
    one remote call is made, carrying the existing buffer, and if it
    succeeds the buffer then holds only the new operations, under one new
    unit (if it fails nothing is appended and the error is kept). When
    the buffer is empty the new operations are taken whole, as one unit,
    with no flush, whatever their count. *)
Theorem Queue_flushes_once_before_appending
    (e : t) (reqs : list sheets.Request) (label : string) (w : Log)
    (e' : t) (w' : Log) :
  err e = None ->
  Queue service e reqs label w = (e', w') ->
  (overLimit e reqs ->
     batchUpdates w'
     = batchUpdates w ++ [EvBatchUpdate (spreadID e) (requests e)]
     /\ (remoteAnswer service e w = None ->
           requests e' = reqs
           /\ (exists l,
                 units e'
                 = [mkRequestUnitInfo l 0 (len reqs - 1) (len reqs)])
           /\ err e' = None)
     /\ (forall terr,
           remoteAnswer service e w = Some terr ->
           requests e' = requests e
           /\ units e' = units e
           /\ err e' = Some (BatchUpdateError terr (units e))))
  /\ (requests e = [] ->
        w' = w
        /\ requests e' = reqs
        /\ (exists l,
              units e'
              = units e ++ [mkRequestUnitInfo l 0 (len reqs - 1) (len reqs)])
        /\ err e' = None).
Proof.
  intros He HQ. split.
  - intro Hover.
    destruct (Queue_overLimit e reqs label w He Hover) as [w1 [Hw1 HQ1]].
    rewrite HQ in HQ1. injection HQ1 as He' Hw'. subst w1.
    split; [exact Hw1|]. split.
    + intro Hans. rewrite Hans in He'. subst e'.
      split; [reflexivity|]. split.
      * destruct (appendUnit_units (set_requests_units e [] []) 0 reqs label)
          as [l [Hl _]].
        exists l. exact Hl.
      * exact He.
    + intros terr Hans. rewrite Hans in He'. subst e'.
      repeat split; reflexivity.
  - intro Hnil.
    assert (~ overLimit e reqs) as Hno by (intros [Hne _]; contradiction).
    rewrite (Queue_within e reqs label w He Hno) in HQ.
    injection HQ as He' Hw'. subst e' w'.
    split; [reflexivity|]. split.
    + rewrite appendUnit_requests, Hnil. reflexivity.
    + split; [|exact He].
      destruct (appendUnit_units e (len (requests e)) reqs label)
        as [l [Hl _]].
      exists l. rewrite Hl, Hnil. reflexivity.
Qed.

(** C2. [Flush] on an empty buffer returns success without a remote call
    and changes nothing. On a non-empty buffer it makes one remote call;
    if the call succeeds, the buffer and the unit list are cleared (and
    nothing else changes), so that a flush right after it is a no-op; if
    the call fails, the executor is exactly as it was and the returned
    error is a [BatchUpdateError] that wraps the transport error and
    carries the retained units. *)
Theorem Flush_clears_on_success_and_keeps_on_failure
    (e : t) (w : Log) (r : option error) (e' : t) (w' : Log) :
  Flush service e w = (r, e', w') ->
  (requests e = [] -> r = None /\ e' = e /\ w' = w)
  /\ (requests e <> [] ->
        batchUpdates w'
        = batchUpdates w ++ [EvBatchUpdate (spreadID e) (requests e)])
  /\ (requests e <> [] ->
      remoteAnswer service e w = None ->
        r = None
        /\ requests e' = [] /\ units e' = []
        /\ e' = set_requests_units e [] []
        /\ Flush service e' w' = (None, e', w'))
  /\ (requests e <> [] ->
      forall terr,
        remoteAnswer service e w = Some terr ->
        r = Some (BatchUpdateError terr (units e))
        /\ Unwrap (BatchUpdateError terr (units e)) = Some terr
        /\ e' = e).
Proof.
  intro HF. split; [|split; [|split]].
  - intro Hnil. rewrite (Flush_empty e w Hnil) in HF.
    injection HF as <- <- <-. repeat split.
  - intro Hne. destruct (Flush_nonempty e w Hne) as [w1 [Hw1 HF1]].
    rewrite HF in HF1. injection HF1 as _ Hw'. subst w1. exact Hw1.
  - intros Hne Hans. destruct (Flush_nonempty e w Hne) as [w1 [Hw1 HF1]].
    rewrite HF, Hans in HF1. injection HF1 as -> -> ->.
    repeat split; try reflexivity; apply Flush_empty; reflexivity.
  - intros Hne terr Hans.
    destruct (Flush_nonempty e w Hne) as [w1 [Hw1 HF1]].
    rewrite HF, Hans in HF1. injection HF1 as -> -> ->.
    repeat split.
Qed.

(** C3. A call of [Queue] on an executor whose sticky error is unset sets
    it exactly when the flush before appending runs and fails; [Flush]
    never changes the field, whatever its outcome. When the sticky error
    is set, [Queue] returns with the executor (buffer, unit list, error)
    and the log unchanged, and no later sequence of [Queue] and [Flush]
    calls clears the error or puts anything into the buffer. *)
Theorem sticky_error_set_only_by_failed_flush_in_Queue
    (e : t) (reqs : list sheets.Request) (label : string) (w : Log)
    (e' : t) (w' : Log) :
  Queue service e reqs label w = (e', w') ->
  (err e = None ->
     (err e' <> None
      <-> overLimit e reqs /\ remoteAnswer service e w <> None))
  /\ (forall w0, err (snd (fst (Flush service e w0))) = err e)
  /\ (err e <> None ->
        e' = e /\ w' = w
        /\ forall cs,
             let e'' := fst (pipeline service cs (e', w')) in
             err e'' = err e
             /\ (requests e'' = requests e \/ requests e'' = [])).
Proof.
  intro HQ. split; [|split].
  - intro He. split.
    + intro Hset.
      assert (overLimit e reqs) as Hover.
      { destruct (overLimit_test e reqs) as [Hto _].
        destruct ((0 <? len (requests e))
                  && (limit e <? len (requests e) + len reqs)) eqn:T.
        - apply Hto. reflexivity.
        - exfalso. apply Hset.
          assert (~ overLimit e reqs) as Hno.
          { intro Hov. apply overLimit_test in Hov. congruence. }
          rewrite (Queue_within e reqs label w He Hno) in HQ.
          injection HQ as <- _. exact He. }
      split; [exact Hover|].
      destruct (Queue_overLimit e reqs label w He Hover) as [w1 [_ HQ1]].
      rewrite HQ in HQ1. injection HQ1 as He' _.
      intro Hans. rewrite Hans in He'. apply Hset. subst e'. exact He.
    + intros [Hover Hans].
      destruct (Queue_overLimit e reqs label w He Hover) as [w1 [_ HQ1]].
      rewrite HQ in HQ1. injection HQ1 as He' _.
      destruct (remoteAnswer service e w) as [terr|]; [|congruence].
      subst e'. discriminate.
  - intro w0. apply Flush_err.
  - intro He. rewrite (Queue_sticky e reqs label w He) in HQ.
    injection HQ as <- <-. split; [reflexivity|]. split; [reflexivity|].
    intro cs. apply pipeline_sticky. exact He.
Qed.

End Pipeline.

(** The scenario with limit 3: queueing B onto the buffer that holds A makes
    one remote call, with A alone, and leaves B alone in the buffer. *)
Lemma Queue_flushes_once_before_appending_witness :
  BatchUpdateExecutor.err holdingA = None
  /\ overLimit holdingA unitB
  /\ remoteAnswer accepting holdingA [] = None
  /\ batchUpdates (snd (BatchUpdateExecutor.Queue accepting holdingA unitB "B" []))
     = [EvBatchUpdate "doc" unitA]
  /\ BatchUpdateExecutor.requests
       (fst (BatchUpdateExecutor.Queue accepting holdingA unitB "B" []))
     = unitB.
Proof.
  assert (overLimit holdingA unitB) as Hover.
  { split; [discriminate | vm_compute; reflexivity]. }
  pose proof
    (Queue_flushes_once_before_appending accepting holdingA unitB "B" []
       _ _ eq_refl (surjective_pairing _)) as [H _].
  destruct (H Hover) as [Hcalls [Hok _]].
  destruct (Hok eq_refl) as [Hreqs _].
  split; [reflexivity|]. split; [exact Hover|]. split; [reflexivity|].
  split; assumption.
Defined.

(** A rejected flush of the buffer that holds A: the executor is as it
    was, and the error carries the unit of A. *)
Lemma Flush_clears_on_success_and_keeps_on_failure_witness :
  BatchUpdateExecutor.requests holdingA <> []
  /\ remoteAnswer rejecting holdingA []
     = Some (TransportError "503 Service Unavailable")
  /\ fst (fst (BatchUpdateExecutor.Flush rejecting holdingA []))
     = Some (BatchUpdateError (TransportError "503 Service Unavailable")
               [mkRequestUnitInfo "A" 0 1 2])
  /\ snd (fst (BatchUpdateExecutor.Flush rejecting holdingA [])) = holdingA.
Proof.
  assert (BatchUpdateExecutor.requests holdingA <> []) as Hne by discriminate.
  pose proof
    (Flush_clears_on_success_and_keeps_on_failure rejecting holdingA []
       (fst (fst (BatchUpdateExecutor.Flush rejecting holdingA [])))
       (snd (fst (BatchUpdateExecutor.Flush rejecting holdingA [])))
       (snd (BatchUpdateExecutor.Flush rejecting holdingA []))
       eq_refl) as [_ [_ [_ H]]].
  destruct (H Hne _ eq_refl) as [Hr [_ He]].
  repeat split; assumption.
Defined.

(** The executor that a rejected flush inside [Queue] left with its sticky
    error set: a further [Queue] changes nothing. *)
Lemma sticky_error_set_only_by_failed_flush_in_Queue_witness :
  BatchUpdateExecutor.err stuck <> None
  /\ BatchUpdateExecutor.Queue rejecting stuck unitB "again" [] = (stuck, []).
Proof.
  assert (BatchUpdateExecutor.err stuck <> None) as He by discriminate.
  pose proof
    (sticky_error_set_only_by_failed_flush_in_Queue rejecting stuck unitB
       "again" [] _ _ (surjective_pairing _)) as [_ [_ H]].
  destruct (H He) as [H1 [H2 _]].
  split; [exact He|].
  rewrite (surjective_pairing (BatchUpdateExecutor.Queue _ _ _ _ _)).
  rewrite H1, H2. reflexivity.
Defined.

(** ** The limit *)

(** The constructor replaces a non-positive limit by 100, so the limit of
    a new executor is positive. *)
Lemma NewBatchUpdateExecutor_limit (spreadsheetID : string) (limit : Z) :
  BatchUpdateExecutor.limit
    (BatchUpdateExecutor.NewBatchUpdateExecutor spreadsheetID limit)
  = (if limit <=? 0 then 100 else limit)
  /\ 0 < BatchUpdateExecutor.limit
           (BatchUpdateExecutor.NewBatchUpdateExecutor spreadsheetID limit).
Proof.
  unfold BatchUpdateExecutor.NewBatchUpdateExecutor. cbn.
  split; [reflexivity|]. destruct (limit <=? 0) eqn:E; [lia|].
  apply Z.leb_gt in E. exact E.
Qed.

(** [WithLimit] stores its argument as it is. *)
Lemma WithLimit_limit (limit : Z) (b : Builder.t) (e : BatchUpdateExecutor.t) :
  Builder.executor b = Some e ->
  Builder.executor (Builder.WithLimit limit b)
  = Some (BatchUpdateExecutor.set_limit e limit).
Proof. intro H. unfold Builder.WithLimit. rewrite H. reflexivity. Qed.

(** C7. The limit setter of the builder does not replace a non-positive
    value by the default: after [WithLimit 0] on the builder that
    [Client.Builder] returns, the limit of the executor is 0, not 100 (and
    after [WithLimit (-5)] it is -5). *)
Theorem WithLimit_keeps_a_non_positive_limit :
  option_map BatchUpdateExecutor.limit
    (Builder.executor (Builder.WithLimit 0 (Client_Builder "doc")))
  = Some 0
  /\ option_map BatchUpdateExecutor.limit
       (Builder.executor (Builder.WithLimit (-5) (Client_Builder "doc")))
     = Some (-5).
Proof. split; reflexivity. Qed.

(** With the limit 0, every [Queue] onto a non-empty buffer flushes
    first. *)
Lemma limit_zero_always_over (e : BatchUpdateExecutor.t) reqs :
  BatchUpdateExecutor.limit e = 0 ->
  BatchUpdateExecutor.requests e <> [] ->
  overLimit e reqs.
Proof.
  intros Hl Hne. split; [exact Hne|]. rewrite Hl.
  pose proof (len_nonneg reqs).
  pose proof (len_nonneg (BatchUpdateExecutor.requests e)).
  assert (len (BatchUpdateExecutor.requests e) <> 0)
    by (rewrite len_zero_iff; exact Hne).
  lia.
Qed.

(** ** Finalization *)

(** [Requests] on an accumulator without recorded failures. *)
Lemma Requests_ok (b : Builder.t) :
  Builder.errs b = [] ->
  Builder.Requests b = ((synthesized b ++ Builder.requests b, None), b).
Proof.
  intro H. unfold Builder.Requests, synthesized. rewrite H. cbn [len List.length].
  change (0 <? Z.of_nat 0) with false. cbv iota.
  destruct (Builder.props b) as [p|]; [|reflexivity].
  destruct (0 <? len (Builder.propFields b)); reflexivity.
Qed.

(** [Requests] on an accumulator with recorded failures. *)
Lemma Requests_failed (b : Builder.t) :
  Builder.errs b <> [] ->
  Builder.Requests b = (([], Some (JoinError (Builder.errs b))), b).
Proof.
  intro H. unfold Builder.Requests. rewrite len_pos_ltb.
  destruct (Builder.errs b) as [|e es] eqn:E; [contradiction|].
  unfold errors_Join. cbn [map discardNil].
  assert (forall l, discardNil (map Some l) = l) as Hd.
  { induction l as [|x l IH]; cbn; [reflexivity | rewrite IH; reflexivity]. }
  rewrite Hd. reflexivity.
Qed.

(** C9. [Requests] returns the accumulator exactly as it received it
    (operations, property record and touched-field list included), and a
    second call right after the first returns the same sequence and the
    same error. *)
Theorem Requests_idempotent (b : Builder.t) :
  snd (Builder.Requests b) = b
  /\ fst (Builder.Requests (snd (Builder.Requests b)))
     = fst (Builder.Requests b).
Proof.
  assert (snd (Builder.Requests b) = b) as H.
  { unfold Builder.Requests. destruct (0 <? len (Builder.errs b)); reflexivity. }
  split; [exact H|]. rewrite H. reflexivity.
Qed.

(** ** Validation *)

(** [AddSheet] has no validation: whatever its arguments, it records no
    failure and appends one operation. *)
Lemma AddSheet_never_rejects (sheetID : Z) (title : string) (index : Z)
    (b : Builder.t) :
  Builder.errs (Builder.AddSheet sheetID title index b) = Builder.errs b
  /\ exists props,
       Builder.requests (Builder.AddSheet sheetID title index b)
       = Builder.requests b ++ [sheets.AddSheet props]
       /\ sheets.shp_SheetId props = sheetID.
Proof.
  unfold Builder.AddSheet. cbv zeta. split; [reflexivity|].
  eexists. split; [reflexivity|]. destruct (0 <=? index); reflexivity.
Qed.

(** C6. [AddSheet] called with the negative sheet identifier -1 records no
    validation failure and appends an operation that carries the
    identifier -1, whereas the sibling [CopySheetWithID] rejects the same
    identifier for the sheet it creates, and [Sheet] rejects it for the
    view it returns: both record a failure and leave the operations
    alone. *)
Theorem AddSheet_accepts_a_negative_sheet_id :
  let b := Builder.AddSheet (-1) "Summary" 0 Builder.NewBuilder in
  let b' := Builder.CopySheetWithID 1 0 (-1) "Summary" Builder.NewBuilder in
  let b'' := snd (Builder.Sheet (-1) Builder.NewBuilder) in
  (Builder.errs b = []
   /\ Builder.requests b
      = [sheets.AddSheet
           (sheets.mkSheetProperties (-1) "Summary" 0 false None
              ["Index"%string])])
  /\ (Builder.errs b'
      = [ErrorString "CopySheetWithID: invalid new sheet id: 0"]
      /\ Builder.requests b' = [])
  /\ (Builder.errs b'' = [ErrorString "Sheet: invalid sheet ID: -1"]
      /\ Builder.requests b'' = []).
Proof. cbv zeta. repeat split. Qed.

Lemma copySheetLoop_errs (srcSheetID toIndex : Z) (newNames : list string) :
  forall (currentIndex : Z) (b : Builder.t),
    Builder.errs
      (Builder.copySheetLoop srcSheetID toIndex currentIndex newNames b)
    = Builder.errs b.
Proof.
  induction newNames as [|name rest IH]; intros currentIndex b;
    [reflexivity|].
  cbn [Builder.copySheetLoop]. destruct (0 <=? toIndex); rewrite IH; reflexivity.
Qed.

Lemma deleteSheetLoop_errs (sheetIDs : list Z) :
  forall b : Builder.t,
    Builder.errs (Builder.deleteSheetLoop sheetIDs b) = Builder.errs b.
Proof.
  induction sheetIDs as [|id rest IH]; intro b; [reflexivity|].
  cbn [Builder.deleteSheetLoop]. rewrite IH. reflexivity.
Qed.

Lemma rejectsOrAccepts_unlessRectInvalid
    (rect : option Rect) (label name : string)
    (rest : Rect -> Builder.t -> Builder.t) (b : Builder.t) :
  (forall r b0, rejectsOrAccepts b0 (rest r b0)) ->
  rejectsOrAccepts b (SheetBuilder.unlessRectInvalid rect label name rest b).
Proof.
  intro Hrest. unfold SheetBuilder.unlessRectInvalid, SheetBuilder.isRectInvalid.
  destruct rect as [r|]; [|left; eexists; repeat split].
  destruct (Rect_Row r <? 0); [left; eexists; repeat split|].
  destruct (Rect_Col r <? 0); [left; eexists; repeat split|].
  destruct ((Rect_Height r <? 0) && negb (Rect_Height r =? SheetBuilder.toEnd));
    [left; eexists; repeat split|].
  destruct ((Rect_Width r <? 0) && negb (Rect_Width r =? SheetBuilder.toEnd));
    [left; eexists; repeat split|].
  apply Hrest.
Qed.

Ltac rejects :=
  repeat
    match goal with
    | |- rejectsOrAccepts ?b ?b => right; reflexivity
    | |- rejectsOrAccepts _ (Builder.appendError (SheetBuilder.errorf _) _) =>
        left; eexists; repeat split
    | |- rejectsOrAccepts _ (Builder.appendError (Some _) _) =>
        left; eexists; repeat split
    | |- rejectsOrAccepts _ (Builder.AppendRequest (Some _) _) =>
        right; reflexivity
    | |- rejectsOrAccepts _ (Builder.PrependRequest (Some _) _) =>
        right; reflexivity
    | |- rejectsOrAccepts _ (Builder.set_executor _ _) => right; reflexivity
    | |- rejectsOrAccepts _ (Builder.set_requests _ _) => right; reflexivity
    | |- rejectsOrAccepts _ (SheetBuilder.unlessRectInvalid _ _ _ _ _) =>
        apply rejectsOrAccepts_unlessRectInvalid; intros
    | |- rejectsOrAccepts _ (Builder.copySheetLoop _ _ _ _ _) =>
        right; apply copySheetLoop_errs
    | |- rejectsOrAccepts _ (Builder.deleteSheetLoop _ _) =>
        right; apply deleteSheetLoop_errs
    | |- rejectsOrAccepts _ (if ?c then _ else _) => destruct c
    | |- rejectsOrAccepts _ (match ?c with _ => _ end) => destruct c
    | |- rejectsOrAccepts _ (snd (if ?c then _ else _)) =>
        destruct c; cbn [snd]
    | |- rejectsOrAccepts _ _ => progress cbv zeta
    end.

Lemma rejectsOrAccepts_SetLink sb rect url (b : Builder.t) :
  rejectsOrAccepts b (SheetBuilder.SetLink sb rect url b).
Proof. unfold SheetBuilder.SetLink. rejects. Qed.

(** X25. Every fluent call other than [InsertAndCopyRange] either records one
    failure and leaves the operations, the property record and the
    touched-field list as they were, or records no failure. *)
Lemma call_rejectsOrAccepts (c : Call) (b : Builder.t) :
  (forall sb srcSheetID src dstR dstC pasteType,
     c <> OnSheet sb (InsertAndCopyRange srcSheetID src dstR dstC pasteType)) ->
  rejectsOrAccepts b (call c b).
Proof.
  intro Hc. destruct c as [c|sb c|rb c|cb c].
  - destruct c; cbn [call builderCall];
      unfold Builder.Title, Builder.Locale, Builder.TimeZone,
        Builder.Sheet, Builder.AddSheet, Builder.CopySheet,
        Builder.CopySheetWithID, Builder.DeleteSheet, Builder.WithTrace,
        Builder.WithLimit;
      rejects;
      (right; unfold Builder.ensureProps; destruct (Builder.props b);
       reflexivity).
  - destruct c; cbn [call sheetCall];
      try (exfalso; eapply Hc; reflexivity);
      try apply rejectsOrAccepts_SetLink;
      unfold SheetBuilder.Row, SheetBuilder.Column, SheetBuilder.CopyRange,
        SheetBuilder.FillDownFrom,
        SheetBuilder.MergeRows, SheetBuilder.MergeCols, SheetBuilder.Merge,
        SheetBuilder.ExpandRows, SheetBuilder.ExpandColumns,
        SheetBuilder.InsertColumns, SheetBuilder.SetCellValue,
        SheetBuilder.SetRowValues, SheetBuilder.SetRangeValues,
        SheetBuilder.ProtectRange, SheetBuilder.ProtectSheet,
        SheetBuilder.addProtectedRangeRequest,
        SheetBuilder.SetForegroundColor, SheetBuilder.SetBackgroundColor,
        SheetBuilder.SetTabColor, SheetBuilder.InsertRange,
        SheetBuilder.DeleteRange,
        SheetBuilder.SetLinkToSheet, SheetBuilder.Hide, SheetBuilder.Show,
        SheetBuilder.SetHidden, SheetBuilder.SetColumnsHidden,
        SheetBuilder.SetRowsHidden, SheetBuilder.updateDimension,
        SheetBuilder.ClearRangeValues, SheetBuilder.ClearColValues,
        SheetBuilder.ClearRowValues, SheetBuilder.clearValues;
      rejects; try apply rejectsOrAccepts_SetLink.
  - destruct c; cbn [call];
      unfold RowBuilder.Hide, RowBuilder.Show, RowBuilder.SetHeight,
        SheetBuilder.SetRowsHidden, SheetBuilder.updateDimension;
      rejects.
  - destruct c; cbn [call];
      unfold ColumnBuilder.Hide, ColumnBuilder.Show, ColumnBuilder.SetWidth,
        SheetBuilder.SetColumnsHidden, SheetBuilder.updateDimension;
      rejects.
Qed.

(** [InsertAndCopyRange] is the exception: it stages the insertion before
    [CopyRange] validates the shifted source, so with a source on the same
    sheet that starts at row 0 and extends to the end (height [toEnd]) it
    both stages an operation and records a failure. *)
Lemma InsertAndCopyRange_stages_then_rejects :
  let b :=
    SheetBuilder.InsertAndCopyRange (mkSheetBuilder 7) 7
      (Some (mkRect 0 0 (-1) 2)) 0 0 "" Builder.NewBuilder in
  Builder.errs b = [ErrorString "CopyRange: invalid src.Row: -1"]
  /\ Builder.requests b
     = [sheets.InsertRange (sheets.mkGridRange 7 0 (-1) 0 2) "ROWS"].
Proof. cbv zeta. split; reflexivity. Qed.

(** ** Cell values *)

(** C10. [toCellData] encodes a string that starts with '=' as a formula
    value, any other string (the empty one included) as a text value, an
    int and a float64 as number values, a bool as a boolean value, and
    gives a cell with no value for any other dynamic type. No failure is
    recorded for such a value: [SetCellValue] at a valid position appends
    the update with the empty cell and leaves the failure list as it was,
    and so do [SetRowValues] and [SetRangeValues], which never look at the
    values they convert. *)
Theorem toCellData_by_dynamic_type :
  (forall s,
     SheetBuilder.toCellData (AnyString (String "="%char s))
     = sheets.mkCellData
         (Some (sheets.mkExtendedValue
                  (Some (String "="%char s)) None None None)) None)
  /\ (forall s,
        (forall rest, s <> String "="%char rest) ->
        SheetBuilder.toCellData (AnyString s)
        = sheets.mkCellData
            (Some (sheets.mkExtendedValue None (Some s) None None)) None)
  /\ (forall i,
        SheetBuilder.toCellData (AnyInt i)
        = sheets.mkCellData
            (Some (sheets.mkExtendedValue None None (Some (Float64OfInt i)) None))
            None)
  /\ (forall f,
        SheetBuilder.toCellData (AnyFloat64 f)
        = sheets.mkCellData
            (Some (sheets.mkExtendedValue None None (Some f) None)) None)
  /\ (forall v,
        SheetBuilder.toCellData (AnyBool v)
        = sheets.mkCellData
            (Some (sheets.mkExtendedValue None None None (Some v))) None)
  /\ (forall ty,
        SheetBuilder.toCellData (AnyOther ty) = sheets.mkCellData None None)
  /\ (forall sb row col ty b,
        0 <= row -> 0 <= col ->
        let b' := SheetBuilder.SetCellValue sb row col (AnyOther ty) b in
        Builder.errs b' = Builder.errs b
        /\ Builder.requests b'
           = Builder.requests b
             ++ [sheets.UpdateCells
                   (sheets.mkGridCoordinate (sheetID sb) row col)
                   [sheets.mkRowData [sheets.mkCellData None None]]
                   "userEnteredValue"])
  /\ (forall sb row col values b,
        0 <= row -> 0 <= col -> values <> [] ->
        let b' := SheetBuilder.SetRowValues sb row col values b in
        Builder.errs b' = Builder.errs b
        /\ Builder.requests b'
           = Builder.requests b
             ++ [sheets.UpdateCells
                   (sheets.mkGridCoordinate (sheetID sb) row col)
                   [sheets.mkRowData (map SheetBuilder.toCellData values)]
                   "userEnteredValue"])
  /\ (forall sb row col values b,
        0 <= row -> 0 <= col -> values <> [] ->
        let b' := SheetBuilder.SetRangeValues sb row col values b in
        Builder.errs b' = Builder.errs b
        /\ Builder.requests b'
           = Builder.requests b
             ++ [sheets.UpdateCells
                   (sheets.mkGridCoordinate (sheetID sb) row col)
                   (map (fun rowVals =>
                           sheets.mkRowData
                             (map SheetBuilder.toCellData rowVals)) values)
                   "userEnteredValue"]).
Proof.
  repeat match goal with |- _ /\ _ => split end; try reflexivity.
  - intros s Hs. destruct s as [|c s]; [reflexivity|].
    cbn. destruct (Ascii.eqb c "="%char) eqn:E; [|reflexivity].
    apply Ascii.eqb_eq in E. subst c. exfalso. apply (Hs s). reflexivity.
  - intros sb row col ty b Hrow Hcol. cbv zeta. unfold SheetBuilder.SetCellValue.
    assert ((row <? 0) = false) as -> by (apply Z.ltb_ge; lia).
    assert ((col <? 0) = false) as -> by (apply Z.ltb_ge; lia).
    split; reflexivity.
  - intros sb row col values b Hrow Hcol Hne. cbv zeta.
    unfold SheetBuilder.SetRowValues.
    assert ((row <? 0) = false) as -> by (apply Z.ltb_ge; lia).
    assert ((col <? 0) = false) as -> by (apply Z.ltb_ge; lia).
    rewrite len_eqb_zero. destruct values; [contradiction|].
    split; reflexivity.
  - intros sb row col values b Hrow Hcol Hne. cbv zeta.
    unfold SheetBuilder.SetRangeValues.
    assert ((row <? 0) = false) as -> by (apply Z.ltb_ge; lia).
    assert ((col <? 0) = false) as -> by (apply Z.ltb_ge; lia).
    rewrite len_eqb_zero. destruct values; [contradiction|].
    split; reflexivity.
Qed.

(** A row with a formula, a text, a number, a boolean and a value of the
    type [int64]: the last cell is empty and nothing is recorded. *)
Lemma toCellData_by_dynamic_type_witness :
  let values :=
    [AnyString "=SUM(A1:A3)"; AnyString "total"; AnyInt 42; AnyBool true;
     AnyOther "int64"] in
  let b := SheetBuilder.SetRowValues (mkSheetBuilder 7) 0 0 values
             Builder.NewBuilder in
  (0 <= 0 /\ values <> [])
  /\ (forall rest, "total"%string <> String "="%char rest)
  /\ Builder.errs b = []
  /\ SheetBuilder.toCellData (AnyString "total")
     = sheets.mkCellData
         (Some (sheets.mkExtendedValue None (Some "total"%string) None None))
         None
  /\ nth_error (map SheetBuilder.toCellData values) 4
     = Some (sheets.mkCellData None None).
Proof.
  cbv zeta.
  destruct toCellData_by_dynamic_type
    as [_ [Htext [_ [_ [_ [_ [_ [Hrow _]]]]]]]].
  assert (forall rest, "total"%string <> String "="%char rest) as Hs
    by (intros rest; discriminate).
  split; [split; [lia | discriminate]|].
  split; [exact Hs|].
  split.
  - apply (Hrow (mkSheetBuilder 7) 0 0 _ Builder.NewBuilder);
      [lia | lia | discriminate].
  - split; [apply Htext; exact Hs | reflexivity].
Defined.

(** ** What a fluent call can change *)

Lemma stagesOnly_refl (b : Builder.t) : stagesOnly b b.
Proof.
  repeat split; try reflexivity.
  - exists []. symmetry. apply app_nil_r.
  - exists [], []. rewrite app_nil_r. repeat split; constructor.
Qed.

Lemma stagesOnly_trans (b1 b2 b3 : Builder.t) :
  stagesOnly b1 b2 -> stagesOnly b2 b3 -> stagesOnly b1 b3.
Proof.
  intros (Hp1 & Hf1 & [n1 He1] & (pre1 & post1 & Hr1 & Hpre1 & Hpost1))
         (Hp2 & Hf2 & [n2 He2] & (pre2 & post2 & Hr2 & Hpre2 & Hpost2)).
  repeat split.
  - congruence.
  - congruence.
  - exists (n1 ++ n2). rewrite He2, He1. symmetry. apply app_assoc.
  - exists (pre2 ++ pre1), (post1 ++ post2). split; [|split].
    + rewrite Hr2, Hr1. repeat rewrite <- app_assoc. reflexivity.
    + apply Forall_app. split; assumption.
    + apply Forall_app. split; assumption.
Qed.

Lemma stagesOnly_appendError (err : option error) (b : Builder.t) :
  stagesOnly b (Builder.appendError err b).
Proof.
  destruct err as [e|]; [|apply stagesOnly_refl].
  repeat split; try reflexivity.
  - exists [e]. reflexivity.
  - exists [], []. cbn. rewrite app_nil_r. repeat split; constructor.
Qed.

Lemma stagesOnly_AppendRequest (r : sheets.Request) (b : Builder.t) :
  notPropertyUpdate r -> stagesOnly b (Builder.AppendRequest (Some r) b).
Proof.
  intro Hr. repeat split; try reflexivity.
  - exists []. symmetry. apply app_nil_r.
  - exists [], [r]. repeat split; repeat constructor. exact Hr.
Qed.

Lemma stagesOnly_PrependRequest (r : sheets.Request) (b : Builder.t) :
  notPropertyUpdate r -> stagesOnly b (Builder.PrependRequest (Some r) b).
Proof.
  intro Hr. repeat split; try reflexivity.
  - exists []. symmetry. apply app_nil_r.
  - exists [r], []. cbn. rewrite app_nil_r.
    repeat split; repeat constructor. exact Hr.
Qed.

Lemma stagesOnly_set_executor (e : option BatchUpdateExecutor.t) (b : Builder.t) :
  stagesOnly b (Builder.set_executor b e).
Proof.
  repeat split; try reflexivity.
  - exists []. symmetry. apply app_nil_r.
  - exists [], []. cbn. rewrite app_nil_r. repeat split; constructor.
Qed.

Lemma stagesOnly_unlessRectInvalid
    (rect : option Rect) (label name : string)
    (rest : Rect -> Builder.t -> Builder.t) (b : Builder.t) :
  (forall r b0, stagesOnly b0 (rest r b0)) ->
  stagesOnly b (SheetBuilder.unlessRectInvalid rect label name rest b).
Proof.
  intro Hrest. unfold SheetBuilder.unlessRectInvalid, SheetBuilder.isRectInvalid.
  destruct rect as [r|]; [|apply stagesOnly_appendError].
  destruct (Rect_Row r <? 0); [apply stagesOnly_appendError|].
  destruct (Rect_Col r <? 0); [apply stagesOnly_appendError|].
  destruct ((Rect_Height r <? 0) && negb (Rect_Height r =? SheetBuilder.toEnd));
    [apply stagesOnly_appendError|].
  destruct ((Rect_Width r <? 0) && negb (Rect_Width r =? SheetBuilder.toEnd));
    [apply stagesOnly_appendError|].
  apply Hrest.
Qed.

Lemma stagesOnly_copySheetLoop
    (srcSheetID toIndex : Z) (newNames : list string) :
  forall (currentIndex : Z) (b : Builder.t),
    stagesOnly b
      (Builder.copySheetLoop srcSheetID toIndex currentIndex newNames b).
Proof.
  induction newNames as [|name rest IH]; intros currentIndex b.
  - apply stagesOnly_refl.
  - cbn [Builder.copySheetLoop]. destruct (0 <=? toIndex).
    + eapply stagesOnly_trans; [|apply IH].
      apply stagesOnly_AppendRequest. reflexivity.
    + eapply stagesOnly_trans; [|apply IH].
      apply stagesOnly_AppendRequest. reflexivity.
Qed.

Lemma stagesOnly_deleteSheetLoop (sheetIDs : list Z) :
  forall b : Builder.t, stagesOnly b (Builder.deleteSheetLoop sheetIDs b).
Proof.
  induction sheetIDs as [|id rest IH]; intro b.
  - apply stagesOnly_refl.
  - cbn [Builder.deleteSheetLoop].
    eapply stagesOnly_trans; [|apply IH].
    apply stagesOnly_AppendRequest. reflexivity.
Qed.

(** One step of the case analysis of a method body. *)
Ltac stages :=
  repeat
    match goal with
    | |- stagesOnly ?b ?b => apply stagesOnly_refl
    | |- stagesOnly _ (Builder.appendError _ _) => apply stagesOnly_appendError
    | |- stagesOnly _ (Builder.AppendRequest (Some _) _) =>
        apply stagesOnly_AppendRequest; reflexivity
    | |- stagesOnly _ (Builder.PrependRequest (Some _) _) =>
        apply stagesOnly_PrependRequest; reflexivity
    | |- stagesOnly _ (Builder.set_executor _ _) => apply stagesOnly_set_executor
    | |- stagesOnly _ (SheetBuilder.unlessRectInvalid _ _ _ _ _) =>
        apply stagesOnly_unlessRectInvalid; intros
    | |- stagesOnly _ (Builder.copySheetLoop _ _ _ _ _) =>
        apply stagesOnly_copySheetLoop
    | |- stagesOnly _ (Builder.deleteSheetLoop _ _) =>
        apply stagesOnly_deleteSheetLoop
    | |- stagesOnly _ (if ?c then _ else _) => destruct c
    | |- stagesOnly _ (match ?c with _ => _ end) => destruct c
    | |- stagesOnly _ (snd (if ?c then _ else _)) => destruct c; cbn [snd]
    | |- stagesOnly _ _ => progress cbv zeta
    end.

Lemma stagesOnly_InsertRange sb rect shiftDimension (b : Builder.t) :
  stagesOnly b (SheetBuilder.InsertRange sb rect shiftDimension b).
Proof. unfold SheetBuilder.InsertRange. stages. Qed.

Lemma stagesOnly_CopyRange sb srcSheetID src dstR dstC pasteType (b : Builder.t) :
  stagesOnly b (SheetBuilder.CopyRange sb srcSheetID src dstR dstC pasteType b).
Proof. unfold SheetBuilder.CopyRange. stages. Qed.

Lemma stagesOnly_SetLink sb rect url (b : Builder.t) :
  stagesOnly b (SheetBuilder.SetLink sb rect url b).
Proof. unfold SheetBuilder.SetLink. stages. Qed.

Lemma stagesOnly_InsertAndCopyRange
    sb srcSheetID src dstR dstC pasteType (b : Builder.t) :
  stagesOnly b
    (SheetBuilder.InsertAndCopyRange sb srcSheetID src dstR dstC pasteType b).
Proof.
  unfold SheetBuilder.InsertAndCopyRange. stages;
    (eapply stagesOnly_trans;
     [apply stagesOnly_InsertRange | apply stagesOnly_CopyRange]).
Qed.

Lemma stagesOnly_sheetCall (sb : SheetBuilder) (c : SheetCall) (b : Builder.t) :
  stagesOnly b (sheetCall sb c b).
Proof.
  destruct c; cbn [sheetCall];
    try apply stagesOnly_InsertRange;
    try apply stagesOnly_CopyRange;
    try apply stagesOnly_SetLink;
    try apply stagesOnly_InsertAndCopyRange;
    unfold SheetBuilder.Row, SheetBuilder.Column, SheetBuilder.FillDownFrom,
      SheetBuilder.MergeRows, SheetBuilder.MergeCols, SheetBuilder.Merge,
      SheetBuilder.ExpandRows, SheetBuilder.ExpandColumns,
      SheetBuilder.InsertColumns, SheetBuilder.SetCellValue,
      SheetBuilder.SetRowValues, SheetBuilder.SetRangeValues,
      SheetBuilder.ProtectRange, SheetBuilder.ProtectSheet,
      SheetBuilder.addProtectedRangeRequest,
      SheetBuilder.SetForegroundColor, SheetBuilder.SetBackgroundColor,
      SheetBuilder.SetTabColor, SheetBuilder.DeleteRange,
      SheetBuilder.SetLinkToSheet, SheetBuilder.Hide, SheetBuilder.Show,
      SheetBuilder.SetHidden, SheetBuilder.SetColumnsHidden,
      SheetBuilder.SetRowsHidden, SheetBuilder.updateDimension,
      SheetBuilder.ClearRangeValues, SheetBuilder.ClearColValues,
      SheetBuilder.ClearRowValues, SheetBuilder.clearValues;
    stages; try apply stagesOnly_SetLink.
Qed.

Lemma stagesOnly_call (c : Call) (b : Builder.t) :
  setterOf c = None -> stagesOnly b (call c b).
Proof.
  intro Hc. destruct c as [c|sb c|rb c|cb c].
  - destruct c; try discriminate Hc; cbn [call builderCall];
      unfold Builder.Sheet, Builder.AddSheet, Builder.CopySheet,
        Builder.CopySheetWithID, Builder.DeleteSheet, Builder.WithTrace,
        Builder.WithLimit;
      stages.
    (* AddSheet appends directly to b.requests *)
    apply (stagesOnly_AppendRequest (sheets.AddSheet _) b). reflexivity.
  - apply stagesOnly_sheetCall.
  - destruct c; cbn [call];
      unfold RowBuilder.Hide, RowBuilder.Show, RowBuilder.SetHeight,
        SheetBuilder.SetRowsHidden, SheetBuilder.updateDimension;
      stages.
  - destruct c; cbn [call];
      unfold ColumnBuilder.Hide, ColumnBuilder.Show, ColumnBuilder.SetWidth,
        SheetBuilder.SetColumnsHidden, SheetBuilder.updateDimension;
      stages.
Qed.

(** Case analysis on a field path: one of the three the setters mark, or
    another string. *)
Ltac by_field f :=
  let E := fresh "E" in
  destruct (String.eqb f "title") eqn:E;
  [ apply String.eqb_eq in E; subst f; reflexivity
  | clear E; destruct (String.eqb f "locale") eqn:E;
    [ apply String.eqb_eq in E; subst f; reflexivity
    | clear E; destruct (String.eqb f "timeZone") eqn:E;
      [ apply String.eqb_eq in E; subst f; reflexivity
      | reflexivity ] ] ].

(** A property setter stores its value, marks its field, and touches
    nothing else. *)
Lemma setter_call (c : Call) (field v : string) (b : Builder.t) :
  setterOf c = Some (field, v) ->
  Builder.errs (call c b) = Builder.errs b
  /\ Builder.requests (call c b) = Builder.requests b
  /\ Builder.propFields (call c b) = Builder.propFields b ++ [field]
  /\ (exists p, Builder.props (call c b) = Some p)
  /\ (forall f,
        propertyValue (propsOrZero (Builder.props (call c b))) f
        = if String.eqb f field then v
          else propertyValue (propsOrZero (Builder.props b)) f).
Proof.
  intro Hc.
  destruct c as [c|sb c|rb c|cb c]; try discriminate Hc.
  destruct c; try discriminate Hc; cbn in Hc; injection Hc as <- <-;
    cbn [call builderCall];
    unfold Builder.Title, Builder.Locale, Builder.TimeZone,
      Builder.ensureProps, Builder.assignProps;
    cbv zeta; destruct (Builder.props b) as [p|] eqn:Hp; cbn;
    rewrite ?Hp; cbn;
    (split; [reflexivity|]); (split; [reflexivity|]);
    (split; [reflexivity|]); (split; [eexists; reflexivity|]);
    intro f; unfold propertyValue; cbn; by_field f.
Qed.

Lemma chain_cons (c : Call) (cs : list Call) (b : Builder.t) :
  chain (c :: cs) b = chain cs (call c b).
Proof. reflexivity. Qed.


(** What a chain of fluent calls leaves in the accumulator. *)
Lemma chain_summary (cs : list Call) :
  forall b0 : Builder.t,
    Builder.propFields (chain cs b0)
    = Builder.propFields b0 ++ touchedFields cs
    /\ (Builder.props b0 <> None \/ touchedFields cs <> [] ->
        exists p, Builder.props (chain cs b0) = Some p)
    /\ (forall f,
          propertyValue (propsOrZero (Builder.props (chain cs b0))) f
          = match latestValue f cs with
            | Some v => v
            | None => propertyValue (propsOrZero (Builder.props b0)) f
            end)
    /\ (exists new, Builder.errs (chain cs b0) = Builder.errs b0 ++ new)
    /\ (exists pre post,
          Builder.requests (chain cs b0) = pre ++ Builder.requests b0 ++ post
          /\ Forall notPropertyUpdate pre
          /\ Forall notPropertyUpdate post).
Proof.
  induction cs as [|c cs IH]; intro b0.
  - cbn [chain fold_left touchedFields latestValue].
    split; [symmetry; apply app_nil_r|].
    split.
    { intros [H|H]; [|contradiction].
      destruct (Builder.props b0) as [p|]; [exists p; reflexivity|contradiction]. }
    split; [reflexivity|].
    split; [exists []; symmetry; apply app_nil_r|].
    exists [], []. rewrite app_nil_r. repeat split; constructor.
  - rewrite chain_cons.
    destruct (IH (call c b0)) as (IHf & IHp & IHv & [n IHe] & IHr).
    destruct IHr as (pre & post & IHr & Hpre & Hpost).
    cbn [touchedFields latestValue].
    destruct (setterOf c) as [[field v]|] eqn:Hc.
    + destruct (setter_call c field v b0 Hc)
        as (He & Hr & Hf & [p Hp] & Hv).
      split; [rewrite IHf, Hf, <- app_assoc; reflexivity|].
      split.
      { intros _. apply IHp. left. rewrite Hp. discriminate. }
      split.
      { intro f. rewrite IHv. destruct (latestValue f cs); [reflexivity|].
        rewrite Hv. rewrite String.eqb_sym.
        destruct (String.eqb field f); reflexivity. }
      split; [exists n; rewrite IHe, He; reflexivity|].
      exists pre, post. rewrite IHr, Hr. repeat split; assumption.
    + destruct (stagesOnly_call c b0 Hc)
        as (Hp & Hf & [n0 He] & (pre0 & post0 & Hr & Hpre0 & Hpost0)).
      split; [rewrite IHf, Hf; reflexivity|].
      split.
      { intro H. apply IHp. rewrite Hp. exact H. }
      split.
      { intro f. rewrite IHv, Hp. destruct (latestValue f cs); reflexivity. }
      split; [exists (n0 ++ n); rewrite IHe, He, app_assoc; reflexivity|].
      exists (pre ++ pre0), (post0 ++ post). split; [|split].
      * rewrite IHr, Hr. repeat rewrite <- app_assoc. reflexivity.
      * apply Forall_app. split; assumption.
      * apply Forall_app. split; assumption.
Qed.



(** C5. When the failure list is not empty, [Requests] returns no operations
    and the join of all the recorded failures, which is not nil; whatever
    fluent calls follow, the failures recorded so far stay recorded, and
    [Requests] still returns no operations and the join of them all. *)
Theorem Requests_returns_every_recorded_failure
    (b : Builder.t) (cs : list Call) :
  Builder.errs b <> [] ->
  fst (Builder.Requests b) = ([], Some (JoinError (Builder.errs b)))
  /\ exists later,
       Builder.errs (chain cs b) = Builder.errs b ++ later
       /\ fst (Builder.Requests (chain cs b))
          = ([], Some (JoinError (Builder.errs b ++ later))).
Proof.
  intro Hne. split.
  - rewrite (Requests_failed b Hne). reflexivity.
  - destruct (chain_summary cs b) as (_ & _ & _ & [later Hl] & _).
    exists later. split; [exact Hl|].
    assert (Builder.errs (chain cs b) <> []) as Hne'.
    { rewrite Hl. intro H. apply app_eq_nil in H. destruct H as [H _].
      contradiction. }
    rewrite (Requests_failed _ Hne'), Hl. reflexivity.
Qed.

(** ** Prepending *)








(** Two failures recorded by two different calls (an invalid row and an
    invalid column), with valid calls before, between and after: nothing is
    returned but the join of both. *)
Lemma Requests_returns_every_recorded_failure_witness :
  Builder.errs invalidRow <> []
  /\ fst (Builder.Requests (chain thenInvalidColumn invalidRow))
     = ([], Some (JoinError
                    [ErrorString "SetCellValue: invalid row: -1";
                     ErrorString "SetCellValue: invalid col: -1"])).
Proof.
  assert (Builder.errs invalidRow <> []) as Hne by discriminate.
  split; [exact Hne|].
  destruct (Requests_returns_every_recorded_failure invalidRow
              thenInvalidColumn Hne)
    as [_ (later & Hlater & Hfinal)].
  rewrite Hfinal. f_equal. f_equal. f_equal.
  rewrite <- Hlater. reflexivity.
Defined.

(** * Further properties of the pipeline *)
Section PipelineAsAWhole.

Variable service : Service.

Lemma deliveredFrom_app (w0 w1 w2 : Log) :
  deliveredFrom service w0 (w1 ++ w2)
  = deliveredFrom service w0 w1
    ++ deliveredFrom service (w0 ++ w1) w2.
Proof.
  revert w0. induction w1 as [|ev w1 IH]; intro w0.
  - cbn. rewrite app_nil_r. reflexivity.
  - cbn [app deliveredFrom]. rewrite IH, <- !app_assoc. reflexivity.
Qed.

Lemma delivered_app (w1 w2 : Log) :
  delivered service (w1 ++ w2)
  = delivered service w1 ++ deliveredFrom service w1 w2.
Proof. unfold delivered. rewrite deliveredFrom_app. reflexivity. Qed.

(** What a flush delivers: the whole buffer if the service accepts the
    call, nothing otherwise. *)
Lemma Flush_delivered (e : BatchUpdateExecutor.t) (w : Log) :
  delivered service (snd (BatchUpdateExecutor.Flush service e w))
  = delivered service w
    ++ match BatchUpdateExecutor.requests e with
       | [] => []
       | _ :: _ =>
           match remoteAnswer service e w with
           | None => BatchUpdateExecutor.requests e
           | Some _ => []
           end
       end.
Proof.
  unfold BatchUpdateExecutor.Flush, remoteAnswer, callLog.
  rewrite len_eqb_zero.
  destruct (BatchUpdateExecutor.requests e) as [|r rs] eqn:Hreq.
  - cbn [snd]. rewrite app_nil_r. reflexivity.
  - cbv zeta.
    destruct (BatchUpdateExecutor.hasOnFlushStart e),
      (BatchUpdateExecutor.hasOnFlushDone e);
      destruct (service _ _ _) as [terr|] eqn:Hans; cbn [snd];
      repeat rewrite delivered_app; cbn [deliveredFrom];
      rewrite ?Hans, ?app_nil_r, <- ?app_assoc; cbn [app];
      rewrite ?app_nil_r; reflexivity.
Qed.

Lemma Flush_buffer (e : BatchUpdateExecutor.t) (w : Log) :
  BatchUpdateExecutor.requests (snd (fst (BatchUpdateExecutor.Flush service e w)))
  = match BatchUpdateExecutor.requests e with
    | [] => []
    | _ :: _ =>
        match remoteAnswer service e w with
        | None => []
        | Some _ => BatchUpdateExecutor.requests e
        end
    end.
Proof.
  unfold BatchUpdateExecutor.Flush, remoteAnswer, callLog.
  rewrite len_eqb_zero.
  destruct (BatchUpdateExecutor.requests e) as [|r rs] eqn:Hreq.
  - cbn. exact Hreq.
  - cbv zeta. destruct (service _ _ _); cbn; [exact Hreq | reflexivity].
Qed.

End PipelineAsAWhole.

Section PipelineConservation.

Variable service : Service.

(** One call of the pipeline, as long as the sticky error stays unset:
    what was delivered, followed by the buffer, grows by exactly what was
    queued. *)
Lemma pipelineCall_conserves
    (c : PipelineCall) (e : BatchUpdateExecutor.t) (w : Log) :
  BatchUpdateExecutor.err (fst (pipelineCall service c (e, w))) = None ->
  BatchUpdateExecutor.err e = None
  /\ delivered service (snd (pipelineCall service c (e, w)))
     ++ BatchUpdateExecutor.requests (fst (pipelineCall service c (e, w)))
     = delivered service w ++ BatchUpdateExecutor.requests e ++ queued [c].
Proof.
  destruct c as [reqs label|]; cbn [pipelineCall fst snd queued].
  - intro Herr.
    destruct (BatchUpdateExecutor.err e) as [x|] eqn:He.
    { rewrite Queue_sticky in Herr by congruence. cbn in Herr. congruence. }
    split; [reflexivity|]. rewrite app_nil_r.
    unfold BatchUpdateExecutor.Queue in *. rewrite He in *.
    destruct ((0 <? len (BatchUpdateExecutor.requests e))
              && (BatchUpdateExecutor.limit e
                  <? len (BatchUpdateExecutor.requests e) + len reqs)) eqn:T.
    + apply overLimit_test in T. destruct T as [Hne _].
      pose proof (Flush_delivered service e w) as Hd.
      pose proof (Flush_buffer service e w) as Hb.
      destruct (BatchUpdateExecutor.Flush service e w) as [[r e1] w1].
      cbn [fst snd] in Hd, Hb.
      destruct r as [er|]; [cbn in Herr; discriminate|].
      cbn [fst snd]. rewrite appendUnit_requests, Hd, Hb.
      destruct (BatchUpdateExecutor.requests e) as [|q qs] eqn:Hreq;
        [contradiction|].
      destruct (remoteAnswer service e w);
        rewrite <- ?app_assoc; cbn [app]; reflexivity.
    + cbn [fst snd]. rewrite appendUnit_requests, app_assoc. reflexivity.
  - intro Herr.
    pose proof (Flush_delivered service e w) as Hd.
    pose proof (Flush_buffer service e w) as Hb.
    pose proof (Flush_err service e w) as Hk.
    destruct (BatchUpdateExecutor.Flush service e w) as [[r e1] w1].
    cbn [fst snd] in *. split; [congruence|].
    rewrite Hd, Hb, app_nil_r.
    destruct (BatchUpdateExecutor.requests e) as [|q qs];
      [rewrite !app_nil_r; reflexivity|].
    destruct (remoteAnswer service e w);
      rewrite <- ?app_assoc, ?app_nil_r; reflexivity.
Qed.

(** X1. As long as the sticky error is unset at the end of a sequence of
    [Queue] and [Flush] calls, nothing was lost, duplicated or reordered:
    the operations the service accepted, followed by the operations still
    in the buffer, are what had been accepted and buffered before, followed
    by the queued operations in the order of the calls. *)
Theorem pipeline_delivers_in_queue_order
    (cs : list PipelineCall) (e : BatchUpdateExecutor.t) (w : Log) :
  BatchUpdateExecutor.err (fst (pipeline service cs (e, w))) = None ->
  delivered service (snd (pipeline service cs (e, w)))
  ++ BatchUpdateExecutor.requests (fst (pipeline service cs (e, w)))
  = delivered service w ++ BatchUpdateExecutor.requests e ++ queued cs.
Proof.
  revert e w. induction cs as [|c cs IH]; intros e w Herr.
  - cbn. rewrite app_nil_r. reflexivity.
  - rewrite pipeline_cons in *.
    destruct (pipelineCall service c (e, w)) as [e1 w1] eqn:Hstep.
    assert (BatchUpdateExecutor.err e1 = None) as He1.
    { destruct (BatchUpdateExecutor.err e1) as [x|] eqn:Hx; [|reflexivity].
      assert (BatchUpdateExecutor.err e1 <> None) as Hne by congruence.
      destruct (pipeline_sticky service cs e1 w1 Hne) as [Hkeep _].
      congruence. }
    rewrite (IH e1 w1 Herr).
    pose proof (pipelineCall_conserves c e w) as Hc.
    rewrite Hstep in Hc. cbn [fst snd] in Hc.
    destruct (Hc He1) as [_ Hc'].
    rewrite app_assoc, Hc'.
    destruct c as [reqs label|]; cbn [queued];
      rewrite <- ?app_assoc, ?app_nil_r; reflexivity.
Qed.

Lemma tileEnd_snoc (start : Z) (us : list RequestUnitInfo) (m : Z)
    (label : string) (count : Z) :
  tileEnd start us = Some m -> 0 <= count ->
  tileEnd start (us ++ [mkRequestUnitInfo label m (m + count - 1) count])
  = Some (m + count).
Proof.
  revert start. induction us as [|u us IH]; intros start Ht Hc.
  - cbn in Ht. injection Ht as ->. cbn.
    rewrite !Z.eqb_refl. assert ((0 <=? count) = true) as ->
      by (apply Z.leb_le; exact Hc).
    reflexivity.
  - cbn [app tileEnd] in *.
    destruct ((StartIndex u =? start) && (0 <=? Count u)
              && (EndIndex u =? start + Count u - 1)); [|discriminate].
    apply IH; assumption.
Qed.

Lemma appendUnit_describes (e : BatchUpdateExecutor.t) reqs label :
  unitsDescribeBuffer e ->
  unitsDescribeBuffer
    (BatchUpdateExecutor.appendUnit e
       (len (BatchUpdateExecutor.requests e)) reqs label).
Proof.
  unfold unitsDescribeBuffer, BatchUpdateExecutor.appendUnit. cbv zeta.
  cbn [BatchUpdateExecutor.units BatchUpdateExecutor.requests
         BatchUpdateExecutor.set_requests_units].
  intro H. rewrite len_app. apply tileEnd_snoc; [exact H | apply len_nonneg].
Qed.

Lemma pipelineCall_describes
    (c : PipelineCall) (e : BatchUpdateExecutor.t) (w : Log) :
  unitsDescribeBuffer e ->
  unitsDescribeBuffer (fst (pipelineCall service c (e, w))).
Proof.
  intro H. destruct c as [reqs label|]; cbn [pipelineCall fst snd].
  - unfold BatchUpdateExecutor.Queue.
    destruct (BatchUpdateExecutor.err e); [exact H|].
    destruct ((0 <? len (BatchUpdateExecutor.requests e))
              && (BatchUpdateExecutor.limit e
                  <? len (BatchUpdateExecutor.requests e) + len reqs)).
    + unfold BatchUpdateExecutor.Flush.
      destruct (len (BatchUpdateExecutor.requests e) =? 0) eqn:E.
      * cbn [fst]. apply Z.eqb_eq in E.
        pose proof (appendUnit_describes e reqs label H) as Ha.
        rewrite E in Ha. exact Ha.
      * cbv zeta. destruct (service _ _ _); cbn [fst]; [exact H|].
        apply (appendUnit_describes
                 (BatchUpdateExecutor.set_requests_units e [] []) reqs label).
        reflexivity.
    + cbn [fst]. apply appendUnit_describes. exact H.
  - unfold BatchUpdateExecutor.Flush.
    destruct (len (BatchUpdateExecutor.requests e) =? 0); [exact H|].
    cbv zeta. destruct (service _ _ _); [exact H | reflexivity].
Qed.

(** X2. The unit list always describes the buffer: after any sequence of
    [Queue] and [Flush] calls on a new executor, whatever the service
    answers, the units lie one after the other from index 0 up to the
    length of the buffer, each with [EndIndex = StartIndex + Count - 1]. *)
Theorem units_always_describe_the_buffer
    (spreadsheetID : string) (limit : Z) (cs : list PipelineCall) (w : Log) :
  unitsDescribeBuffer
    (fst (pipeline service cs
            (BatchUpdateExecutor.NewBatchUpdateExecutor spreadsheetID limit,
             w))).
Proof.
  assert (forall cs e w0,
             unitsDescribeBuffer e ->
             unitsDescribeBuffer (fst (pipeline service cs (e, w0)))) as Hgen.
  { clear cs w. induction cs as [|c cs IH]; intros e w0 H; [exact H|].
    rewrite pipeline_cons.
    pose proof (pipelineCall_describes c e w0 H) as Hstep.
    destruct (pipelineCall service c (e, w0)) as [e1 w1].
    apply IH. exact Hstep. }
  apply Hgen. reflexivity.
Qed.

End PipelineConservation.

(** A run with a rejected flush in the middle: A is queued, a flush is
    rejected, B is queued (the buffer is within the limit 10), a flush is
    accepted. The service rejects exactly the first call. *)
Lemma pipeline_delivers_in_queue_order_witness :
  let service : Service :=
    fun w _ _ => match batchUpdates w with
                 | [] => Some (TransportError "timeout")
                 | _ :: _ => None
                 end in
  let cs := [DoQueue unitA "A"; DoFlush; DoQueue unitB "B"; DoFlush] in
  let start := (BatchUpdateExecutor.NewBatchUpdateExecutor "doc" 10, []) in
  BatchUpdateExecutor.err (fst (pipeline service cs start)) = None
  /\ BatchUpdateExecutor.requests (fst (pipeline service cs start)) = []
  /\ delivered service (snd (pipeline service cs start)) = unitA ++ unitB.
Proof.
  cbv zeta.
  pose proof
    (pipeline_delivers_in_queue_order
       (fun w _ _ => match batchUpdates w with
                     | [] => Some (TransportError "timeout")
                     | _ :: _ => None
                     end)
       [DoQueue unitA "A"; DoFlush; DoQueue unitB "B"; DoFlush]
       (BatchUpdateExecutor.NewBatchUpdateExecutor "doc" 10) [] eq_refl) as H.
  split; [reflexivity|]. split; [reflexivity|].
  rewrite app_nil_r in H. exact H.
Defined.

(** * The convenience flush of the accumulator *)
Section BuilderFlush.

Variable service : Service.

(** [Flush] of an accumulator that has something to send and is bound to an
    executor: the finalized sequence is queued as one unit without label,
    the executor is flushed, and the accumulator is reset if that
    succeeded. *)
Lemma Builder_Flush_bound
    (b : Builder.t) (e : BatchUpdateExecutor.t) (w : Log) :
  Builder.errs b = [] ->
  Builder.executor b = Some e ->
  fst (fst (Builder.Requests b)) <> [] ->
  Builder.Flush service b w
  = (let st :=
       BatchUpdateExecutor.Queue service e
         (fst (fst (Builder.Requests b))) EmptyString w in
     let res := BatchUpdateExecutor.Flush service (fst st) (snd st) in
     match fst (fst res) with
     | Some err =>
         (Some (WrapError "Flush: failed to flush builder: " err),
          Builder.set_executor b (Some (snd (fst res))), snd res)
     | None =>
         (None,
          Builder.Reset (Builder.set_executor b (Some (snd (fst res)))),
          snd res)
     end).
Proof.
  intros Herrs Hex Hne. unfold Builder.Flush.
  rewrite (Requests_ok b Herrs) in *. cbn [fst snd] in *.
  rewrite len_eqb_zero.
  destruct (synthesized b ++ Builder.requests b) as [|r rs] eqn:HF;
    [contradiction|].
  rewrite Hex. cbv zeta.
  destruct (BatchUpdateExecutor.Queue service e (r :: rs) EmptyString w)
    as [e1 w1].
  cbn [fst snd].
  destruct (BatchUpdateExecutor.Flush service e1 w1) as [[res e2] w2].
  cbn [fst snd]. destruct res; reflexivity.
Qed.

(** X3. [Flush] of an accumulator returns without touching the accumulator,
    the executor or the service in three cases: with recorded failures it
    returns their join; with nothing to send it returns nil, bound to an
    executor or not; with something to send and no executor it returns
    the configuration error. *)
Theorem Flush_returns_early_without_remote_call (b : Builder.t) (w : Log) :
  (Builder.errs b <> [] ->
   Builder.Flush service b w = (Some (JoinError (Builder.errs b)), b, w))
  /\ (Builder.errs b = [] ->
      fst (fst (Builder.Requests b)) = [] ->
      Builder.Flush service b w = (None, b, w))
  /\ (Builder.errs b = [] ->
      fst (fst (Builder.Requests b)) <> [] ->
      Builder.executor b = None ->
      Builder.Flush service b w
      = (Some (ErrorString "Flush: cannot flush builder without a client"),
         b, w)).
Proof.
  split; [|split].
  - intro Hne. unfold Builder.Flush. rewrite (Requests_failed b Hne).
    reflexivity.
  - intros Herrs Hnil. unfold Builder.Flush.
    rewrite (Requests_ok b Herrs) in *. cbn [fst snd] in *.
    rewrite Hnil. reflexivity.
  - intros Herrs Hne Hex. unfold Builder.Flush.
    rewrite (Requests_ok b Herrs) in *. cbn [fst snd] in *.
    rewrite len_eqb_zero.
    destruct (synthesized b ++ Builder.requests b); [contradiction|].
    rewrite Hex. reflexivity.
Qed.

(** [Flush] when the executor has no sticky error and its buffer, with the
    finalized sequence added, stays within the limit. *)
Lemma Builder_Flush_within_limit
    (b : Builder.t) (e : BatchUpdateExecutor.t) (w : Log) :
  Builder.errs b = [] ->
  Builder.executor b = Some e ->
  fst (fst (Builder.Requests b)) <> [] ->
  BatchUpdateExecutor.err e = None ->
  ~ overLimit e (fst (fst (Builder.Requests b))) ->
  let F := fst (fst (Builder.Requests b)) in
  let e1 :=
    BatchUpdateExecutor.appendUnit e
      (len (BatchUpdateExecutor.requests e)) F EmptyString in
  exists w',
    batchUpdates w'
    = batchUpdates w
      ++ [EvBatchUpdate (BatchUpdateExecutor.spreadID e)
            (BatchUpdateExecutor.requests e ++ F)]
    /\ Builder.Flush service b w
       = match remoteAnswer service e1 w with
         | None =>
             (None,
              blank (Some (BatchUpdateExecutor.set_requests_units e1 [] [])),
              w')
         | Some terr =>
             (Some (WrapError "Flush: failed to flush builder: "
                      (BatchUpdateError terr (BatchUpdateExecutor.units e1))),
              Builder.set_executor b (Some e1), w')
         end.
Proof.
  intros Herrs Hex Hne He Hwithin. cbv zeta.
  rewrite (Builder_Flush_bound b e w Herrs Hex Hne). cbv zeta.
  rewrite (Queue_within service e _ EmptyString w He Hwithin).
  cbn [fst snd].
  set (F := fst (fst (Builder.Requests b))) in *.
  set (e1 := BatchUpdateExecutor.appendUnit e
               (len (BatchUpdateExecutor.requests e)) F EmptyString).
  assert (BatchUpdateExecutor.requests e1 <> []) as Hne1.
  { unfold e1. rewrite appendUnit_requests. intro H.
    apply app_eq_nil in H. destruct H as [_ H]. contradiction. }
  destruct (Flush_nonempty service e1 w Hne1) as [w' [Hw' HF]].
  exists w'. split.
  - rewrite Hw'. reflexivity.
  - rewrite HF. cbn [fst snd].
    destruct (remoteAnswer service e1 w); reflexivity.
Qed.

(** X4. [Flush] of an accumulator with no recorded failure and something to
    send, bound to an executor without sticky error whose buffer stays
    within the limit when the finalized sequence is added: exactly one
    remote call is made; it carries what the executor already held,
    followed by the finalized sequence. If the service accepts, [Flush]
    returns nil and the accumulator is blank, bound to the executor with
    an empty buffer; if the service rejects, [Flush] returns the wrapped
    [BatchUpdateError] and the accumulator keeps its operations, its
    properties and its (empty) failure list, while the executor keeps the
    buffer that was sent. *)
Theorem Flush_sends_buffer_then_finalized_in_one_call
    (b : Builder.t) (e : BatchUpdateExecutor.t) (w : Log) :
  Builder.errs b = [] ->
  Builder.executor b = Some e ->
  fst (fst (Builder.Requests b)) <> [] ->
  BatchUpdateExecutor.err e = None ->
  ~ overLimit e (fst (fst (Builder.Requests b))) ->
  let F := fst (fst (Builder.Requests b)) in
  let e1 :=
    BatchUpdateExecutor.appendUnit e
      (len (BatchUpdateExecutor.requests e)) F EmptyString in
  exists w',
    batchUpdates w'
    = batchUpdates w
      ++ [EvBatchUpdate (BatchUpdateExecutor.spreadID e)
            (BatchUpdateExecutor.requests e ++ F)]
    /\ (remoteAnswer service e1 w = None ->
        Builder.Flush service b w
        = (None,
           blank (Some (BatchUpdateExecutor.set_requests_units e1 [] [])),
           w'))
    /\ (forall terr,
          remoteAnswer service e1 w = Some terr ->
          Builder.Flush service b w
          = (Some (WrapError "Flush: failed to flush builder: "
                     (BatchUpdateError terr (BatchUpdateExecutor.units e1))),
             Builder.set_executor b (Some e1), w')
          /\ BatchUpdateExecutor.requests e1
             = BatchUpdateExecutor.requests e ++ F).
Proof.
  intros Herrs Hex Hne He Hwithin. cbv zeta.
  destruct (Builder_Flush_within_limit b e w Herrs Hex Hne He Hwithin)
    as [w' [Hw' HF]].
  cbv zeta in HF. exists w'. split; [exact Hw'|]. split.
  - intro Hans. rewrite Hans in HF. exact HF.
  - intros terr Hans. rewrite Hans in HF. split; [exact HF|].
    apply appendUnit_requests.
Qed.

End BuilderFlush.

Section BuilderFlushAgain.

Variable service : Service.

Lemma Requests_set_executor (b : Builder.t) (x : option BatchUpdateExecutor.t) :
  fst (Builder.Requests (Builder.set_executor b x))
  = fst (Builder.Requests b).
Proof.
  unfold Builder.Requests. cbn.
  destruct (0 <? len (Builder.errs b)); reflexivity.
Qed.

(** X5. A rejected [Flush] leaves the finalized sequence both in the
    accumulator and in the buffer of the executor, so a second [Flush]
    queues it again: when the executor was idle, twice the sequence fits
    the limit, the service rejects the first call and accepts the second,
    the second remote call carries the finalized sequence twice. *)
Theorem retrying_a_rejected_Flush_sends_the_operations_twice
    (b : Builder.t) (e : BatchUpdateExecutor.t) (w : Log) (terr : error) :
  Builder.errs b = [] ->
  Builder.executor b = Some e ->
  fst (fst (Builder.Requests b)) <> [] ->
  BatchUpdateExecutor.err e = None ->
  BatchUpdateExecutor.requests e = [] ->
  let F := fst (fst (Builder.Requests b)) in
  len F + len F <= BatchUpdateExecutor.limit e ->
  let e1 := BatchUpdateExecutor.appendUnit e 0 F EmptyString in
  let e2 := BatchUpdateExecutor.appendUnit e1 (len F) F EmptyString in
  let first := Builder.Flush service b w in
  let second := Builder.Flush service (snd (fst first)) (snd first) in
  remoteAnswer service e1 w = Some terr ->
  remoteAnswer service e2 (snd first) = None ->
  fst (fst first)
  = Some (WrapError "Flush: failed to flush builder: "
            (BatchUpdateError terr (BatchUpdateExecutor.units e1)))
  /\ fst (fst second) = None
  /\ batchUpdates (snd second)
     = batchUpdates w
       ++ [EvBatchUpdate (BatchUpdateExecutor.spreadID e) F;
           EvBatchUpdate (BatchUpdateExecutor.spreadID e) (F ++ F)]
  /\ snd (fst second)
     = blank (Some (BatchUpdateExecutor.set_requests_units e2 [] [])).
Proof.
  intros Herrs Hex Hne He Hreq F Hfit e1 e2 first second Hans1 Hans2.
  assert (~ overLimit e F) as Hwithin by (intros [H _]; contradiction).
  destruct (Builder_Flush_within_limit service b e w Herrs Hex Hne He Hwithin)
    as [w1 [Hw1 HF1]].
  cbv zeta in HF1. rewrite Hreq in HF1, Hw1. change (len []) with 0 in HF1.
  fold F in HF1, Hw1. fold e1 in HF1. rewrite Hans1 in HF1.
  cbn [app] in Hw1.
  assert (first
          = (Some (WrapError "Flush: failed to flush builder: "
                     (BatchUpdateError terr (BatchUpdateExecutor.units e1))),
             Builder.set_executor b (Some e1), w1)) as Hfirst by exact HF1.
  assert (BatchUpdateExecutor.requests e1 = F) as Hreq1.
  { unfold e1. rewrite appendUnit_requests, Hreq. reflexivity. }
  set (b1 := Builder.set_executor b (Some e1)).
  assert (fst (fst (Builder.Requests b1)) = F) as HF'
    by (unfold b1; rewrite Requests_set_executor; reflexivity).
  assert (~ overLimit e1 (fst (fst (Builder.Requests b1)))) as Hwithin1.
  { rewrite HF'. intros [_ H]. rewrite Hreq1 in H.
    change (BatchUpdateExecutor.limit e1) with (BatchUpdateExecutor.limit e) in H.
    lia. }
  assert (fst (fst (Builder.Requests b1)) <> []) as Hne1
    by (rewrite HF'; exact Hne).
  destruct (Builder_Flush_within_limit service b1 e1 w1 Herrs eq_refl Hne1
              He Hwithin1) as [w2 [Hw2 HF2]].
  cbv zeta in HF2. rewrite HF', Hreq1 in HF2, Hw2. fold e2 in HF2.
  assert (snd first = w1) as Hs1 by (rewrite Hfirst; reflexivity).
  rewrite Hs1 in Hans2. rewrite Hans2 in HF2.
  assert (second
          = (None,
             blank (Some (BatchUpdateExecutor.set_requests_units e2 [] [])),
             w2)) as Hsecond.
  { unfold second. rewrite Hfirst. cbn [fst snd]. exact HF2. }
  rewrite Hfirst, Hsecond. cbn [fst snd].
  split; [reflexivity|]. split; [reflexivity|]. split; [|reflexivity].
  rewrite Hw2, Hw1, <- app_assoc. reflexivity.
Qed.

(** X6. When the sticky error of the executor is set, [Flush] of an
    accumulator with something to send never sends it: [Queue] ignores the
    finalized sequence, and the flush of the executor that follows only
    retries what the buffer retained. With an empty buffer [Flush] returns
    nil without a remote call and resets the accumulator; with a retained
    buffer that the service accepts it returns nil after one remote call
    that carries the retained buffer alone, and resets the accumulator as
    well. *)
Theorem Flush_on_a_stuck_executor_drops_the_operations
    (b : Builder.t) (e : BatchUpdateExecutor.t) (w : Log) :
  Builder.errs b = [] ->
  Builder.executor b = Some e ->
  fst (fst (Builder.Requests b)) <> [] ->
  BatchUpdateExecutor.err e <> None ->
  (BatchUpdateExecutor.requests e = [] ->
   Builder.Flush service b w = (None, Builder.Reset b, w))
  /\ (BatchUpdateExecutor.requests e <> [] ->
      remoteAnswer service e w = None ->
      exists w',
        Builder.Flush service b w
        = (None,
           blank (Some (BatchUpdateExecutor.set_requests_units e [] [])),
           w')
        /\ batchUpdates w'
           = batchUpdates w
             ++ [EvBatchUpdate (BatchUpdateExecutor.spreadID e)
                   (BatchUpdateExecutor.requests e)]).
Proof.
  intros Herrs Hex Hne He.
  pose proof (Builder_Flush_bound service b e w Herrs Hex Hne) as HF.
  cbv zeta in HF. rewrite (Queue_sticky service e _ EmptyString w He) in HF.
  cbn [fst snd] in HF. split.
  - intro Hnil. rewrite (Flush_empty service e w Hnil) in HF.
    cbn [fst snd] in HF. rewrite HF. unfold Builder.Reset. cbn. rewrite Hex.
    reflexivity.
  - intros Hbuf Hans.
    destruct (Flush_nonempty service e w Hbuf) as [w' [Hw' HFe]].
    rewrite Hans in HFe. rewrite HFe in HF. cbn [fst snd] in HF.
    exists w'. split; [exact HF | exact Hw'].
Qed.

End BuilderFlushAgain.

(** [reportBuilder], whose executor is idle: the first call is rejected
    and the second accepted, and the second call carries the three
    finalized operations twice. *)
Lemma retrying_a_rejected_Flush_sends_the_operations_twice_witness :
  let F := fst (fst (Builder.Requests reportBuilder)) in
  let first := Builder.Flush rejectingFirst reportBuilder [] in
  let second := Builder.Flush rejectingFirst (snd (fst first)) (snd first) in
  len F + len F <= 100
  /\ fst (fst second) = None
  /\ batchUpdates (snd second)
     = [EvBatchUpdate "doc" F; EvBatchUpdate "doc" (F ++ F)].
Proof.
  cbv zeta.
  assert (len (fst (fst (Builder.Requests reportBuilder)))
          + len (fst (fst (Builder.Requests reportBuilder))) <= 100) as Hfit
    by (vm_compute; discriminate).
  pose proof
    (retrying_a_rejected_Flush_sends_the_operations_twice rejectingFirst
       reportBuilder (BatchUpdateExecutor.NewBatchUpdateExecutor "doc" 100)
       [] (TransportError "timeout")
       eq_refl eq_refl ltac:(discriminate) eq_refl eq_refl Hfit
       eq_refl eq_refl) as (_ & H2 & H3 & _).
  split; [exact Hfit|]. split; [exact H2 | exact H3].
Defined.

(** [reportBuilder] bound to the executor [stuckEmptied], whose sticky
    error is set and whose buffer is empty: [Flush] reports success, makes
    no remote call and leaves the accumulator blank. *)
Lemma Flush_on_a_stuck_executor_drops_the_operations_witness :
  let b := Builder.set_executor reportBuilder (Some stuckEmptied) in
  BatchUpdateExecutor.err stuckEmptied <> None
  /\ fst (fst (Builder.Requests b)) <> []
  /\ Builder.Flush accepting b [] = (None, blank (Some stuckEmptied), []).
Proof.
  cbv zeta.
  assert (BatchUpdateExecutor.err stuckEmptied <> None) as He by discriminate.
  assert (fst (fst (Builder.Requests
                      (Builder.set_executor reportBuilder (Some stuckEmptied))))
          <> []) as Hne by discriminate.
  destruct
    (Flush_on_a_stuck_executor_drops_the_operations accepting
       (Builder.set_executor reportBuilder (Some stuckEmptied))
       stuckEmptied [] eq_refl eq_refl Hne He) as [H _].
  split; [exact He|]. split; [exact Hne|].
  rewrite (H eq_refl). reflexivity.
Defined.

(** [invalidRow] holds a failure, [reportBuilder] without its executor has
    something to send, and [blank None] has nothing. *)
Lemma Flush_returns_early_without_remote_call_witness :
  Builder.errs invalidRow <> []
  /\ Builder.Flush rejecting invalidRow []
     = (Some (JoinError [ErrorString "SetCellValue: invalid row: -1"]),
        invalidRow, [])
  /\ Builder.Flush rejecting (blank None) [] = (None, blank None, [])
  /\ Builder.Flush rejecting (Builder.set_executor reportBuilder None) []
     = (Some (ErrorString "Flush: cannot flush builder without a client"),
        Builder.set_executor reportBuilder None, []).
Proof.
  assert (Builder.errs invalidRow <> []) as Hne by discriminate.
  split; [exact Hne|]. split; [|split].
  - destruct (Flush_returns_early_without_remote_call rejecting invalidRow [])
      as [H _].
    exact (H Hne).
  - destruct (Flush_returns_early_without_remote_call rejecting (blank None) [])
      as [_ [H _]].
    exact (H eq_refl eq_refl).
  - destruct (Flush_returns_early_without_remote_call rejecting
                (Builder.set_executor reportBuilder None) [])
      as [_ [_ H]].
    apply H; [reflexivity | discriminate | reflexivity].
Defined.

(** [reportBuilder] with a rejecting service: one call with the three
    finalized operations, and the accumulator keeps them. *)
Lemma Flush_sends_buffer_then_finalized_in_one_call_witness :
  let F := fst (fst (Builder.Requests reportBuilder)) in
  exists w',
    batchUpdates w' = [EvBatchUpdate "doc" F]
    /\ Builder.requests (snd (fst (Builder.Flush rejecting reportBuilder [])))
       = Builder.requests reportBuilder
    /\ snd (Builder.Flush rejecting reportBuilder []) = w'.
Proof.
  cbv zeta.
  assert (~ overLimit (BatchUpdateExecutor.NewBatchUpdateExecutor "doc" 100)
            (fst (fst (Builder.Requests reportBuilder)))) as Hwithin
    by (intros [H _]; apply H; reflexivity).
  destruct
    (Flush_sends_buffer_then_finalized_in_one_call rejecting reportBuilder
       (BatchUpdateExecutor.NewBatchUpdateExecutor "doc" 100) []
       eq_refl eq_refl ltac:(discriminate) eq_refl Hwithin)
    as [w' [Hw' [_ Hrej]]].
  destruct (Hrej _ eq_refl) as [HF _].
  exists w'. split; [exact Hw'|]. rewrite HF. split; reflexivity.
Defined.

(** * Further properties of the accumulator *)

Lemma wrap64_small (z : Z) : - 2 ^ 63 <= z < 2 ^ 63 -> wrap64 z = z.
Proof.
  intro H. unfold wrap64.
  rewrite Z.mod_small by lia. lia.
Qed.

Lemma copySheetLoop_requests (srcSheetID toIndex : Z) (newNames : list string) :
  forall (k : nat) (b : Builder.t),
    -1 <= toIndex ->
    toIndex + Z.of_nat k + len newNames < 2 ^ 63 ->
    Builder.requests
      (Builder.copySheetLoop srcSheetID toIndex (toIndex + Z.of_nat k)
         newNames b)
    = Builder.requests b ++ duplicateRequests srcSheetID toIndex k newNames.
Proof.
  induction newNames as [|name rest IH]; intros k b Hlo Hhi.
  - cbn. rewrite app_nil_r. reflexivity.
  - unfold duplicateRequests. cbn [Builder.copySheetLoop List.length seq combine map fst snd].
    unfold len in Hhi. cbn [List.length] in Hhi.
    destruct (0 <=? toIndex) eqn:E.
    + pose proof E as E'. apply Z.leb_le in E'.
      unfold add64. rewrite wrap64_small by lia.
      replace (toIndex + Z.of_nat k + 1) with (toIndex + Z.of_nat (S k)) by lia.
      rewrite IH by (unfold len; lia).
      cbn [Builder.AppendRequest Builder.requests Builder.set_requests].
      unfold duplicateRequests. rewrite E, <- app_assoc. reflexivity.
    + assert (toIndex = -1) as -> by (apply Z.leb_gt in E; lia).
      pose proof (IH (S k) (Builder.AppendRequest
                              (Some (sheets.DuplicateSheet
                                       (sheets.mkDuplicateSheetRequest
                                          srcSheetID 0 0 name))) b)
                    Hlo) as IH'.
      assert (forall j rest0 b0,
                 Builder.requests
                   (Builder.copySheetLoop srcSheetID (-1) j rest0 b0)
                 = Builder.requests
                     (Builder.copySheetLoop srcSheetID (-1) 0 rest0 b0))
        as Hany.
      { intros j rest0. revert j. induction rest0 as [|n0 r0 IH0]; intros j b0;
          [reflexivity|].
        cbn [Builder.copySheetLoop]. change (0 <=? -1) with false. cbv iota.
        rewrite (IH0 j). reflexivity. }
      rewrite Hany. rewrite Hany in IH'.
      rewrite IH' by (unfold len; lia).
      cbn [Builder.AppendRequest Builder.requests Builder.set_requests].
      unfold duplicateRequests. change (0 <=? -1) with false.
      rewrite <- app_assoc. reflexivity.
Qed.

(** X7. [CopySheet] with a source identifier that is not negative, a target
    index of at least -1 and at least one name records no failure and
    appends one duplicate-sheet operation per name, in the order of the
    names: with the index -1 none of them carries an index, and with an
    index [toIndex >= 0] the k-th copy (from 0) goes to [toIndex + k]. *)
Theorem CopySheet_places_copies_at_consecutive_indices
    (srcSheetID toIndex : Z) (newNames : list string) (b : Builder.t) :
  0 <= srcSheetID -> -1 <= toIndex -> newNames <> [] ->
  toIndex + len newNames < 2 ^ 63 ->
  Builder.errs (Builder.CopySheet srcSheetID toIndex newNames b)
  = Builder.errs b
  /\ Builder.requests (Builder.CopySheet srcSheetID toIndex newNames b)
     = Builder.requests b ++ duplicateRequests srcSheetID toIndex 0 newNames.
Proof.
  intros Hsrc Hidx Hne Hhi. unfold Builder.CopySheet.
  assert ((srcSheetID <? 0) = false) as -> by (apply Z.ltb_ge; lia).
  assert ((toIndex <? -1) = false) as -> by (apply Z.ltb_ge; lia).
  rewrite len_eqb_zero. destruct newNames as [|n ns]; [contradiction|].
  split; [apply copySheetLoop_errs|].
  pose proof (copySheetLoop_requests srcSheetID toIndex (n :: ns) 0 b Hidx)
    as H.
  cbn [Z.of_nat] in H. rewrite Z.add_0_r in H. apply H. lia.
Qed.

Lemma CopySheet_places_copies_at_consecutive_indices_witness :
  (0 <= 7 /\ -1 <= 2 /\ 2 + len ["Jan"%string; "Feb"%string] < 2 ^ 63)
  /\ Builder.requests
       (Builder.CopySheet 7 2 ["Jan"%string; "Feb"%string] Builder.NewBuilder)
     = [sheets.DuplicateSheet (sheets.mkDuplicateSheetRequest 7 2 0 "Jan");
        sheets.DuplicateSheet (sheets.mkDuplicateSheetRequest 7 3 0 "Feb")].
Proof.
  assert (0 <= 7) as H1 by lia.
  assert (-1 <= 2) as H2 by lia.
  assert (2 + len ["Jan"%string; "Feb"%string] < 2 ^ 63) as H3
    by (vm_compute; reflexivity).
  split; [split; [exact H1 | split; [exact H2 | exact H3]]|].
  destruct (CopySheet_places_copies_at_consecutive_indices 7 2
              ["Jan"%string; "Feb"%string] Builder.NewBuilder H1 H2
              ltac:(discriminate) H3) as [_ H].
  exact H.
Defined.

Lemma deleteSheetLoop_requests (sheetIDs : list Z) :
  forall b : Builder.t,
    Builder.requests (Builder.deleteSheetLoop sheetIDs b)
    = Builder.requests b ++ map sheets.DeleteSheet sheetIDs.
Proof.
  induction sheetIDs as [|id rest IH]; intro b.
  - cbn. rewrite app_nil_r. reflexivity.
  - cbn [Builder.deleteSheetLoop map]. rewrite IH. cbn.
    rewrite <- app_assoc. reflexivity.
Qed.

(** X8. [DeleteSheet] never records a failure, whatever the identifiers
    (negative ones included): it appends one delete operation per
    identifier, in order, and with no identifier at all it leaves the
    accumulator as it is. *)
Theorem DeleteSheet_appends_one_operation_per_identifier
    (sheetIDs : list Z) (b : Builder.t) :
  Builder.errs (Builder.DeleteSheet sheetIDs b) = Builder.errs b
  /\ Builder.requests (Builder.DeleteSheet sheetIDs b)
     = Builder.requests b ++ map sheets.DeleteSheet sheetIDs
  /\ Builder.DeleteSheet [] b = b.
Proof.
  unfold Builder.DeleteSheet. rewrite len_eqb_zero.
  destruct sheetIDs as [|id rest].
  - cbn. rewrite app_nil_r. repeat split.
  - split; [apply deleteSheetLoop_errs|].
    split; [apply deleteSheetLoop_requests | reflexivity].
Qed.

Lemma isRectInvalid_false_iff
    (rect : option Rect) (label name : string) (b : Builder.t) :
  fst (SheetBuilder.isRectInvalid rect label name b) = false
  <-> exists r, rect = Some r /\ acceptableRect r.
Proof.
  unfold SheetBuilder.isRectInvalid, acceptableRect, SheetBuilder.toEnd.
  destruct rect as [r|];
    [|cbn; split; [discriminate | intros [r [H _]]; discriminate]].
  destruct (Z.ltb_spec (Rect_Row r) 0) as [H1|H1].
  { cbn. split; [discriminate|]. intros [r0 [Hr Ha]]. injection Hr as <-. lia. }
  destruct (Z.ltb_spec (Rect_Col r) 0) as [H2|H2].
  { cbn. split; [discriminate|]. intros [r0 [Hr Ha]]. injection Hr as <-. lia. }
  destruct (Z.ltb_spec (Rect_Height r) 0) as [H3|H3],
    (Z.eqb_spec (Rect_Height r) (-1)) as [H4|H4]; cbn [andb negb];
    try (cbn; split; [discriminate|]; intros [r0 [Hr Ha]];
         injection Hr as <-; lia);
    (destruct (Z.ltb_spec (Rect_Width r) 0) as [H5|H5],
       (Z.eqb_spec (Rect_Width r) (-1)) as [H6|H6]; cbn [andb negb fst];
     try (split; [discriminate|]; intros [r0 [Hr Ha]];
          injection Hr as <-; lia);
     (split; [intros _; exists r; split; [reflexivity | lia]
             | reflexivity])).
Qed.

Lemma isRectInvalid_effect
    (rect : option Rect) (label name : string) (b : Builder.t) :
  (fst (SheetBuilder.isRectInvalid rect label name b) = false ->
   snd (SheetBuilder.isRectInvalid rect label name b) = b)
  /\ (fst (SheetBuilder.isRectInvalid rect label name b) = true ->
      exists e,
        snd (SheetBuilder.isRectInvalid rect label name b)
        = Builder.set_errs b (Builder.errs b ++ [e])).
Proof.
  unfold SheetBuilder.isRectInvalid.
  destruct rect as [r|];
    [|cbn; split; [discriminate | intros _; eexists; reflexivity]].
  destruct (Rect_Row r <? 0);
    [cbn; split; [discriminate | intros _; eexists; reflexivity]|].
  destruct (Rect_Col r <? 0);
    [cbn; split; [discriminate | intros _; eexists; reflexivity]|].
  destruct ((Rect_Height r <? 0) && negb (Rect_Height r =? SheetBuilder.toEnd));
    [cbn; split; [discriminate | intros _; eexists; reflexivity]|].
  destruct ((Rect_Width r <? 0) && negb (Rect_Width r =? SheetBuilder.toEnd));
    [cbn; split; [discriminate | intros _; eexists; reflexivity]|].
  cbn. split; [reflexivity | discriminate].
Qed.

Lemma checkRectInvalid_agrees (r : Rect) (label name : string) (b : Builder.t) :
  SheetClient.checkRectInvalid
    (Rect_Row r) (Rect_Col r) (Rect_Height r) (Rect_Width r) label = None
  <-> fst (SheetBuilder.isRectInvalid (Some r) label name b) = false.
Proof.
  unfold SheetBuilder.isRectInvalid, SheetClient.checkRectInvalid.
  destruct (Rect_Row r <? 0); [cbn; split; discriminate|].
  destruct (Rect_Col r <? 0); [cbn; split; discriminate|].
  destruct ((Rect_Height r <? 0) && negb (Rect_Height r =? SheetBuilder.toEnd));
    [cbn; split; discriminate|].
  destruct ((Rect_Width r <? 0) && negb (Rect_Width r =? SheetBuilder.toEnd));
    [cbn; split; discriminate|].
  cbn. split; reflexivity.
Qed.

(** X9. [isRectInvalid] answers false exactly for a rectangle that is not
    nil, with row and column that are not negative and with height and
    width of at least -1 (the value [toEnd]); then it leaves the
    accumulator as it is. Otherwise it records exactly one failure and
    changes nothing else. [checkRectInvalid] of the sheet client accepts
    the same rectangles. *)
Theorem isRectInvalid_accepts_exactly_the_acceptable
    (rect : option Rect) (label name : string) (b : Builder.t) :
  (fst (SheetBuilder.isRectInvalid rect label name b) = false
   <-> exists r, rect = Some r /\ acceptableRect r)
  /\ (fst (SheetBuilder.isRectInvalid rect label name b) = false ->
      snd (SheetBuilder.isRectInvalid rect label name b) = b)
  /\ (fst (SheetBuilder.isRectInvalid rect label name b) = true ->
      exists e,
        snd (SheetBuilder.isRectInvalid rect label name b)
        = Builder.set_errs b (Builder.errs b ++ [e]))
  /\ (forall r,
        rect = Some r ->
        (SheetClient.checkRectInvalid
           (Rect_Row r) (Rect_Col r) (Rect_Height r) (Rect_Width r) label
         = None
         <-> fst (SheetBuilder.isRectInvalid rect label name b) = false)).
Proof.
  split; [apply isRectInvalid_false_iff|].
  split; [apply isRectInvalid_effect|].
  split; [apply isRectInvalid_effect|].
  intros r ->. apply checkRectInvalid_agrees.
Qed.

(** The rectangle that runs from row 3 to the end of the sheet is accepted;
    one with the height -2 is not. *)
Lemma isRectInvalid_accepts_exactly_the_acceptable_witness :
  acceptableRect (mkRect 3 0 (-1) 2)
  /\ SheetBuilder.isRectInvalid (Some (mkRect 3 0 (-1) 2)) "Merge" "rect"
       Builder.NewBuilder
     = (false, Builder.NewBuilder)
  /\ SheetClient.checkRectInvalid 3 0 (-1) 2 "GetRangeValues" = None
  /\ fst (SheetBuilder.isRectInvalid (Some (mkRect 3 0 (-2) 2)) "Merge" "rect"
            Builder.NewBuilder) = true.
Proof.
  assert (acceptableRect (mkRect 3 0 (-1) 2)) as Ha
    by (unfold acceptableRect; cbn; lia).
  destruct (isRectInvalid_accepts_exactly_the_acceptable
              (Some (mkRect 3 0 (-1) 2)) "Merge" "rect" Builder.NewBuilder)
    as [[_ Hacc] [Hsame [_ _]]].
  assert (fst (SheetBuilder.isRectInvalid (Some (mkRect 3 0 (-1) 2))
                 "Merge" "rect" Builder.NewBuilder) = false) as Hf
    by (apply Hacc; exists (mkRect 3 0 (-1) 2); split; [reflexivity | exact Ha]).
  split; [exact Ha|]. split.
  - rewrite (surjective_pairing (SheetBuilder.isRectInvalid _ _ _ _)).
    rewrite Hf, (Hsame Hf). reflexivity.
  - split; reflexivity.
Defined.

Lemma unlessRectInvalid_acceptable
    (r : Rect) (label name : string)
    (rest : Rect -> Builder.t -> Builder.t) (b : Builder.t) :
  acceptableRect r ->
  SheetBuilder.unlessRectInvalid (Some r) label name rest b = rest r b.
Proof.
  intro Ha. unfold SheetBuilder.unlessRectInvalid.
  assert (fst (SheetBuilder.isRectInvalid (Some r) label name b) = false) as Hf
    by (apply isRectInvalid_false_iff; exists r; split; [reflexivity|exact Ha]).
  destruct (isRectInvalid_effect (Some r) label name b) as [Hs _].
  specialize (Hs Hf).
  destruct (SheetBuilder.isRectInvalid (Some r) label name b) as [inv b'].
  cbn [fst snd] in Hf, Hs. subst inv b'. reflexivity.
Qed.





(** X11. No chain of fluent calls removes, reorders or changes what is
    already in the accumulator: the staged operations stay together and in
    order (new ones go in front or behind), and the recorded failures stay
    at the head of the failure list. *)
Theorem fluent_calls_only_add
    (cs : list Call) (b : Builder.t) :
  (exists pre post,
     Builder.requests (chain cs b) = pre ++ Builder.requests b ++ post)
  /\ (exists later, Builder.errs (chain cs b) = Builder.errs b ++ later).
Proof.
  destruct (chain_summary cs b) as (_ & _ & _ & He & (pre & post & Hr & _)).
  split; [exists pre, post; exact Hr | exact He].
Qed.

(** [CopySheet] with a negative source identifier: one failure, nothing
    else. *)
Lemma call_rejectsOrAccepts_witness :
  let c := OnBuilder (CopySheet (-1) 0 ["Jan"%string]) in
  (forall sb srcSheetID src dstR dstC pasteType,
      c <> OnSheet sb (InsertAndCopyRange srcSheetID src dstR dstC pasteType))
  /\ rejectsOrAccepts reportBuilder (call c reportBuilder).
Proof.
  cbv zeta.
  assert (forall sb srcSheetID src dstR dstC pasteType,
             OnBuilder (CopySheet (-1) 0 ["Jan"%string])
             <> OnSheet sb
                  (InsertAndCopyRange srcSheetID src dstR dstC pasteType))
    as H by (intros; discriminate).
  split; [exact H|].
  exact (call_rejectsOrAccepts _ reportBuilder H).
Defined.

(** * A1 notation *)

Lemma letterDigit_letter (d : Z) :
  0 <= d < 26 -> letterDigit (A1.letter d) = d + 1.
Proof.
  intro H. unfold letterDigit, A1.letter.
  rewrite nat_ascii_embedding by lia. lia.
Qed.

Lemma lettersValue_from (l : list ascii) :
  forall a : Z,
    fold_left (fun acc c => acc * 26 + letterDigit c) l a
    = a * 26 ^ Z.of_nat (List.length l) + lettersValue l.
Proof.
  unfold lettersValue. induction l as [|x l IH]; intro a.
  - cbn. lia.
  - cbn [fold_left List.length]. rewrite (IH (a * 26 + letterDigit x)).
    rewrite (IH (0 * 26 + letterDigit x)).
    rewrite Nat2Z.inj_succ, Z.pow_succ_r by lia. lia.
Qed.

Lemma lettersValue_cons (c : ascii) (l : list ascii) :
  lettersValue (c :: l)
  = letterDigit c * 26 ^ Z.of_nat (List.length l) + lettersValue l.
Proof.
  unfold lettersValue at 1. cbn [fold_left].
  rewrite lettersValue_from. lia.
Qed.

(** The loop keeps the column that the remaining number and the letters
    written so far stand for, and writes capital letters only. *)
Lemma colLoop_value (i : nat) :
  forall (col : Z) (out res : list ascii),
    -1 <= col ->
    Forall isCapital out ->
    A1.colLoop i col out = Some res ->
    lettersValue res
    = (col + 1) * 26 ^ Z.of_nat (List.length out) + lettersValue out
    /\ Forall isCapital res
    /\ (List.length out <= List.length res <= List.length out + i)%nat
    /\ (0 <= col -> (List.length out < List.length res)%nat).
Proof.
  induction i as [|i IH]; intros col out res Hcol Hout Hres.
  - cbn [A1.colLoop] in Hres. destruct (col <? 0) eqn:E; [|discriminate].
    apply Z.ltb_lt in E. injection Hres as <-.
    assert (col = -1) as -> by lia.
    repeat split; try lia; try assumption.
  - cbn [A1.colLoop] in Hres. destruct (col <? 0) eqn:E.
    + apply Z.ltb_lt in E. injection Hres as <-.
      assert (col = -1) as -> by lia.
      repeat split; try lia; try assumption.
    + apply Z.ltb_ge in E.
      rewrite Z.quot_div_nonneg, Z.rem_mod_nonneg in Hres by lia.
      pose proof (Z.mod_pos_bound col 26 ltac:(lia)) as Hm.
      pose proof (Z.div_pos col 26 E ltac:(lia)) as Hd.
      assert (Forall isCapital (A1.letter (col mod 26) :: out)) as Hout'.
      { constructor; [|exact Hout]. unfold isCapital.
        rewrite letterDigit_letter by lia. lia. }
      destruct (IH (col / 26 - 1) _ res ltac:(lia) Hout' Hres)
        as (Hv & Hc & Hl & _).
      cbn [List.length] in Hv, Hl.
      rewrite lettersValue_cons, letterDigit_letter in Hv by lia.
      rewrite Nat2Z.inj_succ, Z.pow_succ_r in Hv by lia.
      repeat split; try assumption; try lia.
      rewrite Hv. pose proof (Z.div_mod col 26 ltac:(lia)) as Hdm. nia.
Qed.

Lemma columnsWithin_nonneg (i : nat) : 0 <= columnsWithin i.
Proof. induction i as [|i IH]; cbn [columnsWithin]; lia. Qed.

Lemma colLoop_negative (i : nat) (col : Z) (out : list ascii) :
  col < 0 -> A1.colLoop i col out = Some out.
Proof.
  intro H. destruct i; cbn [A1.colLoop];
    assert ((col <? 0) = true) as -> by (apply Z.ltb_lt; lia); reflexivity.
Qed.

(** The loop ends within [i] letters exactly for the columns below
    [columnsWithin i]. *)
Lemma colLoop_panics_iff (i : nat) :
  forall (col : Z) (out : list ascii),
    0 <= col ->
    (A1.colLoop i col out = None <-> columnsWithin i <= col).
Proof.
  induction i as [|i IH]; intros col out Hcol.
  - cbn [A1.colLoop columnsWithin].
    assert ((col <? 0) = false) as -> by (apply Z.ltb_ge; lia).
    split; [intros _; lia | reflexivity].
  - cbn [A1.colLoop columnsWithin].
    assert ((col <? 0) = false) as -> by (apply Z.ltb_ge; lia).
    rewrite Z.quot_div_nonneg, Z.rem_mod_nonneg by lia.
    pose proof (Z.div_pos col 26 Hcol ltac:(lia)) as Hd.
    pose proof (Z.div_mod col 26 ltac:(lia)) as Hdm.
    pose proof (Z.mod_pos_bound col 26 ltac:(lia)) as Hm.
    pose proof (columnsWithin_nonneg i) as Hcw.
    destruct (Z.eq_dec (col / 26) 0) as [Hz|Hnz].
    + rewrite colLoop_negative by lia.
      split; [discriminate | intro H; exfalso; lia].
    + rewrite (IH (col / 26 - 1) _ ltac:(lia)). lia.
Qed.

Lemma columnsWithin_8 : columnsWithin 8 = 217180147158.
Proof. reflexivity. Qed.

(** X12. For a column index from 0 up to 217180147157 (the last column
    with a name of eight letters), [ColIndexToLetters] returns between one
    and eight capital letters that name exactly that column, in the
    notation in base 26 with the digits A to Z standing for 1 to 26; so two
    different columns never get the same letters. *)
Theorem ColIndexToLetters_names_the_column (col : Z) :
  0 <= col < 217180147158 ->
  exists letters,
    A1.ColIndexToLetters col = Some letters
    /\ columnOfLetters letters = col
    /\ Forall isCapital letters
    /\ (1 <= List.length letters <= 8)%nat
    /\ (forall col',
          0 <= col' -> A1.ColIndexToLetters col' = Some letters ->
          col' = col).
Proof.
  intros [Hlo Hhi]. unfold A1.ColIndexToLetters.
  destruct (A1.colLoop 8 col []) as [letters|] eqn:Hloop.
  - destruct (colLoop_value 8 col [] letters ltac:(lia) (Forall_nil _) Hloop)
      as (Hv & Hc & Hl & Hpos).
    cbn [List.length] in Hv, Hl, Hpos. specialize (Hpos Hlo).
    exists letters. split; [reflexivity|].
    assert (columnOfLetters letters = col) as Hcol.
    { unfold columnOfLetters. rewrite Hv. cbn. lia. }
    split; [exact Hcol|]. split; [exact Hc|]. split; [lia|].
    intros col' Hlo' Hloop'.
    destruct (colLoop_value 8 col' [] letters ltac:(lia) (Forall_nil _) Hloop')
      as (Hv' & _).
    cbn in Hv'. unfold columnOfLetters in Hcol. lia.
  - exfalso. apply (colLoop_panics_iff 8 col [] Hlo) in Hloop.
    rewrite columnsWithin_8 in Hloop. lia.
Qed.

Lemma ColIndexToLetters_names_the_column_witness :
  0 <= 702 < 217180147158
  /\ A1.ColIndexToLetters 702 = Some ["A"; "A"; "A"]%char
  /\ columnOfLetters ["A"; "A"; "A"]%char = 702.
Proof.
  assert (0 <= 702 < 217180147158) as H by lia.
  destruct (ColIndexToLetters_names_the_column 702 H)
    as (letters & Hl & Hc & _).
  split; [exact H|].
  assert (letters = ["A"; "A"; "A"]%char) as ->.
  { assert (Some letters = Some ["A"; "A"; "A"]%char) as E
      by (rewrite <- Hl; reflexivity).
    injection E as ->. reflexivity. }
  split; [exact Hl | exact Hc].
Defined.

(** X13. Outside that range [ColIndexToLetters] does not name a column: for
    a negative index it returns no letters at all, and from 217180147158
    on (the first column whose name needs nine letters) it panics, because
    its buffer holds eight bytes. [IndexToA1] reports a negative row or
    column as [ErrNegativeIndex] with the empty string, and panics for
    such a large column. *)
Theorem ColIndexToLetters_outside_its_range (col : Z) :
  (col < 0 -> A1.ColIndexToLetters col = Some [])
  /\ (217180147158 <= col -> A1.ColIndexToLetters col = None)
  /\ (forall row,
        0 <= row < 2 ^ 63 -> 217180147158 <= col < 2 ^ 63 ->
        A1.IndexToA1 row col 0 0 = None)
  /\ (forall row rowOffset colOffset,
        add64 row rowOffset < 0 \/ add64 col colOffset < 0 ->
        A1.IndexToA1 row col rowOffset colOffset
        = Some (EmptyString, Some A1.ErrNegativeIndex)).
Proof.
  split; [|split; [|split]].
  - intro H. apply colLoop_negative. exact H.
  - intro H. apply colLoop_panics_iff; [lia|]. rewrite columnsWithin_8. exact H.
  - intros row Hrow Hcol. unfold A1.IndexToA1. cbv zeta.
    unfold add64. rewrite !Z.add_0_r, !wrap64_small by lia.
    assert ((row <? 0) = false) as -> by (apply Z.ltb_ge; lia).
    assert ((col <? 0) = false) as -> by (apply Z.ltb_ge; lia).
    cbn [orb].
    assert (A1.ColIndexToLetters col = None) as ->; [|reflexivity].
    apply colLoop_panics_iff; [lia|]. rewrite columnsWithin_8. lia.
  - intros row rowOffset colOffset H. unfold A1.IndexToA1. cbv zeta.
    assert ((add64 row rowOffset <? 0) || (add64 col colOffset <? 0) = true)
      as ->; [|reflexivity].
    apply orb_true_iff. rewrite !Z.ltb_lt. exact H.
Qed.

Lemma ColIndexToLetters_outside_its_range_witness :
  (217180147158 <= 217180147158 < 2 ^ 63)
  /\ A1.ColIndexToLetters 217180147157
     = Some ["Z"; "Z"; "Z"; "Z"; "Z"; "Z"; "Z"; "Z"]%char
  /\ A1.ColIndexToLetters 217180147158 = None
  /\ A1.IndexToA1 0 217180147158 0 0 = None
  /\ A1.IndexToA1 0 0 (-1) 0 = Some (EmptyString, Some A1.ErrNegativeIndex).
Proof.
  assert (217180147158 <= 217180147158 < 2 ^ 63) as H
    by (split; [lia | vm_compute; reflexivity]).
  destruct (ColIndexToLetters_outside_its_range 217180147158)
    as (_ & Hp & Hi & _).
  split; [exact H|]. split; [reflexivity|].
  split; [apply Hp; lia|]. split.
  - apply Hi; [split; [lia | vm_compute; reflexivity] | exact H].
  - destruct (ColIndexToLetters_outside_its_range 0) as (_ & _ & _ & He).
    apply He. left. vm_compute. reflexivity.
Defined.

(** X14. [IndexToA1Abs] with [AbsNone] is [IndexToA1]; it returns an error
    or panics exactly when [IndexToA1] does; and of its mode only the bits
    of [AbsCol] and [AbsRow] count. *)
Theorem IndexToA1Abs_extends_IndexToA1
    (row col rowOffset colOffset abs : Z) :
  A1.IndexToA1Abs row col rowOffset colOffset A1.AbsNone
  = A1.IndexToA1 row col rowOffset colOffset
  /\ (A1.IndexToA1Abs row col rowOffset colOffset abs = None
      <-> A1.IndexToA1 row col rowOffset colOffset = None)
  /\ (forall err,
        option_map snd (A1.IndexToA1Abs row col rowOffset colOffset abs)
        = Some (Some err)
        <-> option_map snd (A1.IndexToA1 row col rowOffset colOffset)
            = Some (Some err))
  /\ A1.IndexToA1Abs row col rowOffset colOffset abs
     = A1.IndexToA1Abs row col rowOffset colOffset (Z.land abs A1.AbsBoth).
Proof.
  unfold A1.IndexToA1Abs, A1.IndexToA1. cbv zeta.
  assert (Z.land (Z.land abs A1.AbsBoth) A1.AbsCol = Z.land abs A1.AbsCol)
    as Hc by (rewrite <- Z.land_assoc; reflexivity).
  assert (Z.land (Z.land abs A1.AbsBoth) A1.AbsRow = Z.land abs A1.AbsRow)
    as Hr by (rewrite <- Z.land_assoc; reflexivity).
  rewrite Hc, Hr.
  destruct ((add64 row rowOffset <? 0) || (add64 col colOffset <? 0)).
  - repeat split; try discriminate; intro H; exact H.
  - destruct (A1.ColIndexToLetters (add64 col colOffset)) as [letters|].
    + cbn. repeat split; try discriminate; intro H; exact H.
    + repeat split; try discriminate; intro H; exact H.
Qed.

(** The cell in the first row of the column AB, without and with the
    absolute markers; and a negative row, which both functions refuse. *)
Lemma IndexToA1Abs_extends_IndexToA1_witness :
  A1.IndexToA1Abs 0 27 0 0 A1.AbsNone = Some ("AB1"%string, None)
  /\ A1.IndexToA1Abs 0 27 0 0 (Z.lor 8 A1.AbsBoth) = Some ("$AB$1"%string, None)
  /\ option_map snd (A1.IndexToA1Abs (-1) 27 0 0 A1.AbsBoth)
     = option_map snd (A1.IndexToA1 (-1) 27 0 0).
Proof.
  destruct (IndexToA1Abs_extends_IndexToA1 0 27 0 0 (Z.lor 8 A1.AbsBoth))
    as (H0 & _ & _ & Hbits).
  destruct (IndexToA1Abs_extends_IndexToA1 (-1) 27 0 0 A1.AbsBoth)
    as (_ & _ & Herr & _).
  split; [rewrite H0; reflexivity|].
  split; [rewrite Hbits; reflexivity|].
  destruct (A1.IndexToA1 (-1) 27 0 0) as [[a [e|]]|] eqn:E;
    try discriminate E.
  cbn [option_map snd]. rewrite (proj2 (Herr e) eq_refl). reflexivity.
Defined.

(** * The growable row *)
Section RowProperties.

Context {T : Type}.
Variable zero : T.
Variable growslice : nat -> nat.

Lemma pow2_bounds : 0 < 2 ^ 62 /\ 2 ^ 63 = 2 * 2 ^ 62.
Proof. split; reflexivity. Qed.

Lemma nth_firstn_lt (j n : nat) (l : list T) (d : T) :
  (j < n)%nat -> nth j (firstn n l) d = nth j l d.
Proof.
  revert j l. induction n as [|n IH]; intros j l H; [lia|].
  destruct l as [|x l]; [destruct j; reflexivity|].
  destruct j as [|j]; [reflexivity|]. cbn. apply IH. lia.
Qed.

Lemma setAt_length (i : nat) (v : T) (l : list T) :
  (i < List.length l)%nat ->
  List.length (GenericRow.setAt i v l) = List.length l.
Proof.
  intro H. unfold GenericRow.setAt.
  rewrite !length_app, length_firstn, length_skipn. cbn [List.length]. lia.
Qed.

Lemma setAt_nth_same (i : nat) (v d : T) (l : list T) :
  (i < List.length l)%nat -> nth i (GenericRow.setAt i v l) d = v.
Proof.
  intro H. unfold GenericRow.setAt.
  rewrite app_nth2; rewrite length_firstn; [|lia].
  replace (i - Nat.min i (List.length l))%nat with 0%nat by lia.
  reflexivity.
Qed.

Lemma setAt_nth_other (i j : nat) (v d : T) (l : list T) :
  (i < List.length l)%nat -> j <> i ->
  nth j (GenericRow.setAt i v l) d = nth j l d.
Proof.
  intros H Hj. unfold GenericRow.setAt.
  destruct (Nat.lt_ge_cases j i) as [Hlt|Hge].
  - rewrite app_nth1 by (rewrite length_firstn; lia).
    apply nth_firstn_lt. exact Hlt.
  - rewrite app_nth2 by (rewrite length_firstn; lia).
    rewrite length_firstn.
    replace (Nat.min i (List.length l)) with i by lia.
    destruct (j - i)%nat as [|k] eqn:E; [lia|].
    cbn [app nth]. rewrite nth_skipn. f_equal. lia.
Qed.

Lemma copyAt_length (start : nat) (vs l : list T) :
  (start + List.length vs <= List.length l)%nat ->
  List.length (GenericRow.copyAt start vs l) = List.length l.
Proof.
  intro H. unfold GenericRow.copyAt.
  rewrite !length_app, length_firstn, length_skipn. lia.
Qed.

Lemma copyAt_nth_inside (start k : nat) (vs l : list T) (d : T) :
  (start + List.length vs <= List.length l)%nat ->
  (k < List.length vs)%nat ->
  nth (start + k) (GenericRow.copyAt start vs l) d = nth k vs d.
Proof.
  intros H Hk. unfold GenericRow.copyAt.
  rewrite app_nth2 by (rewrite length_firstn; lia).
  rewrite length_firstn.
  replace (start + k - Nat.min start (List.length l))%nat with k by lia.
  apply app_nth1. exact Hk.
Qed.

Lemma copyAt_nth_outside (start j : nat) (vs l : list T) (d : T) :
  (start + List.length vs <= List.length l)%nat ->
  (j < start \/ start + List.length vs <= j)%nat ->
  nth j (GenericRow.copyAt start vs l) d = nth j l d.
Proof.
  intros H Hj. unfold GenericRow.copyAt. destruct Hj as [Hj|Hj].
  - rewrite app_nth1 by (rewrite length_firstn; lia).
    apply nth_firstn_lt. exact Hj.
  - rewrite app_nth2 by (rewrite length_firstn; lia).
    rewrite length_firstn.
    replace (Nat.min start (List.length l)) with start by lia.
    rewrite app_nth2 by lia. rewrite nth_skipn. f_equal. lia.
Qed.

(** [Get] inside the row reads the backing array. *)
Lemma Get_inside (r : GenericRow.t T) (i : Z) :
  0 <= i < GenericRow.Len r ->
  GenericRow.Get zero i r = (nth (Z.to_nat i) (GenericRow.arr r) zero, true).
Proof.
  intro H. unfold GenericRow.Get, GenericRow.Len in *.
  assert ((i <? 0) = false) as -> by (apply Z.ltb_ge; lia).
  assert ((Z.of_nat (GenericRow.n r) <=? i) = false) as -> by (apply Z.leb_gt; lia).
  cbn [orb]. unfold GenericRow.s. rewrite nth_firstn_lt by lia. reflexivity.
Qed.

(** [Grow] by a positive count, without overflow. *)
Lemma Grow_positive (k : Z) (r : GenericRow.t T) :
  rowWellFormed r -> 0 < k -> GenericRow.Len r + k < 2 ^ 63 ->
  exists r',
    GenericRow.Grow zero k r = Some (GenericRow.Len r, r')
    /\ rowWellFormed r'
    /\ GenericRow.n r' = Z.to_nat (GenericRow.Len r + k)
    /\ (forall j d, (j < GenericRow.n r)%nat ->
                    nth j (GenericRow.arr r') d = nth j (GenericRow.arr r) d)
    /\ (GenericRow.Len r + k <= GenericRow.Cap r -> GenericRow.arr r' = GenericRow.arr r)
    /\ (GenericRow.Cap r < GenericRow.Len r + k ->
        GenericRow.arr r' = GenericRow.s r ++ repeat zero (Z.to_nat k)).
Proof.
  intros Hwf Hk Hfit. unfold rowWellFormed in Hwf.
  unfold GenericRow.Grow, GenericRow.Len, GenericRow.Cap in *.
  assert ((k <? 0) = false) as -> by (apply Z.ltb_ge; lia).
  assert ((k =? 0) = false) as -> by (apply Z.eqb_neq; lia).
  cbv zeta. unfold add64. rewrite wrap64_small by lia.
  destruct (Z.of_nat (List.length (GenericRow.arr r)) <? Z.of_nat (GenericRow.n r) + k)
    eqn:E; [apply Z.ltb_lt in E | apply Z.ltb_ge in E]; cbn [GenericRow.arr GenericRow.n].
  - assert (List.length (GenericRow.s r ++ repeat zero
                           (Z.to_nat (Z.of_nat (GenericRow.n r) + k - Z.of_nat (GenericRow.n r))))
            = Z.to_nat (Z.of_nat (GenericRow.n r) + k)) as Hlen.
    { unfold GenericRow.s. rewrite length_app, length_firstn, repeat_length. lia. }
    rewrite Hlen.
    assert ((Z.of_nat (GenericRow.n r) + k <? 0) = false) as ->
      by (apply Z.ltb_ge; lia).
    assert ((Z.of_nat (Z.to_nat (Z.of_nat (GenericRow.n r) + k))
             <? Z.of_nat (GenericRow.n r) + k) = false) as ->
      by (apply Z.ltb_ge; lia).
    cbn [orb]. eexists. split; [reflexivity|].
    cbn [GenericRow.arr GenericRow.n]. unfold rowWellFormed. cbn [GenericRow.arr GenericRow.n].
    split; [rewrite Hlen; lia|]. split; [reflexivity|].
    split; [|split].
    + intros j d Hj. rewrite app_nth1
        by (unfold GenericRow.s; rewrite length_firstn; lia).
      unfold GenericRow.s. apply nth_firstn_lt. exact Hj.
    + intro Hc. lia.
    + intros _. f_equal. f_equal. lia.
  - assert ((Z.of_nat (GenericRow.n r) + k <? 0) = false) as ->
      by (apply Z.ltb_ge; lia).
    assert ((Z.of_nat (List.length (GenericRow.arr r)) <? Z.of_nat (GenericRow.n r) + k)
            = false) as -> by (apply Z.ltb_ge; lia).
    cbn [orb]. eexists. split; [reflexivity|].
    unfold rowWellFormed. cbn [GenericRow.arr GenericRow.n].
    split; [lia|]. split; [reflexivity|]. split; [|split].
    + reflexivity.
    + reflexivity.
    + intro Hc. lia.
Qed.

(** [Put] at an index that is not negative, without overflow. *)
Lemma Put_spec (i : Z) (v : T) (r : GenericRow.t T) :
  rowWellFormed r -> 0 <= i -> i < 2 ^ 62 -> GenericRow.Len r < 2 ^ 62 ->
  exists r',
    GenericRow.Put zero i v r = Some r'
    /\ rowWellFormed r'
    /\ GenericRow.Get zero i r' = (v, true)
    /\ GenericRow.Len r' = Z.max (GenericRow.Len r) (i + 1)
    /\ (forall j, 0 <= j < GenericRow.Len r -> j <> i ->
                  GenericRow.Get zero j r' = GenericRow.Get zero j r).
Proof.
  intros Hwf Hi Hfit Hlen. unfold GenericRow.Put.
  assert ((i <? 0) = false) as -> by (apply Z.ltb_ge; lia).
  destruct (GenericRow.Len r <=? i) eqn:E;
    [apply Z.leb_le in E | apply Z.leb_gt in E].
  - assert (sub64 (add64 i 1) (GenericRow.Len r) = i + 1 - GenericRow.Len r) as Hk.
    { unfold sub64, add64. pose proof (Zle_0_nat (GenericRow.n r)).
      pose proof pow2_bounds.
      unfold GenericRow.Len in *. rewrite (wrap64_small (i + 1)) by lia.
      rewrite wrap64_small by lia. reflexivity. }
    rewrite Hk. pose proof pow2_bounds as Hpow.
    destruct (Grow_positive (i + 1 - GenericRow.Len r) r Hwf ltac:(lia) ltac:(lia))
      as (r1 & HG & Hwf1 & Hn1 & Hold & _).
    rewrite HG. cbn [option_map snd].
    replace (GenericRow.Len r + (i + 1 - GenericRow.Len r)) with (i + 1) in Hn1 by lia.
    unfold rowWellFormed in Hwf1.
    assert (GenericRow.Len r1 = i + 1) as Hlen1 by (unfold GenericRow.Len; lia).
    unfold GenericRow.Set_. rewrite Hlen1.
    assert ((i <? 0) = false) as -> by (apply Z.ltb_ge; lia).
    assert ((i + 1 <=? i) = false) as -> by (apply Z.leb_gt; lia).
    cbn [orb]. eexists. split; [reflexivity|].
    assert (Z.to_nat i < List.length (GenericRow.arr r1))%nat as Hin by lia.
    split; [unfold rowWellFormed; cbn [GenericRow.arr GenericRow.n];
            rewrite setAt_length by exact Hin; exact Hwf1|].
    split; [|split].
    + rewrite Get_inside by (unfold GenericRow.Len; cbn [GenericRow.n]; lia).
      cbn [GenericRow.arr]. rewrite setAt_nth_same by exact Hin. reflexivity.
    + unfold GenericRow.Len at 1. cbn [GenericRow.n]. unfold GenericRow.Len in *. lia.
    + intros j Hj Hne.
      rewrite Get_inside by (unfold GenericRow.Len in *; cbn [GenericRow.n]; lia).
      rewrite Get_inside by exact Hj. cbn [GenericRow.arr].
      rewrite setAt_nth_other by (try exact Hin; lia).
      rewrite Hold by (unfold GenericRow.Len in Hj; lia). reflexivity.
  - unfold GenericRow.Set_.
    assert ((i <? 0) = false) as -> by (apply Z.ltb_ge; lia).
    assert ((GenericRow.Len r <=? i) = false) as -> by (apply Z.leb_gt; lia).
    cbn [orb]. eexists. split; [reflexivity|].
    unfold rowWellFormed in Hwf. unfold GenericRow.Len in E.
    assert (Z.to_nat i < List.length (GenericRow.arr r))%nat as Hin by lia.
    split; [unfold rowWellFormed; cbn [GenericRow.arr GenericRow.n];
            rewrite setAt_length by exact Hin; exact Hwf|].
    split; [|split].
    + rewrite Get_inside by (unfold GenericRow.Len; cbn [GenericRow.n]; lia).
      cbn [GenericRow.arr]. rewrite setAt_nth_same by exact Hin. reflexivity.
    + unfold GenericRow.Len. cbn [GenericRow.n]. lia.
    + intros j Hj Hne.
      rewrite Get_inside by (unfold GenericRow.Len in *; cbn [GenericRow.n]; lia).
      rewrite Get_inside by exact Hj. cbn [GenericRow.arr].
      rewrite setAt_nth_other by (try exact Hin; lia). reflexivity.
Qed.

(** X15. [Put] at an index that is not negative never panics (short of
    overflow): the row is extended to hold the index if it does not yet,
    [Get] at that index then returns the value, and every other element the
    row had is unchanged. *)
Theorem Put_then_Get (i : Z) (v : T) (r : GenericRow.t T) :
  rowWellFormed r -> 0 <= i -> i < 2 ^ 62 -> GenericRow.Len r < 2 ^ 62 ->
  exists r',
    GenericRow.Put zero i v r = Some r'
    /\ rowWellFormed r'
    /\ GenericRow.Get zero i r' = (v, true)
    /\ GenericRow.Len r' = Z.max (GenericRow.Len r) (i + 1)
    /\ (forall j, 0 <= j < GenericRow.Len r -> j <> i ->
                  GenericRow.Get zero j r' = GenericRow.Get zero j r).
Proof. apply Put_spec. Qed.

(** X16. [Get] and [At] outside the row, and [Set] and [Put]: [Get] returns
    the zero value and false exactly for an index that is negative or not
    below the length; [At] and [Set] panic exactly then; [Put] panics for a
    negative index. *)
Theorem Row_access_out_of_range (i : Z) (v : T) (r : GenericRow.t T) :
  (snd (GenericRow.Get zero i r) = false <-> i < 0 \/ GenericRow.Len r <= i)
  /\ (i < 0 \/ GenericRow.Len r <= i -> GenericRow.Get zero i r = (zero, false))
  /\ (GenericRow.At zero i r = None <-> i < 0 \/ GenericRow.Len r <= i)
  /\ (GenericRow.Set_ i v r = None <-> i < 0 \/ GenericRow.Len r <= i)
  /\ (i < 0 -> GenericRow.Put zero i v r = None)
  /\ (forall x, GenericRow.At zero i r = Some x -> GenericRow.Get zero i r = (x, true)).
Proof.
  unfold GenericRow.Get, GenericRow.At, GenericRow.Set_, GenericRow.Put.
  destruct (Z.ltb_spec i 0) as [H1|H1], (Z.leb_spec (GenericRow.Len r) i) as [H2|H2];
    cbn [orb snd];
    repeat split; try discriminate; try reflexivity; try lia;
    try (intros; exfalso; lia); try (intros; left; lia);
    try (intros; right; lia);
    try (intros x Hx; injection Hx as <-; reflexivity);
    try (intros [H|H]; exfalso; lia).
Qed.

Lemma firstn_repeat (k m : nat) (x : T) :
  (k <= m)%nat -> firstn k (repeat x m) = repeat x k.
Proof.
  revert m. induction k as [|k IH]; intros m H; [reflexivity|].
  destruct m as [|m]; [lia|]. cbn. f_equal. apply IH. lia.
Qed.

(** X17. [Grow] on a new row gives zero values, whatever the capacity the
    row was made with. After [Clear], though, the values stay in the
    backing array: growing the cleared row back to its former length
    brings back the elements it had, not zero values. *)
Theorem Grow_after_Clear_brings_the_old_values_back :
  (forall (capacity k : Z) (r0 : GenericRow.t T),
      GenericRow.NewRow zero capacity = Some r0 -> 0 <= k < 2 ^ 63 ->
      exists r',
        GenericRow.Grow zero k r0 = Some (0, r')
        /\ GenericRow.s r' = repeat zero (Z.to_nat k))
  /\ (forall r : GenericRow.t T,
        rowWellFormed r -> GenericRow.Len r < 2 ^ 63 ->
        GenericRow.s (GenericRow.Clear r) = []
        /\ exists r',
             GenericRow.Grow zero (GenericRow.Len r) (GenericRow.Clear r) = Some (0, r')
             /\ GenericRow.s r' = GenericRow.s r).
Proof.
  split.
  - intros capacity k r0 Hnew [Hk Hfit].
    assert (exists c : nat, r0 = GenericRow.mk (repeat zero c) 0) as [c ->].
    { unfold GenericRow.NewRow in Hnew.
      destruct (capacity <? 0); [discriminate|].
      destruct (0 <? capacity); injection Hnew as <-;
        [eexists; reflexivity | exists 0%nat; reflexivity]. }
    destruct (Z.eq_dec k 0) as [->|Hnz].
    { eexists. split; reflexivity. }
    assert (rowWellFormed (GenericRow.mk (repeat zero c) 0)) as Hwf
      by (unfold rowWellFormed; cbn; lia).
    destruct (Grow_positive k _ Hwf ltac:(lia) ltac:(cbn; lia))
      as (r' & HG & Hwf' & Hn & _ & Hsame & Hnew').
    exists r'. split; [exact HG|].
    unfold GenericRow.s. rewrite Hn. cbn [GenericRow.Len GenericRow.n Z.of_nat Z.add].
    unfold GenericRow.Len, GenericRow.Cap in *. cbn [GenericRow.n GenericRow.arr GenericRow.s firstn app] in *.
    rewrite repeat_length in *.
    destruct (Z_le_gt_dec (0 + k) (Z.of_nat c)) as [Hle|Hgt].
    + rewrite (Hsame Hle). apply firstn_repeat. lia.
    + rewrite (Hnew' ltac:(lia)). apply firstn_all2. rewrite repeat_length. lia.
  - intros r Hwf Hfit. split; [reflexivity|].
    destruct (Z.eq_dec (GenericRow.Len r) 0) as [Hz|Hnz].
    { rewrite Hz. eexists. split; [reflexivity|].
      unfold GenericRow.s, GenericRow.Len in *. cbn [GenericRow.Clear GenericRow.n].
      replace (GenericRow.n r) with 0%nat by lia. reflexivity. }
    assert (rowWellFormed (GenericRow.Clear r)) as Hwfc
      by (unfold rowWellFormed; cbn; lia).
    pose proof (Zle_0_nat (GenericRow.n r)) as Hpos.
    destruct (Grow_positive (GenericRow.Len r) (GenericRow.Clear r) Hwfc
                ltac:(unfold GenericRow.Len in *; lia)
                ltac:(unfold GenericRow.Len in *; cbn; lia))
      as (r' & HG & _ & Hn & _ & Hsame & _).
    exists r'. split; [exact HG|].
    unfold rowWellFormed in Hwf.
    unfold GenericRow.s, GenericRow.Len, GenericRow.Cap in *. cbn [GenericRow.Clear GenericRow.n GenericRow.arr] in *.
    rewrite Hn, (Hsame ltac:(lia)). f_equal. lia.
Qed.

(** [Sets] with values, without overflow. *)
Lemma Sets_spec (start : Z) (values : list T) (r : GenericRow.t T) :
  rowWellFormed r -> 0 <= start -> values <> [] ->
  start + len values < 2 ^ 62 -> GenericRow.Len r < 2 ^ 62 ->
  exists r',
    GenericRow.Sets zero start values r = Some r'
    /\ rowWellFormed r'
    /\ GenericRow.Len r' = Z.max (GenericRow.Len r) (start + len values)
    /\ (forall k, 0 <= k < len values ->
                  GenericRow.Get zero (start + k) r'
                  = (nth (Z.to_nat k) values zero, true))
    /\ (forall j, 0 <= j < GenericRow.Len r ->
                  j < start \/ start + len values <= j ->
                  GenericRow.Get zero j r' = GenericRow.Get zero j r).
Proof.
  intros Hwf Hstart Hne Hfit Hlen. pose proof pow2_bounds as Hpow.
  pose proof (len_nonneg values) as Hlv.
  assert (len values <> 0) as Hlv0 by (rewrite len_zero_iff; exact Hne).
  unfold GenericRow.Sets.
  assert ((start <? 0) = false) as -> by (apply Z.ltb_ge; lia).
  assert ((len values =? 0) = false) as -> by (apply Z.eqb_neq; exact Hlv0).
  cbv zeta.
  assert (add64 start (len values) = start + len values) as ->
    by (unfold add64; apply wrap64_small; lia).
  pose proof (Zle_0_nat (GenericRow.n r)) as Hn0.
  assert (exists r1,
             (if GenericRow.Len r <? start + len values
              then option_map snd
                     (GenericRow.Grow zero (sub64 (start + len values) (GenericRow.Len r)) r)
              else Some r) = Some r1
             /\ rowWellFormed r1
             /\ GenericRow.Len r1 = Z.max (GenericRow.Len r) (start + len values)
             /\ (forall j d, (j < GenericRow.n r)%nat ->
                             nth j (GenericRow.arr r1) d = nth j (GenericRow.arr r) d))
    as (r1 & -> & Hwf1 & Hlen1 & Hold).
  { destruct (GenericRow.Len r <? start + len values) eqn:E;
      [apply Z.ltb_lt in E | apply Z.ltb_ge in E].
    - assert (sub64 (start + len values) (GenericRow.Len r)
              = start + len values - GenericRow.Len r) as ->
        by (unfold sub64, GenericRow.Len in *; apply wrap64_small; lia).
      destruct (Grow_positive (start + len values - GenericRow.Len r) r Hwf
                  ltac:(lia) ltac:(lia))
        as (r1 & HG & Hwf1 & Hn1 & Hold & _).
      exists r1. rewrite HG. split; [reflexivity|]. split; [exact Hwf1|].
      split; [unfold GenericRow.Len in *; lia | exact Hold].
    - exists r. split; [reflexivity|]. split; [exact Hwf|].
      split; [lia | reflexivity]. }
  unfold rowWellFormed in Hwf, Hwf1.
  assert (GenericRow.Len r1 <= GenericRow.Cap r1) as Hcap
    by (unfold GenericRow.Len, GenericRow.Cap; lia).
  assert ((start + len values <? start) = false) as ->
    by (apply Z.ltb_ge; lia).
  assert ((GenericRow.Cap r1 <? start + len values) = false) as ->
    by (apply Z.ltb_ge; lia).
  cbn [orb]. eexists. split; [reflexivity|].
  assert (Z.to_nat start + List.length values
          <= List.length (GenericRow.arr r1))%nat as Hin
    by (unfold len, GenericRow.Len, GenericRow.Cap in *; lia).
  split; [unfold rowWellFormed; cbn [GenericRow.arr GenericRow.n];
          rewrite copyAt_length by exact Hin; exact Hwf1|].
  split; [exact Hlen1|]. split.
  - intros k Hk.
    rewrite Get_inside by (unfold GenericRow.Len in *; cbn [GenericRow.n]; lia).
    cbn [GenericRow.arr].
    replace (Z.to_nat (start + k)) with (Z.to_nat start + Z.to_nat k)%nat
      by lia.
    rewrite copyAt_nth_inside by (try exact Hin; unfold len in Hk; lia).
    reflexivity.
  - intros j Hj Hout.
    rewrite Get_inside by (unfold GenericRow.Len in *; cbn [GenericRow.n]; lia).
    rewrite Get_inside by exact Hj. cbn [GenericRow.arr].
    rewrite copyAt_nth_outside
      by (try exact Hin; unfold len in *; lia).
    rewrite Hold by (unfold GenericRow.Len in Hj; lia). reflexivity.
Qed.

(** X18. [Sets] at a start that is not negative writes the values at the
    consecutive indices from the start on, extending the row if it has
    to, and leaves the elements outside that range as they were; with no
    values it does nothing, and with a negative start it panics. [Puts]
    does exactly the same. *)
Theorem Sets_writes_the_values_in_place
    (start : Z) (values : list T) (r : GenericRow.t T) :
  (rowWellFormed r -> 0 <= start -> values <> [] ->
   start + len values < 2 ^ 62 -> GenericRow.Len r < 2 ^ 62 ->
   exists r',
     GenericRow.Sets zero start values r = Some r'
     /\ rowWellFormed r'
     /\ GenericRow.Len r' = Z.max (GenericRow.Len r) (start + len values)
     /\ (forall k, 0 <= k < len values ->
                   GenericRow.Get zero (start + k) r'
                   = (nth (Z.to_nat k) values zero, true))
     /\ (forall j, 0 <= j < GenericRow.Len r ->
                   j < start \/ start + len values <= j ->
                   GenericRow.Get zero j r' = GenericRow.Get zero j r))
  /\ (0 <= start -> GenericRow.Sets zero start [] r = Some r)
  /\ (start < 0 -> GenericRow.Sets zero start values r = None)
  /\ GenericRow.Puts zero start values r = GenericRow.Sets zero start values r.
Proof.
  split; [apply Sets_spec|]. split; [|split].
  - intro H. unfold GenericRow.Sets.
    assert ((start <? 0) = false) as -> by (apply Z.ltb_ge; lia).
    reflexivity.
  - intro H. unfold GenericRow.Sets.
    assert ((start <? 0) = true) as -> by (apply Z.ltb_lt; lia).
    reflexivity.
  - reflexivity.
Qed.

(** X19. [Append] puts the value after the elements of the row, which stay
    as they are, whether the backing array has room or a new one is
    allocated; the row stays well formed. *)
Theorem Append_adds_at_the_end (v : T) (r : GenericRow.t T) :
  rowWellFormed r ->
  GenericRow.s (GenericRow.Append zero growslice v r) = GenericRow.s r ++ [v]
  /\ GenericRow.Len (GenericRow.Append zero growslice v r) = GenericRow.Len r + 1
  /\ rowWellFormed (GenericRow.Append zero growslice v r).
Proof.
  intro Hwf. unfold rowWellFormed in *. unfold GenericRow.Append.
  destruct (GenericRow.n r <? List.length (GenericRow.arr r))%nat eqn:E;
    [apply Nat.ltb_lt in E | apply Nat.ltb_ge in E];
    unfold GenericRow.s, GenericRow.Len; cbn [GenericRow.arr GenericRow.n].
  - split; [|split; [lia | rewrite setAt_length by exact E; lia]].
    unfold GenericRow.setAt.
    rewrite firstn_app, length_firstn.
    replace (S (GenericRow.n r) - Nat.min (GenericRow.n r) (List.length (GenericRow.arr r)))%nat
      with 1%nat by lia.
    rewrite firstn_firstn.
    replace (Nat.min (S (GenericRow.n r)) (GenericRow.n r)) with (GenericRow.n r) by lia.
    reflexivity.
  - split; [|split; [lia|]].
    + rewrite app_assoc.
      rewrite firstn_app, length_app, length_firstn. cbn [List.length].
      replace (S (GenericRow.n r)
               - (Nat.min (GenericRow.n r) (List.length (GenericRow.arr r)) + 1))%nat
        with 0%nat by lia.
      rewrite firstn_O, app_nil_r. apply firstn_all2.
      rewrite length_app, length_firstn. cbn. lia.
    + rewrite !length_app, length_firstn. cbn [List.length]. lia.
Qed.

(** X20. An [OffsetRow] is its row seen from the offset on: for an index
    at or after the offset, [Get] is [Get] of the row at the index minus
    the offset, and [Put] followed by [Get] at the same index returns the
    value, the offset and the other elements being unchanged. Before the
    offset there is nothing: [Get] returns the zero value and false, and
    [At], [Set] and [Put] panic. *)
Theorem OffsetRow_is_the_row_seen_from_the_offset
    (or : OffsetRow.t T) (i : Z) (v : T) :
  rowWellFormed (OffsetRow.r or) ->
  0 <= OffsetRow.offset or < 2 ^ 62 ->
  OffsetRow.Len or < 2 ^ 62 ->
  (OffsetRow.offset or <= i < 2 ^ 62 ->
   OffsetRow.Get zero i or
   = GenericRow.Get zero (i - OffsetRow.offset or) (OffsetRow.r or)
   /\ exists or',
        OffsetRow.Put zero i v or = Some or'
        /\ OffsetRow.Get zero i or' = (v, true)
        /\ OffsetRow.Offset or' = OffsetRow.Offset or
        /\ (forall j,
              OffsetRow.offset or <= j
              < OffsetRow.offset or + OffsetRow.Len or ->
              j <> i ->
              OffsetRow.Get zero j or' = OffsetRow.Get zero j or))
  /\ (- 2 ^ 62 <= i < OffsetRow.offset or ->
      OffsetRow.Get zero i or = (zero, false)
      /\ OffsetRow.At zero i or = None
      /\ OffsetRow.Set_ i v or = None
      /\ OffsetRow.Put zero i v or = None).
Proof.
  intros Hwf Hoff Hlen. pose proof pow2_bounds as Hpow.
  assert (forall j, - 2 ^ 62 <= j < 2 ^ 63 ->
                    sub64 j (OffsetRow.offset or) = j - OffsetRow.offset or)
    as Hsub by (intros j Hj; unfold sub64; apply wrap64_small; lia).
  split.
  - intro Hi. unfold OffsetRow.Get at 1. cbv zeta.
    rewrite Hsub by lia.
    assert ((i - OffsetRow.offset or <? 0) = false) as Hnn
      by (apply Z.ltb_ge; lia).
    rewrite Hnn. split; [reflexivity|].
    destruct (Put_spec (i - OffsetRow.offset or) v (OffsetRow.r or) Hwf
                ltac:(lia) ltac:(lia) Hlen)
      as (r' & HP & _ & HG & _ & Hothers).
    unfold OffsetRow.Put. cbv zeta. rewrite Hsub by lia. rewrite Hnn, HP.
    cbn [option_map]. eexists. split; [reflexivity|].
    unfold OffsetRow.Get, OffsetRow.Offset. cbn [OffsetRow.r OffsetRow.offset].
    rewrite Hsub by lia. rewrite Hnn. split; [exact HG|].
    split; [reflexivity|].
    intros j Hj Hne. unfold OffsetRow.Len in Hj, Hlen.
    rewrite Hsub by lia.
    assert ((j - OffsetRow.offset or <? 0) = false) as ->
      by (apply Z.ltb_ge; lia).
    apply Hothers; lia.
  - intro Hi.
    unfold OffsetRow.Get, OffsetRow.At, OffsetRow.Set_, OffsetRow.Put.
    cbv zeta. rewrite Hsub by lia.
    assert ((i - OffsetRow.offset or <? 0) = true) as ->
      by (apply Z.ltb_lt; lia).
    repeat split.
Qed.

End RowProperties.

(** A row of three elements: the index 3 is outside, the index 2 is the
    last element. *)
Lemma Row_access_out_of_range_witness :
  GenericRow.Get 0 3 (GenericRow.mk [5; 6; 7] 3) = (0, false)
  /\ GenericRow.At 0 3 (GenericRow.mk [5; 6; 7] 3) = None
  /\ GenericRow.Set_ 3 9 (GenericRow.mk [5; 6; 7] 3) = None
  /\ GenericRow.Put 0 (-1) 9 (GenericRow.mk [5; 6; 7] 3) = None
  /\ GenericRow.Get 0 2 (GenericRow.mk [5; 6; 7] 3) = (7, true).
Proof.
  destruct (Row_access_out_of_range 0 3 9 (GenericRow.mk [5; 6; 7] 3))
    as (_ & HG & HA & HS & _ & _).
  destruct (Row_access_out_of_range 0 (-1) 9 (GenericRow.mk [5; 6; 7] 3))
    as (_ & _ & _ & _ & HP & _).
  destruct (Row_access_out_of_range 0 2 9 (GenericRow.mk [5; 6; 7] 3))
    as (_ & _ & _ & _ & _ & HAt).
  assert (3 < 0 \/ GenericRow.Len (GenericRow.mk [5; 6; 7] 3) <= 3) as Hout
    by (right; vm_compute; discriminate).
  split; [exact (HG Hout)|].
  split; [exact (proj2 HA Hout)|].
  split; [exact (proj2 HS Hout)|].
  split; [apply HP; lia|].
  apply HAt. reflexivity.
Defined.

(** A new row without capacity: [Put] at the index 2 makes it three
    elements long. *)
Lemma Put_then_Get_witness :
  (rowWellFormed (GenericRow.mk (@nil Z) 0) /\ 0 <= 2 /\ 2 < 2 ^ 62)
  /\ exists r',
       GenericRow.Put 0 2 7 (GenericRow.mk [] 0) = Some r'
       /\ GenericRow.Get 0 2 r' = (7, true)
       /\ GenericRow.Len r' = 3
       /\ GenericRow.Values r' = [0; 0; 7].
Proof.
  assert (rowWellFormed (GenericRow.mk (@nil Z) 0)) as Hwf
    by (unfold rowWellFormed; cbn; lia).
  assert (2 < 2 ^ 62) as H2 by (vm_compute; reflexivity).
  assert (GenericRow.Len (GenericRow.mk (@nil Z) 0) < 2 ^ 62) as H3
    by (vm_compute; reflexivity).
  split; [split; [exact Hwf | split; [lia | exact H2]]|].
  destruct (Put_then_Get 0 2 7 (GenericRow.mk [] 0) Hwf ltac:(lia) H2 H3)
    as (r' & HP & _ & HG & HL & _).
  exists r'. split; [exact HP|]. split; [exact HG|].
  split; [exact HL|].
  assert (Some r' = Some (GenericRow.mk [0; 0; 7] 3)) as E
    by (rewrite <- HP; reflexivity).
  injection E as ->. reflexivity.
Defined.

(** The row 1, 2, 3: cleared and grown by three, it holds 1, 2, 3 again. *)
Lemma Grow_after_Clear_brings_the_old_values_back_witness :
  let r := GenericRow.mk [1; 2; 3] 3 in
  (rowWellFormed r /\ GenericRow.Len r < 2 ^ 63)
  /\ GenericRow.s (GenericRow.Clear r) = []
  /\ option_map (fun p => GenericRow.s (snd p)) (GenericRow.Grow 0 3 (GenericRow.Clear r))
     = Some [1; 2; 3].
Proof.
  cbv zeta.
  assert (rowWellFormed (GenericRow.mk [1; 2; 3] 3)) as Hwf
    by (unfold rowWellFormed; cbn; lia).
  assert (GenericRow.Len (GenericRow.mk [1; 2; 3] 3) < 2 ^ 63) as Hl
    by (vm_compute; reflexivity).
  destruct (Grow_after_Clear_brings_the_old_values_back 0) as [_ H].
  destruct (H (GenericRow.mk [1; 2; 3] 3) Hwf Hl) as (Hc & r' & HG & Hs).
  split; [split; [exact Hwf | exact Hl]|]. split; [exact Hc|].
  change 3 with (GenericRow.Len (GenericRow.mk [1; 2; 3] 3)) at 1.
  rewrite HG. cbn [option_map snd]. rewrite Hs. reflexivity.
Defined.

(** Writing 8, 9 from the index 1 into the row 1, 2. *)
Lemma Sets_writes_the_values_in_place_witness :
  let r := GenericRow.mk [1; 2] 2 in
  (rowWellFormed r /\ 0 <= 1 /\ [8; 9] <> [])
  /\ option_map GenericRow.Values (GenericRow.Sets 0 1 [8; 9] r) = Some [1; 8; 9].
Proof.
  cbv zeta.
  assert (rowWellFormed (GenericRow.mk [1; 2] 2)) as Hwf
    by (unfold rowWellFormed; cbn; lia).
  assert ([8; 9] <> []) as Hne by discriminate.
  destruct (Sets_writes_the_values_in_place 0 1 [8; 9] (GenericRow.mk [1; 2] 2))
    as [H _].
  destruct (H Hwf ltac:(lia) Hne ltac:(vm_compute; reflexivity)
              ltac:(vm_compute; reflexivity)) as (r' & HS & _).
  split; [split; [exact Hwf | split; [lia | exact Hne]]|].
  rewrite HS. cbn [option_map].
  assert (Some r' = Some (GenericRow.mk [1; 8; 9] 3)) as E
    by (rewrite <- HS; reflexivity).
  injection E as ->. reflexivity.
Defined.

(** Appending to a full row and to a row with room (the stale 5 is
    overwritten). *)
Lemma Append_adds_at_the_end_witness :
  rowWellFormed (GenericRow.mk [1; 2] 2)
  /\ rowWellFormed (GenericRow.mk [1; 5] 1)
  /\ GenericRow.s (GenericRow.Append 0 (fun c => 2 * c)%nat 3 (GenericRow.mk [1; 2] 2)) = [1; 2; 3]
  /\ GenericRow.s (GenericRow.Append 0 (fun c => 2 * c)%nat 3 (GenericRow.mk [1; 5] 1)) = [1; 3].
Proof.
  assert (rowWellFormed (GenericRow.mk [1; 2] 2)) as H1
    by (unfold rowWellFormed; cbn; lia).
  assert (rowWellFormed (GenericRow.mk [1; 5] 1)) as H2
    by (unfold rowWellFormed; cbn; lia).
  split; [exact H1|]. split; [exact H2|]. split.
  - destruct (Append_adds_at_the_end 0 (fun c => 2 * c)%nat 3 _ H1) as [H _].
    exact H.
  - destruct (Append_adds_at_the_end 0 (fun c => 2 * c)%nat 3 _ H2) as [H _].
    exact H.
Defined.

(** A row of two elements that starts at the offset 10. *)
Lemma OffsetRow_is_the_row_seen_from_the_offset_witness :
  let or := OffsetRow.mk (GenericRow.mk [1; 2] 2) 10 in
  (rowWellFormed (OffsetRow.r or) /\ 10 <= 11 < 2 ^ 62)
  /\ OffsetRow.Get 0 11 or = (2, true)
  /\ OffsetRow.Get 0 9 or = (0, false)
  /\ OffsetRow.Put 0 9 5 or = None.
Proof.
  cbv zeta.
  assert (rowWellFormed (GenericRow.mk [1; 2] 2)) as Hwf
    by (unfold rowWellFormed; cbn; lia).
  assert (10 <= 11 < 2 ^ 62) as Hi by (split; [lia | vm_compute; reflexivity]).
  destruct (OffsetRow_is_the_row_seen_from_the_offset 0
              (OffsetRow.mk (GenericRow.mk [1; 2] 2) 10) 9 5 Hwf
              ltac:(split; [cbn; lia | vm_compute; reflexivity])
              ltac:(vm_compute; reflexivity)) as [_ Hbefore].
  destruct (Hbefore ltac:(split; [vm_compute; discriminate | cbn; lia]))
    as (HG & _ & _ & HP).
  destruct (OffsetRow_is_the_row_seen_from_the_offset 0
              (OffsetRow.mk (GenericRow.mk [1; 2] 2) 10) 11 5 Hwf
              ltac:(split; [cbn; lia | vm_compute; reflexivity])
              ltac:(vm_compute; reflexivity)) as [Hafter _].
  destruct (Hafter Hi) as [HG11 _].
  split; [split; [exact Hwf | exact Hi]|].
  split; [rewrite HG11; reflexivity|]. split; [exact HG | exact HP].
Defined.

(** * The generator of sheet identifiers *)

Lemma markUsed_fold (existingIDs : list Z) :
  forall (used : Z -> bool) (k : Z),
    fold_left (fun u id => IDGenerator.markUsed id u) existingIDs used k = true
    <-> In k existingIDs \/ used k = true.
Proof.
  induction existingIDs as [|id rest IH]; intros used k.
  - cbn. split; [intro H; right; exact H | intros [[]|H]; exact H].
  - cbn [fold_left In]. rewrite IH. unfold IDGenerator.markUsed.
    destruct (Z.eqb_spec k id) as [->|Hne].
    + split; [intros _; left; left; reflexivity | intros _; right; reflexivity].
    + split.
      * intros [H|H]; [left; right; exact H | right; exact H].
      * intros [[H|H]|H]; [congruence | left; exact H | right; exact H].
Qed.

(** The loop of [Next] returns the first usable draw among the next
    [attempts] ones. *)
Lemma nextLoop_spec (attempts : nat) :
  forall g : IDGenerator.t,
    match IDGenerator.nextLoop attempts g with
    | Some (id, g') =>
        exists j,
          (j < attempts)%nat
          /\ id = IDGenerator.rng g (IDGenerator.drawn g + j)
          /\ usable g (IDGenerator.drawn g + j) = true
          /\ (forall i, (i < j)%nat ->
                        usable g (IDGenerator.drawn g + i) = false)
          /\ g' = IDGenerator.mk
                    (IDGenerator.markUsed id (IDGenerator.usedIDs g))
                    (IDGenerator.rng g) (IDGenerator.drawn g + S j)
    | None =>
        forall i, (i < attempts)%nat ->
                  usable g (IDGenerator.drawn g + i) = false
    end.
Proof.
  induction attempts as [|attempts IH]; intro g.
  - cbn. intros i Hi. lia.
  - cbn [IDGenerator.nextLoop]. cbv zeta.
    cbn [IDGenerator.usedIDs IDGenerator.rng IDGenerator.drawn].
    destruct (negb (IDGenerator.rng g (IDGenerator.drawn g) =? 0)
              && negb (IDGenerator.usedIDs g
                         (IDGenerator.rng g (IDGenerator.drawn g)))) eqn:E.
    + exists 0%nat. rewrite Nat.add_0_r, Nat.add_1_r.
      repeat split; [lia | exact E | intros i Hi; lia].
    + specialize (IH (IDGenerator.mk (IDGenerator.usedIDs g)
                        (IDGenerator.rng g) (S (IDGenerator.drawn g)))).
      destruct (IDGenerator.nextLoop attempts _) as [[id g']|].
      * destruct IH as (j & Hj & Hid & Hu & Hbefore & Hg').
        cbn [IDGenerator.usedIDs IDGenerator.rng IDGenerator.drawn] in *.
        unfold usable in *.
        cbn [IDGenerator.usedIDs IDGenerator.rng IDGenerator.drawn] in *.
        exists (S j).
        replace (IDGenerator.drawn g + S j)%nat
          with (S (IDGenerator.drawn g) + j)%nat by lia.
        split; [lia|]. split; [exact Hid|]. split; [exact Hu|].
        split.
        -- intros i Hi. destruct i as [|i].
           ++ rewrite Nat.add_0_r. exact E.
           ++ replace (IDGenerator.drawn g + S i)%nat
                with (S (IDGenerator.drawn g) + i)%nat by lia.
              apply Hbefore. lia.
        -- rewrite Hg'. f_equal. lia.
      * intros i Hi. unfold usable in *.
        cbn [IDGenerator.usedIDs IDGenerator.rng IDGenerator.drawn] in *.
        destruct i as [|i].
        -- rewrite Nat.add_0_r. exact E.
        -- replace (IDGenerator.drawn g + S i)%nat
             with (S (IDGenerator.drawn g) + i)%nat by lia.
           apply IH. lia.
Qed.

(** What [Next] returns was free, is not 0, and is the only mark that
    changes. *)
Lemma Next_fresh (g g' : IDGenerator.t) (id : Z) :
  IDGenerator.Next g = Some (id, g') ->
  id <> 0
  /\ IDGenerator.usedIDs g id = false
  /\ IDGenerator.usedIDs g' id = true
  /\ (forall k, k <> id ->
                IDGenerator.usedIDs g' k = IDGenerator.usedIDs g k).
Proof.
  unfold IDGenerator.Next. intro E.
  pose proof (nextLoop_spec IDGenerator.maxRetries g) as H.
  rewrite E in H. destruct H as (j & Hj & Hid & Hu & Hbefore & Hg').
  unfold usable in Hu. rewrite <- Hid in Hu.
  apply andb_true_iff in Hu. destruct Hu as [Hnz Hfree].
  apply negb_true_iff in Hnz, Hfree. apply Z.eqb_neq in Hnz.
  split; [exact Hnz|]. split; [exact Hfree|].
  rewrite Hg'. cbn [IDGenerator.usedIDs]. unfold IDGenerator.markUsed.
  split; [rewrite Z.eqb_refl; reflexivity|].
  intros k Hk. apply Z.eqb_neq in Hk. rewrite Hk. reflexivity.
Qed.

(** X21. [Next] returns the first of the next [maxRetries] (10000) draws that is neither 0
    nor marked as used, and marks it, leaving every other mark as it was; it
    panics exactly when none of these draws can be returned. So the
    identifier it returns is never 0 and was not in use. *)
Theorem Next_returns_the_first_free_draw (g : IDGenerator.t) :
  (forall id g',
      IDGenerator.Next g = Some (id, g') ->
      id <> 0
      /\ IDGenerator.usedIDs g id = false
      /\ IDGenerator.usedIDs g' id = true
      /\ (forall k, k <> id ->
                    IDGenerator.usedIDs g' k = IDGenerator.usedIDs g k)
      /\ exists j,
           (j < IDGenerator.maxRetries)%nat
           /\ id = IDGenerator.rng g (IDGenerator.drawn g + j)
           /\ (forall i, (i < j)%nat ->
                         usable g (IDGenerator.drawn g + i) = false))
  /\ (IDGenerator.Next g = None
      <-> forall i, (i < IDGenerator.maxRetries)%nat ->
                    usable g (IDGenerator.drawn g + i) = false).
Proof.
  unfold IDGenerator.Next.
  pose proof (nextLoop_spec IDGenerator.maxRetries g) as H.
  destruct (IDGenerator.nextLoop IDGenerator.maxRetries g) as [[id0 g0]|].
  - destruct H as (j & Hj & Hid & Hu & Hbefore & Hg').
    split.
    + intros id g' E. injection E as <- <-.
      unfold usable in Hu. rewrite <- Hid in Hu.
      apply andb_true_iff in Hu. destruct Hu as [Hnz Hfree].
      apply negb_true_iff in Hnz, Hfree. apply Z.eqb_neq in Hnz.
      split; [exact Hnz|]. split; [exact Hfree|].
      rewrite Hg'. cbn [IDGenerator.usedIDs]. unfold IDGenerator.markUsed.
      split; [rewrite Z.eqb_refl; reflexivity|].
      split.
      * intros k Hk. apply Z.eqb_neq in Hk. rewrite Hk. reflexivity.
      * exists j. repeat split; assumption.
    + split; [discriminate|]. intro Hall. rewrite (Hall j Hj) in Hu.
      discriminate.
  - split; [discriminate|]. split; [intros _; exact H | reflexivity].
Qed.

Lemma nextIDs_S (k : nat) (g : IDGenerator.t) :
  nextIDs (S k) g
  = match IDGenerator.Next g with
    | None => None
    | Some (id, g1) =>
        match nextIDs k g1 with
        | None => None
        | Some (ids, g2) => Some (id :: ids, g2)
        end
    end.
Proof. reflexivity. Qed.

Lemma nextIDs_spec (k : nat) :
  forall (g g' : IDGenerator.t) (ids : list Z),
    nextIDs k g = Some (ids, g') ->
    NoDup ids
    /\ List.length ids = k
    /\ (forall id, In id ids ->
                   id <> 0 /\ IDGenerator.usedIDs g id = false)
    /\ (forall x, IDGenerator.usedIDs g x = true ->
                  IDGenerator.usedIDs g' x = true).
Proof.
  induction k as [|k IH]; intros g g' ids H.
  - cbn in H. injection H as <- <-.
    repeat split; try constructor; try contradiction. intros x Hx. exact Hx.
  - rewrite nextIDs_S in H.
    destruct (IDGenerator.Next g) as [[id g1]|] eqn:HN; [|discriminate].
    destruct (nextIDs k g1) as [[ids1 g2]|] eqn:Hrest; [|discriminate].
    injection H as <- <-.
    destruct (Next_fresh g g1 id HN)
      as (Hnz & Hfree & Hmarked & Hothers).
    destruct (IH g1 g2 ids1 Hrest) as (Hnd & Hlen & Hids & Hmono).
    split; [|split; [|split]].
    + constructor; [|exact Hnd]. intro Hin.
      destruct (Hids id Hin) as [_ Hf]. congruence.
    + cbn. rewrite Hlen. reflexivity.
    + intros x [<-|Hin]; [split; assumption|].
      destruct (Hids x Hin) as [Hx0 Hxf]. split; [exact Hx0|].
      destruct (Z.eq_dec x id) as [->|Hne]; [exact Hfree|].
      rewrite <- (Hothers x Hne). exact Hxf.
    + intros x Hx. apply Hmono.
      destruct (Z.eq_dec x id) as [->|Hne]; [exact Hmarked|].
      rewrite (Hothers x Hne). exact Hx.
Qed.

Lemma nextIDs_marks (k : nat) :
  forall (g g' : IDGenerator.t) (ids : list Z),
    nextIDs k g = Some (ids, g') ->
    forall id, In id ids -> IDGenerator.usedIDs g' id = true.
Proof.
  induction k as [|k IH]; intros g g' ids H id Hin.
  - cbn in H. injection H as <- <-. contradiction.
  - rewrite nextIDs_S in H.
    destruct (IDGenerator.Next g) as [[id0 g1]|] eqn:HN; [|discriminate].
    destruct (nextIDs k g1) as [[ids1 g2]|] eqn:Hrest; [|discriminate].
    injection H as <- <-.
    destruct Hin as [<-|Hin].
    + destruct (Next_fresh g g1 id0 HN) as (_ & _ & Hmarked & _).
      destruct (nextIDs_spec k g1 g2 ids1 Hrest) as (_ & _ & _ & Hmono).
      apply Hmono. exact Hmarked.
    + apply (IH g1 g2 ids1 Hrest id Hin).
Qed.

(** X22. The identifiers that successive calls of [Next] return on a new
    generator are pairwise different, none of them is 0, and none of them is
    one of the existing identifiers the generator was made with. *)
Theorem generated_ids_are_distinct_and_new
    (rng : nat -> Z) (existingIDs : list Z) (k : nat)
    (ids : list Z) (g' : IDGenerator.t) :
  nextIDs k (IDGenerator.NewIDGenerator rng existingIDs) = Some (ids, g') ->
  NoDup ids
  /\ List.length ids = k
  /\ (forall id, In id ids -> id <> 0 /\ ~ In id existingIDs)
  /\ (forall id, In id ids \/ In id existingIDs ->
                 IDGenerator.usedIDs g' id = true).
Proof.
  intro H.
  destruct (nextIDs_spec k _ g' ids H) as (Hnd & Hlen & Hids & Hmono).
  split; [exact Hnd|]. split; [exact Hlen|]. split.
  - intros id Hin. destruct (Hids id Hin) as [Hnz Hfree].
    split; [exact Hnz|]. intro Hex.
    unfold IDGenerator.NewIDGenerator in Hfree. cbn [IDGenerator.usedIDs] in Hfree.
    assert (fold_left (fun u id0 => IDGenerator.markUsed id0 u) existingIDs
              (fun _ => false) id = true) as Ht
      by (apply markUsed_fold; left; exact Hex).
    congruence.
  - intros id [Hin|Hex].
    + apply (nextIDs_marks k _ g' ids H id Hin).
    + apply Hmono. unfold IDGenerator.NewIDGenerator. cbn [IDGenerator.usedIDs].
      apply markUsed_fold. left. exact Hex.
Qed.

(** A source that draws 0, then 7 (in use), then 7 again, then 12, then
    12 again, then 5. *)
Lemma generated_ids_are_distinct_and_new_witness :
  let rng := fun i : nat => nth i [0; 7; 7; 12; 12; 5] 9 in
  option_map fst (nextIDs 2 (IDGenerator.NewIDGenerator rng [7]))
  = Some [12; 5]
  /\ NoDup [12; 5].
Proof.
  cbv zeta.
  destruct (nextIDs 2 (IDGenerator.NewIDGenerator
                         (fun i : nat => nth i [0; 7; 7; 12; 12; 5] 9) [7]))
    as [[ids g']|] eqn:E.
  - destruct (generated_ids_are_distinct_and_new _ _ _ _ _ E) as [Hnd _].
    assert (ids = [12; 5]) as ->.
    { vm_compute in E. injection E as <- _. reflexivity. }
    split; [reflexivity | exact Hnd].
  - vm_compute in E. discriminate E.
Defined.

Lemma Next_returns_the_first_free_draw_witness :
  let g := IDGenerator.NewIDGenerator
             (fun i : nat => nth i [0; 7; 12] 9) [7] in
  option_map fst (IDGenerator.Next g) = Some 12
  /\ 12 <> 0 /\ IDGenerator.usedIDs g 12 = false.
Proof.
  cbv zeta.
  destruct (IDGenerator.Next
              (IDGenerator.NewIDGenerator
                 (fun i : nat => nth i [0; 7; 12] 9) [7]))
    as [[id g']|] eqn:E.
  - destruct (Next_returns_the_first_free_draw
                (IDGenerator.NewIDGenerator
                   (fun i : nat => nth i [0; 7; 12] 9) [7]))
      as [H _].
    destruct (H id g' E) as (Hnz & Hfree & _).
    assert (id = 12) as ->.
    { vm_compute in E. injection E as <- _. reflexivity. }
    split; [reflexivity|]. split; [exact Hnz | exact Hfree].
  - vm_compute in E. discriminate E.
Defined.

(** * Reading through the sheet client *)



(** The sheets of an answer that carry the identifier of the client. *)
Lemma gridSizeLoop_skips (sc : SheetClient.t)
    (before rest : list (option SheetClient.SheetInfo)) :
  (forall q, In (Some q) before ->
             SheetClient.info_SheetId q <> SheetClient.sheetID sc) ->
  SheetClient.gridSizeLoop sc (before ++ rest)
  = SheetClient.gridSizeLoop sc rest.
Proof.
  induction before as [|s0 before IH]; intro H; [reflexivity|].
  cbn [app SheetClient.gridSizeLoop]. destruct s0 as [q|].
  - assert ((SheetClient.info_SheetId q =? SheetClient.sheetID sc) = false)
      as -> by (apply Z.eqb_neq; apply H; left; reflexivity).
    apply IH. intros q0 Hq0. apply H. right. exact Hq0.
  - apply IH. intros q0 Hq0. apply H. right. exact Hq0.
Qed.

(** X24. [GetGridSize] looks the sheet of the client up in the answer of
    the service: it returns the counts of the first sheet that has
    properties with the identifier of the client; if that sheet has no
    grid properties it returns an error, without looking further; if no
    sheet has the identifier it returns the not-found error; and an error
    of the service is returned wrapped. *)
Theorem GetGridSize_finds_the_first_sheet_with_the_identifier
    (sc : SheetClient.t) :
  (forall before props rest,
      SheetClient.info_SheetId props = SheetClient.sheetID sc ->
      (forall q, In (Some q) before ->
                 SheetClient.info_SheetId q <> SheetClient.sheetID sc) ->
      SheetClient.GetGridSize (inr (before ++ Some props :: rest)) sc
      = match SheetClient.info_Grid props with
        | Some (rowCount, columnCount) => (rowCount, columnCount, None)
        | None =>
            (0, 0,
             Some (ErrorString
                     ("GetGridSize: grid properties are missing for sheet "
                      +s fmt_d (SheetClient.sheetID sc))))
        end)
  /\ (forall sheets,
        (forall q, In (Some q) sheets ->
                   SheetClient.info_SheetId q <> SheetClient.sheetID sc) ->
        SheetClient.GetGridSize (inr sheets) sc
        = (0, 0,
           Some (ErrorString
                   ("GetGridSize: sheet " +s fmt_d (SheetClient.sheetID sc)
                    +s " not found"))))
  /\ (forall e,
        SheetClient.GetGridSize (inl e) sc
        = (0, 0,
           Some (WrapError
                   "GetGridSize: failed to fetch spreadsheet info: " e))).
Proof.
  split; [|split].
  - intros before props rest Hid Hbefore. unfold SheetClient.GetGridSize.
    rewrite (gridSizeLoop_skips sc before _ Hbefore).
    cbn [SheetClient.gridSizeLoop].
    assert ((SheetClient.info_SheetId props =? SheetClient.sheetID sc) = true)
      as -> by (apply Z.eqb_eq; exact Hid).
    destruct (SheetClient.info_Grid props) as [[rc cc]|]; reflexivity.
  - intros sheets Hnone. unfold SheetClient.GetGridSize.
    rewrite <- (app_nil_r sheets).
    rewrite (gridSizeLoop_skips sc sheets [] Hnone). reflexivity.
  - intro e. reflexivity.
Qed.

Lemma GetGridSize_finds_the_first_sheet_with_the_identifier_witness :
  let sheets :=
    [None;
     Some (SheetClient.mkSheetInfo 3 (Some (1000, 26)));
     Some (SheetClient.mkSheetInfo 7 (Some (50, 12)));
     Some (SheetClient.mkSheetInfo 7 None)] in
  SheetClient.GetGridSize (inr sheets) (SheetClient.Sheet 7) = (50, 12, None)
  /\ SheetClient.GetGridSize (inr sheets) (SheetClient.Sheet 9)
     = (0, 0, Some (ErrorString "GetGridSize: sheet 9 not found")).
Proof.
  cbv zeta.
  destruct (GetGridSize_finds_the_first_sheet_with_the_identifier
              (SheetClient.Sheet 7)) as [Hfound _].
  destruct (GetGridSize_finds_the_first_sheet_with_the_identifier
              (SheetClient.Sheet 9)) as [_ [Hmissing _]].
  split.
  - apply (Hfound [None; Some (SheetClient.mkSheetInfo 3 (Some (1000, 26)))]
             (SheetClient.mkSheetInfo 7 (Some (50, 12)))
             [Some (SheetClient.mkSheetInfo 7 None)] eq_refl).
    intros q [Hq|[Hq|[]]]; [discriminate Hq|].
    injection Hq as <-. cbn. discriminate.
  - apply Hmissing.
    intros q [Hq|[Hq|[Hq|[Hq|[]]]]]; try discriminate Hq;
      injection Hq as <-; cbn; discriminate.
Defined.

(** * Writing and clearing values *)

(** X26. The three value setters build the same operation where they
    overlap: at a row and a column that are not negative, [SetCellValue] of
    a value that is not nil is [SetRowValues] of that one value, and
    [SetRowValues] of values that are not empty is [SetRangeValues] of that
    one row. They differ at the edges: [SetCellValue] refuses nil, while
    [SetRowValues] accepts a nil among its values and writes an empty cell
    for it; [SetRowValues] refuses no values, while [SetRangeValues] accepts
    a row of no values and writes a row without cells. *)
Theorem value_setters_agree_where_they_overlap
    (sb : SheetBuilder) (row col : Z) (b : Builder.t) :
  0 <= row -> 0 <= col ->
  (forall value,
      value <> AnyNil ->
      SheetBuilder.SetCellValue sb row col value b
      = SheetBuilder.SetRowValues sb row col [value] b)
  /\ (forall values,
        values <> [] ->
        SheetBuilder.SetRowValues sb row col values b
        = SheetBuilder.SetRangeValues sb row col [values] b)
  /\ (Builder.requests (SheetBuilder.SetCellValue sb row col AnyNil b)
      = Builder.requests b
      /\ Builder.errs (SheetBuilder.SetCellValue sb row col AnyNil b)
         = Builder.errs b
            ++ [ErrorString "SetCellValue: value should not be nil"])
  /\ (forall before after,
        Builder.errs
          (SheetBuilder.SetRowValues sb row col (before ++ AnyNil :: after) b)
        = Builder.errs b
        /\ Builder.requests
             (SheetBuilder.SetRowValues sb row col
                (before ++ AnyNil :: after) b)
           = Builder.requests b
              ++ [sheets.UpdateCells
                    (sheets.mkGridCoordinate (sheetID sb) row col)
                    [sheets.mkRowData
                       (map SheetBuilder.toCellData before
                        ++ sheets.zeroCellData
                           :: map SheetBuilder.toCellData after)]
                    "userEnteredValue"])
  /\ (Builder.requests (SheetBuilder.SetRowValues sb row col [] b)
      = Builder.requests b
      /\ Builder.errs (SheetBuilder.SetRowValues sb row col [] b)
         = Builder.errs b
            ++ [ErrorString
                  "SetRowValues: values should not be nil or empty"])
  /\ (Builder.errs (SheetBuilder.SetRangeValues sb row col [[]] b)
      = Builder.errs b
      /\ Builder.requests (SheetBuilder.SetRangeValues sb row col [[]] b)
         = Builder.requests b
            ++ [sheets.UpdateCells
                  (sheets.mkGridCoordinate (sheetID sb) row col)
                  [sheets.mkRowData []]
                  "userEnteredValue"]).
Proof.
  intros Hrow Hcol.
  assert ((row <? 0) = false) as Er by (apply Z.ltb_ge; lia).
  assert ((col <? 0) = false) as Ec by (apply Z.ltb_ge; lia).
  unfold SheetBuilder.SetCellValue, SheetBuilder.SetRowValues,
    SheetBuilder.SetRangeValues.
  rewrite Er, Ec.
  split; [|split; [|split; [|split; [|split]]]].
  - intros value Hv. destruct value; [contradiction| | | | |]; reflexivity.
  - intros values Hv. destruct values as [|v values]; [contradiction|].
    unfold len. cbn [List.length map].
    assert ((Z.of_nat (S (List.length values)) =? 0) = false) as ->
      by (apply Z.eqb_neq; lia).
    reflexivity.
  - destruct b; split; reflexivity.
  - intros before after. unfold len.
    assert ((Z.of_nat (List.length (before ++ AnyNil :: after)) =? 0) = false)
      as ->.
    { apply Z.eqb_neq. rewrite length_app. cbn [List.length]. lia. }
    cbv zeta. rewrite map_app. cbn [map SheetBuilder.toCellData].
    destruct b; split; reflexivity.
  - destruct b; split; reflexivity.
  - destruct b; split; reflexivity.
Qed.

Lemma value_setters_agree_where_they_overlap_witness :
  (0 <= 2 /\ 0 <= 3)
  /\ SheetBuilder.SetCellValue (mkSheetBuilder 7) 2 3 (AnyString "=A1+1")
       Builder.NewBuilder
     = SheetBuilder.SetRangeValues (mkSheetBuilder 7) 2 3
         [[AnyString "=A1+1"]] Builder.NewBuilder
  /\ Builder.requests
       (SheetBuilder.SetRowValues (mkSheetBuilder 7) 2 3
          [AnyBool true; AnyNil] Builder.NewBuilder)
     = [sheets.UpdateCells (sheets.mkGridCoordinate 7 2 3)
          [sheets.mkRowData
             [SheetBuilder.toCellData (AnyBool true); sheets.zeroCellData]]
          "userEnteredValue"].
Proof.
  destruct (value_setters_agree_where_they_overlap
              (mkSheetBuilder 7) 2 3 Builder.NewBuilder
              ltac:(lia) ltac:(lia))
    as (Hcell & Hrow & _ & Hnil & _).
  split; [lia|]. split.
  - rewrite (Hcell (AnyString "=A1+1") ltac:(discriminate)).
    apply Hrow. discriminate.
  - exact (proj2 (Hnil [AnyBool true] [])).
Defined.

(** X27. [ClearColValues] and [ClearRowValues] with valid arguments are
    [ClearRangeValues] of the rectangle with the height, respectively the
    width, [toEnd]. And for a rectangle that the validation accepts, a
    height or a width of 0 clears as [toEnd] does: the range of the
    operation has no end in that direction. *)
Theorem clears_by_column_and_by_row_are_clears_of_a_range
    (sb : SheetBuilder) (b : Builder.t) :
  (forall col width skipRows,
      0 <= col -> 1 <= width -> 0 <= skipRows ->
      SheetBuilder.ClearColValues sb col width skipRows b
      = SheetBuilder.ClearRangeValues sb
          (Some (mkRect skipRows col SheetBuilder.toEnd width)) b)
  /\ (forall row height skipCols,
        0 <= row -> 1 <= height -> 0 <= skipCols ->
        SheetBuilder.ClearRowValues sb row height skipCols b
        = SheetBuilder.ClearRangeValues sb
            (Some (mkRect row skipCols height SheetBuilder.toEnd)) b)
  /\ (forall row col width,
        0 <= row -> 0 <= col -> -1 <= width ->
        SheetBuilder.ClearRangeValues sb (Some (mkRect row col 0 width)) b
        = SheetBuilder.ClearRangeValues sb
            (Some (mkRect row col SheetBuilder.toEnd width)) b)
  /\ (forall row col height,
        0 <= row -> 0 <= col -> -1 <= height ->
        SheetBuilder.ClearRangeValues sb (Some (mkRect row col height 0)) b
        = SheetBuilder.ClearRangeValues sb
            (Some (mkRect row col height SheetBuilder.toEnd)) b).
Proof.
  split; [|split; [|split]].
  - intros col width skipRows Hc Hw Hs.
    unfold SheetBuilder.ClearColValues, SheetBuilder.ClearRangeValues.
    rewrite unlessRectInvalid_acceptable
      by (unfold acceptableRect, SheetBuilder.toEnd; cbn; lia).
    assert ((col <? 0) = false) as -> by (apply Z.ltb_ge; lia).
    assert ((width <? 1) = false) as -> by (apply Z.ltb_ge; lia).
    assert ((skipRows <? 0) = false) as -> by (apply Z.ltb_ge; lia).
    reflexivity.
  - intros row height skipCols Hr Hh Hs.
    unfold SheetBuilder.ClearRowValues, SheetBuilder.ClearRangeValues.
    rewrite unlessRectInvalid_acceptable
      by (unfold acceptableRect, SheetBuilder.toEnd; cbn; lia).
    assert ((row <? 0) = false) as -> by (apply Z.ltb_ge; lia).
    assert ((height <? 1) = false) as -> by (apply Z.ltb_ge; lia).
    assert ((skipCols <? 0) = false) as -> by (apply Z.ltb_ge; lia).
    reflexivity.
  - intros row col width Hr Hc Hw.
    unfold SheetBuilder.ClearRangeValues.
    rewrite !unlessRectInvalid_acceptable
      by (unfold acceptableRect, SheetBuilder.toEnd; cbn; lia).
    reflexivity.
  - intros row col height Hr Hc Hh.
    unfold SheetBuilder.ClearRangeValues.
    rewrite !unlessRectInvalid_acceptable
      by (unfold acceptableRect, SheetBuilder.toEnd; cbn; lia).
    reflexivity.
Qed.

Lemma clears_by_column_and_by_row_are_clears_of_a_range_witness :
  Builder.requests
    (SheetBuilder.ClearColValues (mkSheetBuilder 7) 2 3 1 Builder.NewBuilder)
  = [sheets.RepeatCell (sheets.mkGridRange 7 1 0 2 5) sheets.zeroCellData
       "userEnteredValue"]
  /\ SheetBuilder.ClearRangeValues (mkSheetBuilder 7)
       (Some (mkRect 1 2 0 3)) Builder.NewBuilder
     = SheetBuilder.ClearColValues (mkSheetBuilder 7) 2 3 1
         Builder.NewBuilder.
Proof.
  destruct (clears_by_column_and_by_row_are_clears_of_a_range
              (mkSheetBuilder 7) Builder.NewBuilder)
    as (Hcol & _ & Hzero & _).
  split.
  - rewrite (Hcol 2 3 1 ltac:(lia) ltac:(lia) ltac:(lia)). reflexivity.
  - rewrite (Hzero 1 2 3 ltac:(lia) ltac:(lia) ltac:(lia)).
    symmetry. apply Hcol; lia.
Defined.
